(** * Dev3: consensus calculator, autonomous cycle engine and vote storage

  A shallow embedding of the decision core of the Dev3 server:
  - [shared/schema.ts]: the closed enumerations and the stored records;
  - the deliberation service ([parseAIResponse], [calculateConsensus]);
  - the autonomous engine ([getAIRecommendation],
    [determineConsensusAction], [executeAction], [runAutonomousCycle]);
  - the in-memory storage ([MemStorage]).

  Network calls, clocks and random identifiers are inputs of the
  operations that consume them. *)

From stdpp Require Import base gmap strings list pretty.
From Stdlib Require Import ZArith QArith Lia Ascii String.

Close Scope Q_scope.
Local Open Scope string_scope.

(** ** The fragment of JavaScript's value semantics the sources rely on *)
Module Js.

(** A JavaScript number. [Fin q] is a finite double of value [q]. *)
Inductive number : Type :=
| NaN
| Fin (q : Q)
| PosInf
| NegInf.

(** A value of static type [any], as [JSON.parse] hands it over and a
    property read finds it ([JsUndefined] for a missing property).  An
    array is given by the string [Array.prototype.join] renders it to,
    which is what ToPrimitive returns for it; [JsObject] is a plain
    object with no [valueOf] or [toString] property of its own
    (ToPrimitive returns "[object Object]"). *)
Inductive JsValue : Type :=
| JsUndefined
| JsNull
| JsBool (b : bool)
| JsNumber (n : number)
| JsString (s : string)
| JsArray (rendering : string)
| JsObject.

(** ToBoolean, the test behind [||], [!] and [if]. *)
Definition ToBoolean (v : JsValue) : bool :=
  match v with
  | JsUndefined | JsNull => false
  | JsBool b => b
  | JsNumber NaN => false
  | JsNumber (Fin q) => negb (Qeq_bool q 0)
  | JsNumber _ => true
  | JsString s => negb (String.eqb s "")
  | JsArray _ | JsObject => true
  end.

(** [x > k], [x < k] and [x <= k] on numbers, for a finite literal [k].
    Every comparison with NaN is false. *)
Definition number_gt (n : number) (k : Q) : bool :=
  match n with
  | NaN | NegInf => false
  | PosInf => true
  | Fin q => match Qcompare q k with Gt => true | _ => false end
  end.

Definition number_lt (n : number) (k : Q) : bool :=
  match n with
  | NaN | PosInf => false
  | NegInf => true
  | Fin q => match Qcompare q k with Lt => true | _ => false end
  end.

Definition number_le (n : number) (k : Q) : bool :=
  match n with
  | NaN | PosInf => false
  | NegInf => true
  | Fin q => match Qcompare q k with Gt => false | _ => true end
  end.

Section Coercions.
(** StringToNumber (ECMA-262 7.1.4.1.1) is the runtime's; the model is
    parametric in it. *)
Variable StringToNumber : string -> number.

Definition ToNumber (v : JsValue) : number :=
  match v with
  | JsUndefined => NaN
  | JsNull => Fin 0
  | JsBool b => Fin (if b then 1 else 0)
  | JsNumber n => n
  | JsString s => StringToNumber s
  | JsArray rendering => StringToNumber rendering
  | JsObject => NaN
  end.

(** [v > k] and [v <= k] where [k] is a number literal: the other
    operand goes through ToNumber. *)
Definition gt (v : JsValue) (k : Q) : bool := number_gt (ToNumber v) k.
Definition le (v : JsValue) (k : Q) : bool := number_le (ToNumber v) k.

(** Number::toString is the runtime's as well. *)
Variable NumberToString : number -> string.

(** ToString, as a template literal applies it. *)
Definition ToString (v : JsValue) : string :=
  match v with
  | JsUndefined => "undefined"
  | JsNull => "null"
  | JsBool b => if b then "true" else "false"
  | JsNumber n => NumberToString n
  | JsString s => s
  | JsArray rendering => rendering
  | JsObject => "[object Object]"
  end.
End Coercions.

(** [Math.min(a, b)]: NaN when either argument is. *)
Definition Math_min (a b : number) : number :=
  match a, b with
  | NaN, _ | _, NaN => NaN
  | NegInf, _ | _, NegInf => NegInf
  | PosInf, x | x, PosInf => x
  | Fin p, Fin q => match Qcompare p q with Gt => Fin q | _ => Fin p end
  end.

(** A thrown value; [catch] blocks read [error.message] when it is an
    [Error] and fall back to a fixed text otherwise. *)
Inductive Thrown : Type :=
| ErrorObject (message : string)
| OtherThrown.

Definition messageOf (e : Thrown) : string :=
  match e with
  | ErrorObject m => m
  | OtherThrown => "Unknown error"
  end.

End Js.

(** ** shared/schema.ts *)
Module Schema.

Inductive AIModel : Type := grok | chatgpt | claude.

Definition AI_MODELS : list AIModel := [grok; chatgpt; claude].

Definition AI_MODEL_name (m : AIModel) : string :=
  match m with
  | grok => "Grok"
  | chatgpt => "ChatGPT"
  | claude => "Claude"
  end.

Definition AIModel_id (m : AIModel) : string :=
  match m with
  | grok => "grok"
  | chatgpt => "chatgpt"
  | claude => "claude"
  end.

Inductive Vote : Type := approve | reject | abstain.

Definition Vote_text (v : Vote) : string :=
  match v with
  | approve => "approve"
  | reject => "reject"
  | abstain => "abstain"
  end.

Inductive DecisionStatus : Type :=
| pending | deliberating | consensus_reached | deadlock.

Inductive Outcome : Type := approved | rejected | needs_revision.

Definition Outcome_text (o : Outcome) : string :=
  match o with
  | approved => "approved"
  | rejected => "rejected"
  | needs_revision => "needs_revision"
  end.

Inductive Category : Type :=
| architecture | feature | refactor | security | performance
| dependency | other.

Inductive Priority : Type := low | medium | high | critical.

#[global] Instance AIModel_eq_dec : EqDecision AIModel.
Proof. solve_decision. Defined.
#[global] Instance Vote_eq_dec : EqDecision Vote.
Proof. solve_decision. Defined.
#[global] Instance DecisionStatus_eq_dec : EqDecision DecisionStatus.
Proof. solve_decision. Defined.

(** The [{approve, reject, abstain}] object of counts, shared by
    [Consensus.voteSummary] and [AutonomousDecision.votes]. *)
Module Tally.
Record t : Type := mk { approve : nat; reject : nat; abstain : nat }.
Definition total (v : t) : nat := approve v + reject v + abstain v.
End Tally.

Record AIResponse : Type := {
  id : string;
  decisionId : string;
  model : AIModel;
  vote : Vote;
  reasoning : string;
  confidence : Js.number;
  risks : option (list string);
  recommendations : option (list string);
  createdAt : string;
}.

Record InsertAIResponse : Type := {
  ins_decisionId : string;
  ins_model : AIModel;
  ins_vote : Vote;
  ins_reasoning : string;
  ins_confidence : Js.number;
  ins_risks : option (list string);
  ins_recommendations : option (list string);
}.

End Schema.

(** ** The deliberation service: [parseAIResponse], [calculateConsensus] *)
Module Deliberation.
Import Schema.

(** What [parseAIResponse] reads of the object [JSON.parse] returned,
    field by field as each expression consumes it:
    - [parsed_vote]: the [vote] property when it is a string
      ([Array.prototype.includes] matches nothing else);
    - [parsed_reasoning]: the [reasoning] property when it is a string;
    - [parsed_confidence]: the ToString of the [confidence] property,
      which is all [parseInt] looks at ("undefined" when it is missing,
      "85" for the number 85 and for the string "85");
    - [parsed_risks], [parsed_recommendations]: the property when
      [Array.isArray] accepts it. *)
Record ParsedPayload : Type := {
  parsed_vote : option string;
  parsed_reasoning : option string;
  parsed_confidence : string;
  parsed_risks : option (list string);
  parsed_recommendations : option (list string);
}.

(** [Omit<AIDeliberationResult, "model">].  The confidence is the result
    of [Math.min]/[Math.max] over an integer, or the literal 50. *)
Record ParsedResult : Type := {
  pr_vote : Vote;
  pr_reasoning : string;
  pr_confidence : Z;
  pr_risks : list string;
  pr_recommendations : list string;
}.

Record AIDeliberationResult : Type := {
  model : AIModel;
  vote : Vote;
  reasoning : string;
  confidence : Z;
  risks : list string;
  recommendations : list string;
}.

Definition Math_max (a b : Z) : Z := Z.max a b.
Definition Math_min (a b : Z) : Z := Z.min a b.

Section Runtime.

(** [parseInt] (ECMA-262 19.2.5) is the runtime's; the model is
    parametric in it.  It is given the ToString of its argument;
    [None] is NaN, and [Some n] the integer the digits it read denote,
    with their sign.  JavaScript returns the double nearest to that
    integer, which changes neither whether it is zero nor where
    [Math.min(100, Math.max(0, _))] puts it. *)
Variable parseInt : string -> option Z.

(** [parseInt(parsed.confidence) || 50]: NaN and 0 are falsy. *)
Definition confidenceOrDefault (text : string) : Z :=
  match parseInt text with
  | None => 50
  | Some 0%Z => 50
  | Some n => n
  end.

(** [s || fallback] on a string-or-missing operand: the empty string is
    falsy too. *)
Definition stringOr (s : option string) (fallback : string) : string :=
  match s with
  | Some t => if String.eqb t "" then fallback else t
  | None => fallback
  end.

(** [parseAIResponse(content)].  [parsed] is what the [try] block got out
    of [JSON.parse] after stripping the code fence, [None] when anything
    in the block threw (the [catch] branch). *)
Definition parseAIResponse (content : string) (parsed : option ParsedPayload)
  : ParsedResult :=
  match parsed with
  | Some p =>
      {| pr_vote :=
           match parsed_vote p with
           | Some "approve" => approve
           | Some "reject" => reject
           | _ => abstain
           end;
         pr_reasoning := stringOr (parsed_reasoning p) "No reasoning provided";
         pr_confidence :=
           Math_min 100 (Math_max 0 (confidenceOrDefault (parsed_confidence p)));
         pr_risks := default [] (parsed_risks p);
         pr_recommendations := default [] (parsed_recommendations p) |}
  | None =>
      {| pr_vote := abstain;
         pr_reasoning := stringOr (Some content) "Failed to generate response";
         pr_confidence := 50;
         pr_risks := ["Response parsing failed"];
         pr_recommendations := ["Review manually"] |}
  end.

(** [getModelResponse]: the chat completion either throws or returns a
    content, and an empty content is turned into an error; whatever is
    thrown is re-thrown as an [Error] naming the voter. *)
Inductive Completion : Type :=
| CompletionFailed (e : Js.Thrown)
| CompletionContent (content : string) (parsed : option ParsedPayload).

Definition getModelResponse (m : AIModel) (c : Completion)
  : Js.Thrown + AIDeliberationResult :=
  let rethrow (e : Js.Thrown) :=
    Js.ErrorObject (AI_MODEL_name m ++ " failed: " ++ Js.messageOf e) in
  match c with
  | CompletionFailed e => inl (rethrow e)
  | CompletionContent content parsed =>
      if String.eqb content ""
      then inl (rethrow (Js.ErrorObject ("Empty response from " ++ AI_MODEL_name m)))
      else
        let r := parseAIResponse content parsed in
        inr {| model := m;
               vote := pr_vote r;
               reasoning := pr_reasoning r;
               confidence := pr_confidence r;
               risks := pr_risks r;
               recommendations := pr_recommendations r |}
  end.

End Runtime.

Record ConsensusData : Type := {
  outcome : Outcome;
  unanimity : bool;
  voteSummary : Tally.t;
  synthesizedReasoning : string;
  actionItems : list string;
}.

Definition LF : string := String (ascii_of_nat 10) EmptyString.

(** [parts.join(sep)] *)
Fixpoint join (sep : string) (parts : list string) : string :=
  match parts with
  | [] => ""
  | [p] => p
  | p :: rest => p ++ sep ++ join sep rest
  end.

(** [Array.from(new Set(xs))]: the first occurrence of each string, in
    order of first appearance. *)
Fixpoint uniqueInOrder (seen xs : list string) : list string :=
  match xs with
  | [] => []
  | x :: rest =>
      if bool_decide (x ∈ seen) then uniqueInOrder seen rest
      else x :: uniqueInOrder (x :: seen) rest
  end.

Definition votesFor (v : Vote) (responses : list AIDeliberationResult) : nat :=
  List.length (filter (fun r => vote r = v) responses).

Definition calculateConsensus (responses : list AIDeliberationResult)
  : ConsensusData :=
  let voteSummary :=
    Tally.mk (votesFor approve responses)
             (votesFor reject responses)
             (votesFor abstain responses) in
  let outcome :=
    if (2 <=? Tally.approve voteSummary)%nat then approved
    else if (2 <=? Tally.reject voteSummary)%nat then rejected
    else needs_revision in
  let unanimity :=
    (Tally.approve voteSummary =? 3)%nat || (Tally.reject voteSummary =? 3)%nat in
  let synthesizedReasoning :=
    join (LF ++ LF)
      (map (fun r =>
              AI_MODEL_name (model r) ++ " (" ++ Vote_text (vote r) ++ ", "
              ++ pretty (confidence r) ++ "% confidence): " ++ reasoning r)
           responses) in
  let allRecommendations := flat_map recommendations responses in
  {| outcome := outcome;
     unanimity := unanimity;
     voteSummary := voteSummary;
     synthesizedReasoning := synthesizedReasoning;
     actionItems := uniqueInOrder [] allRecommendations |}.

End Deliberation.

(** ** The autonomous engine *)
Module Autonomous.
Import Schema.

Inductive ActionType : Type :=
| buyback | burn | hold | sell_partial | claim_rewards.

#[global] Instance ActionType_eq_dec : EqDecision ActionType.
Proof. solve_decision. Defined.

Definition ActionType_text (a : ActionType) : string :=
  match a with
  | buyback => "buyback"
  | burn => "burn"
  | hold => "hold"
  | sell_partial => "sell_partial"
  | claim_rewards => "claim_rewards"
  end.

(** [model.toUpperCase()] *)
Definition AIModel_upper (m : AIModel) : string :=
  match m with
  | grok => "GROK"
  | chatgpt => "CHATGPT"
  | claude => "CLAUDE"
  end.

Record WalletBalance : Type := { sol : Js.number; lamports : Js.number }.

Record TokenInfo : Type := {
  mint : string;
  name : string;
  symbol : string;
  createdAt : string;
}.

Record MarketData : Type := {
  price : Js.number;
  marketCap : Js.number;
  volume24h : Js.number;
  priceChange24h : Js.number;
  holders : Js.number;
}.

Record AutonomousContext : Type := {
  balance : WalletBalance;
  token : option TokenInfo;
  market : option MarketData;
  recentDecisions : list ActionType;
  timestamp : string;
}.

(** The [confidence] of a recommendation is declared [number], but it is
    filled from a [JSON.parse] result without a check: it holds whatever
    value the voter put there. *)
Record AIActionRecommendation : Type := {
  model : AIModel;
  action : ActionType;
  reasoning : string;
  confidence : Js.JsValue;
  amount : option Js.number;
}.

Record AutonomousDecision : Type := {
  id : string;
  decision_action : ActionType;
  decision_reasoning : string;
  votes : Tally.t;
  executed : bool;
  result : option string;
  decision_timestamp : string;
}.

(** The object [JSON.parse] returned to [getAIRecommendation]: [action],
    [reasoning] and [amount] at their declared types ([None] when
    missing), [confidence] as the value found. *)
Record ParsedRecommendation : Type := {
  parsed_action : option ActionType;
  parsed_reasoning : option string;
  parsed_confidence : Js.JsValue;
  parsed_amount : option Js.number;
}.

(** What one chat completion leads to inside [getAIRecommendation]. *)
Inductive ChatReply : Type :=
| RequestFailed (e : Js.Thrown)
| NoJsonObject
| MalformedJson (e : Js.Thrown)
| ParsedObject (p : ParsedRecommendation).

Definition getAIRecommendation (m : AIModel) (reply : ChatReply)
  : Js.Thrown + AIActionRecommendation :=
  match reply with
  | RequestFailed e => inl e
  | NoJsonObject =>
      inl (Js.ErrorObject ("No JSON found in " ++ AIModel_id m ++ " response"))
  | MalformedJson e => inl e
  | ParsedObject p =>
      inr {| model := m;
             action := default hold (parsed_action p);
             reasoning :=
               Deliberation.stringOr (parsed_reasoning p) "No reasoning provided";
             confidence :=
               if Js.ToBoolean (parsed_confidence p) then parsed_confidence p
               else Js.JsNumber (Js.Fin 50);
             amount := parsed_amount p |}
  end.

(** The [actionCounts] object: its keys in creation order, which is the
    order [Object.entries] walks them in. *)
Definition initialCounts : list (ActionType * nat) :=
  [(buyback, 0%nat); (burn, 0%nat); (hold, 0%nat); (sell_partial, 0%nat);
   (claim_rewards, 0%nat)].

(** [actionCounts[a]++] *)
Fixpoint increment (a : ActionType) (counts : list (ActionType * nat))
  : list (ActionType * nat) :=
  match counts with
  | [] => []
  | (k, c) :: rest =>
      if decide (k = a) then (k, S c) :: rest else (k, c) :: increment a rest
  end.

(** The keys of [actionCounts], in the order [Object.entries] yields
    them, and the position of an action in that order. *)
Definition enumeration : list ActionType :=
  [buyback; burn; hold; sell_partial; claim_rewards].

Definition rank (a : ActionType) : nat :=
  match a with
  | buyback => 0
  | burn => 1
  | hold => 2
  | sell_partial => 3
  | claim_rewards => 4
  end.

(** The first action of the enumeration that some recommendation names. *)
Definition firstNamed (actions : list ActionType) : option ActionType :=
  find (fun a => bool_decide (a ∈ actions)) enumeration.

(** The second loop of [determineConsensusAction]: one step per entry,
    on the pair [(consensusAction, maxVotes)]. *)
Definition leaderStep (st : ActionType * nat) (entry : ActionType * nat)
  : ActionType * nat :=
  if (snd st <? snd entry)%nat then entry else st.

Definition pluralityLeader (counts : list (ActionType * nat))
  : ActionType * nat :=
  fold_left leaderStep counts (hold, 0%nat).

(** One settled promise per voter, and the order in which they settle. *)
Fixpoint firstRejection {R : Type} (settled : list (Js.Thrown + R))
  : option Js.Thrown :=
  match settled with
  | [] => None
  | inl e :: _ => Some e
  | inr _ :: rest => firstRejection rest
  end.

Fixpoint fulfilled {R : Type} (settled : list (Js.Thrown + R)) : list R :=
  match settled with
  | [] => []
  | inl _ :: rest => fulfilled rest
  | inr r :: rest => r :: fulfilled rest
  end.

(** [Promise.all(models.map(f))]: rejects with the reason of the promise
    that rejects first in time, [race] being the order of settlement;
    otherwise fulfils with the values in the order of [models]. *)
Definition Promise_all {R : Type} (models race : list AIModel)
    (f : AIModel -> Js.Thrown + R) : Js.Thrown + list R :=
  match firstRejection (map f (race ++ models)) with
  | Some e => inl e
  | None => inr (fulfilled (map f models))
  end.

(** The calls that reach the trading API. *)
Inductive TradeCall : Type :=
| BuyToken (mint : string) (solAmount : Js.number)
| SellToken (mint : string) (percentage : string)
| BurnTokens (mint : string) (percentage : Js.number)
| ClaimCreatorFees (pool : string).

Record TradeResult : Type := {
  success : bool;
  signature : option string;
  error : option string;
}.

(** [`${x}`] on an optional string *)
Definition showOptional (s : option string) : string := default "undefined" s.

(** [lastDecisions.unshift(d)] followed by the cap at 100 entries. *)
Definition pushDecision (d : AutonomousDecision)
    (lastDecisions : list AutonomousDecision) : list AutonomousDecision :=
  let l := d :: lastDecisions in
  if (100 <? List.length l)%nat then take 100 l else l.

Record Clock : Type := {
  contextTime : string;
  decisionMillis : Z;
  decisionTime : string;
}.

(** The promise [runAutonomousCycle] returns, the [lastDecisions] it
    leaves behind and the trading calls it made. *)
Record CycleOutcome : Type := {
  returned : Js.Thrown + AutonomousDecision;
  history : list AutonomousDecision;
  trades : list TradeCall;
}.

Section Engine.

(** The runtime's conversions and its floating-point product. *)
Variable StringToNumber : string -> Js.number.
Variable NumberToString : Js.number -> string.
Variable Number_mul : Js.number -> Js.number -> Js.number.

(** The trading API ([pumpportal.ts]): each call throws or returns a
    [TradeResult]. *)
Variable tradingApi : TradeCall -> Js.Thrown + TradeResult.

Definition counted (rec : AIActionRecommendation) : bool :=
  Js.gt StringToNumber (confidence rec) 30.

(** The recommendations for [a] that the first loop counts. *)
Definition qualifyingVotes (a : ActionType)
    (recommendations : list AIActionRecommendation) : nat :=
  List.length
    (filter (fun r => counted r = true /\ action r = a) recommendations).

(** The first loop of [determineConsensusAction]. *)
Definition tallyActions (recommendations : list AIActionRecommendation)
  : list (ActionType * nat) :=
  fold_left
    (fun counts rec => if counted rec then increment (action rec) counts else counts)
    recommendations initialCounts.

Definition determineConsensusAction
    (recommendations : list AIActionRecommendation)
  : ActionType * string * Tally.t :=
  let actionCounts := tallyActions recommendations in
  let '(leader, maxVotes) := pluralityLeader actionCounts in
  let consensusAction := if (maxVotes <? 2)%nat then hold else leader in
  let reasoning :=
    Deliberation.join (Deliberation.LF ++ Deliberation.LF)
      (map (fun r =>
              AIModel_upper (model r) ++ ": " ++ ActionType_text (action r)
              ++ " (" ++ Js.ToString NumberToString (confidence r) ++ "%) - "
              ++ reasoning r)
           recommendations) in
  let confident r := Js.gt StringToNumber (confidence r) 50 in
  (consensusAction, reasoning,
   Tally.mk
     (List.length
        (filter (fun r => action r = consensusAction /\ confident r = true)
           recommendations))
     (List.length
        (filter (fun r => action r <> consensusAction /\ confident r = true)
           recommendations))
     (List.length
        (filter (fun r => Js.le StringToNumber (confidence r) 50 = true)
           recommendations))).

(** [executeAction]: the text it returns (or what it throws) and the
    trading calls it made. *)
Definition executeAction (a : ActionType) (context : AutonomousContext)
  : (Js.Thrown + string) * list TradeCall :=
  match token context with
  | None => (inr "No token created yet - cannot execute action", [])
  | Some tok =>
      let call (c : TradeCall) (render : TradeResult -> string) :=
        (match tradingApi c with
         | inl e => inl e
         | inr r => inr (render r)
         end, [c]) in
      match a with
      | buyback =>
          if Js.number_lt (sol (balance context)) (1 # 100)
          then (inr "Insufficient SOL for buyback", [])
          else
            let buyAmount :=
              Js.Math_min (Number_mul (sol (balance context)) (Js.Fin (1 # 10)))
                          (Js.Fin (1 # 10)) in
            call (BuyToken (mint tok) buyAmount)
              (fun r =>
                 if success r
                 then "Buyback executed: " ++ NumberToString buyAmount
                      ++ " SOL - tx: " ++ showOptional (signature r)
                 else "Buyback failed: " ++ showOptional (error r))
      | sell_partial =>
          call (SellToken (mint tok) "10%")
            (fun r =>
               if success r
               then "Sell executed: 10% of tokens - tx: " ++ showOptional (signature r)
               else "Sell failed: " ++ showOptional (error r))
      | burn =>
          call (BurnTokens (mint tok) (Js.Fin 10))
            (fun r =>
               if success r
               then "Burn executed: 10% of tokens permanently burned - tx: "
                    ++ showOptional (signature r)
               else "Burn failed: " ++ showOptional (error r))
      | claim_rewards =>
          call (ClaimCreatorFees "pump")
            (fun r =>
               if success r
               then "Creator fees claimed - tx: " ++ showOptional (signature r)
               else "Claim failed: " ++ showOptional (error r))
      | hold => (inr "No action taken - HOLD", [])
      end
  end.

(** [runAutonomousCycle], from the point where the wallet state, the
    balance and the market data have been read: [replies] is what each
    voter's chat completion leads to, [race] the order in which the three
    promises settle.  The cycle is taken on its own: [lastDecisions] is
    the history both when the context is built and when the record is
    pushed. *)
Definition runAutonomousCycle
    (lastDecisions : list AutonomousDecision)
    (tok : option TokenInfo) (bal : WalletBalance) (mkt : option MarketData)
    (clock : Clock) (replies : AIModel -> ChatReply) (race : list AIModel)
  : CycleOutcome :=
  let context :=
    {| balance := bal; token := tok; market := mkt;
       recentDecisions := map decision_action (take 5 lastDecisions);
       timestamp := contextTime clock |} in
  let models := [grok; chatgpt; claude] in
  match Promise_all models race (fun m => getAIRecommendation m (replies m)) with
  | inl thrown =>
      let errorMsg := Js.messageOf thrown in
      let failedDecision :=
        {| id := "auto-" ++ pretty (decisionMillis clock);
           decision_action := hold;
           decision_reasoning :=
             "Cycle aborted: AI deliberation failed - " ++ errorMsg;
           votes := Tally.mk 0 0 3;
           executed := false;
           result := Some ("ERROR: " ++ errorMsg);
           decision_timestamp := decisionTime clock |} in
      {| returned := inr failedDecision;
         history := pushDecision failedDecision lastDecisions;
         trades := [] |}
  | inr recommendations =>
      let '(consensusAction, consensusReasoning, consensusVotes) :=
        determineConsensusAction recommendations in
      let record (executed_ : bool) (result_ : string) :=
        {| id := "auto-" ++ pretty (decisionMillis clock);
           decision_action := consensusAction;
           decision_reasoning := consensusReasoning;
           votes := consensusVotes;
           executed := executed_;
           result := Some result_;
           decision_timestamp := decisionTime clock |} in
      if negb (bool_decide (consensusAction = hold))
         && (2 <=? Tally.approve consensusVotes)%nat
      then
        match executeAction consensusAction context with
        | (inl thrown, calls) =>
            {| returned := inl thrown; history := lastDecisions; trades := calls |}
        | (inr text, calls) =>
            let decision := record true text in
            {| returned := inr decision;
               history := pushDecision decision lastDecisions;
               trades := calls |}
        end
      else
        let decision := record false "Action not executed - HOLD consensus" in
        {| returned := inr decision;
           history := pushDecision decision lastDecisions;
           trades := [] |}
  end.

End Engine.

End Autonomous.

(** ** The in-memory storage ([MemStorage]) *)
Module Storage.
Import Schema.

Record Consensus : Type := {
  consensus_id : string;
  consensus_decisionId : string;
  outcome : Outcome;
  unanimity : bool;
  voteSummary : Tally.t;
  synthesizedReasoning : string;
  actionItems : option (list string);
  consensus_createdAt : string;
}.

(** [Omit<Consensus, "id" | "decisionId" | "createdAt">] *)
Record ConsensusInput : Type := {
  in_outcome : Outcome;
  in_unanimity : bool;
  in_voteSummary : Tally.t;
  in_synthesizedReasoning : string;
  in_actionItems : option (list string);
}.

Record InsertDecision : Type := {
  ins_title : string;
  ins_description : string;
  ins_context : option string;
  ins_category : Category;
  ins_priority : Priority;
}.

(** [Partial<InsertDecision>] *)
Record UpdateDecision : Type := {
  upd_title : option string;
  upd_description : option string;
  upd_context : option string;
  upd_category : option Category;
  upd_priority : option Priority;
}.

Record Decision : Type := {
  decision_id : string;
  title : string;
  description : string;
  context : option string;
  category : Category;
  priority : Priority;
  status : DecisionStatus;
  responses : list AIResponse;
  consensus : option Consensus;
  decision_createdAt : string;
  updatedAt : string;
}.

Inductive ActivityType : Type :=
| decision_created | deliberation_started | deliberation_completed
| consensus_approved | consensus_rejected | consensus_needs_revision
| decision_deleted.

(** The [metadata] objects the storage writes. *)
Inductive Metadata : Type :=
| CreatedMeta (c : Category) (p : Priority)
| CompletedMeta (unanimity : bool) (votes : Tally.t)
| OutcomeMeta (unanimity : bool).

Record ActivityLog : Type := {
  log_id : string;
  log_type : ActivityType;
  log_decisionId : option string;
  log_decisionTitle : option string;
  log_outcome : option string;
  log_metadata : option Metadata;
  log_timestamp : string;
}.

Record MemStorage : Type := {
  decisions : gmap string Decision;
  aiResponses : gmap string (list AIResponse);
  consensuses : gmap string Consensus;
  activityLogs : list ActivityLog;
}.

(** [new MemStorage()] *)
Definition empty : MemStorage :=
  {| decisions := ∅; aiResponses := ∅; consensuses := ∅; activityLogs := [] |}.

(** One [randomUUID()] and one [new Date().toISOString()], as the
    operations draw them. *)
Record Stamp : Type := { uuid : string; now : string }.

Definition logActivity (st : MemStorage) (stamp : Stamp) (type : ActivityType)
    (decisionId decisionTitle outcome_ : option string)
    (metadata : option Metadata) : MemStorage :=
  {| decisions := decisions st;
     aiResponses := aiResponses st;
     consensuses := consensuses st;
     activityLogs :=
       activityLogs st ++
       [{| log_id := uuid stamp; log_type := type;
           log_decisionId := decisionId; log_decisionTitle := decisionTitle;
           log_outcome := outcome_; log_metadata := metadata;
           log_timestamp := now stamp |}] |}.

Definition setDecisions (st : MemStorage) (d : gmap string Decision) : MemStorage :=
  {| decisions := d; aiResponses := aiResponses st;
     consensuses := consensuses st; activityLogs := activityLogs st |}.

Definition setResponses (st : MemStorage) (r : gmap string (list AIResponse))
  : MemStorage :=
  {| decisions := decisions st; aiResponses := r;
     consensuses := consensuses st; activityLogs := activityLogs st |}.

Definition setConsensuses (st : MemStorage) (c : gmap string Consensus)
  : MemStorage :=
  {| decisions := decisions st; aiResponses := aiResponses st;
     consensuses := c; activityLogs := activityLogs st |}.

Definition createDecision (st : MemStorage) (ins : InsertDecision)
    (stamp logStamp : Stamp) : MemStorage * Decision :=
  let decision :=
    {| decision_id := uuid stamp;
       title := ins_title ins; description := ins_description ins;
       context := ins_context ins; category := ins_category ins;
       priority := ins_priority ins;
       status := pending; responses := []; consensus := None;
       decision_createdAt := now stamp; updatedAt := now stamp |} in
  let st := setDecisions st (<[uuid stamp := decision]> (decisions st)) in
  let st := setResponses st (<[uuid stamp := []]> (aiResponses st)) in
  (logActivity st logStamp decision_created (Some (uuid stamp))
     (Some (title decision)) None
     (Some (CreatedMeta (category decision) (priority decision))),
   decision).

(** The stored decision with the current responses and consensus. *)
Definition withDerived (st : MemStorage) (key : string) (d : Decision) : Decision :=
  {| decision_id := decision_id d; title := title d;
     description := description d; context := context d;
     category := category d; priority := priority d; status := status d;
     responses := default [] (aiResponses st !! key);
     consensus := consensuses st !! key;
     decision_createdAt := decision_createdAt d; updatedAt := updatedAt d |}.

Definition getDecision (st : MemStorage) (key : string) : option Decision :=
  match decisions st !! key with
  | None => None
  | Some d => Some (withDerived st key d)
  end.

Definition updateDecision (st : MemStorage) (key : string) (u : UpdateDecision)
    (nowStamp : string) : MemStorage * option Decision :=
  match decisions st !! key with
  | None => (st, None)
  | Some d =>
      let updated :=
        {| decision_id := decision_id d;
           title := default (title d) (upd_title u);
           description := default (description d) (upd_description u);
           context :=
             match upd_context u with Some c => Some c | None => context d end;
           category := default (category d) (upd_category u);
           priority := default (priority d) (upd_priority u);
           status := status d; responses := responses d;
           consensus := consensus d;
           decision_createdAt := decision_createdAt d;
           updatedAt := nowStamp |} in
      let st := setDecisions st (<[key := updated]> (decisions st)) in
      (st, Some (withDerived st key updated))
  end.

Definition deleteDecision (st : MemStorage) (key : string) (logStamp : Stamp)
  : MemStorage * bool :=
  let st1 :=
    match decisions st !! key with
    | Some d =>
        logActivity st logStamp decision_deleted (Some key) (Some (title d))
          None None
    | None => st
    end in
  ({| decisions := delete key (decisions st1);
      aiResponses := delete key (aiResponses st1);
      consensuses := delete key (consensuses st1);
      activityLogs := activityLogs st1 |},
   bool_decide (is_Some (decisions st !! key))).

(** [responses.findIndex(r => r.model === m)]: [None] stands for -1. *)
Fixpoint findIndex (m : AIModel) (rs : list AIResponse) : option nat :=
  match rs with
  | [] => None
  | r :: rest =>
      if decide (model r = m) then Some 0%nat
      else match findIndex m rest with
           | Some i => Some (S i)
           | None => None
           end
  end.

(** [AI_MODELS.every(model => responses.some(r => r.model === model))] *)
Definition allResponded (rs : list AIResponse) : bool :=
  forallb (fun m => existsb (fun r => bool_decide (model r = m)) rs) AI_MODELS.

Definition addAIResponse (st : MemStorage) (ins : InsertAIResponse)
    (stamp : Stamp) (statusNow : string) (logStamp : Stamp)
  : MemStorage * AIResponse :=
  let response :=
    {| id := uuid stamp; decisionId := ins_decisionId ins;
       model := ins_model ins; vote := ins_vote ins;
       reasoning := ins_reasoning ins; confidence := ins_confidence ins;
       risks := ins_risks ins; recommendations := ins_recommendations ins;
       createdAt := now stamp |} in
  let key := ins_decisionId ins in
  let responses := default [] (aiResponses st !! key) in
  let responses :=
    match findIndex (model response) responses with
    | Some existingIndex => <[existingIndex := response]> responses
    | None => (responses ++ [response])%list
    end in
  let st := setResponses st (<[key := responses]> (aiResponses st)) in
  let st :=
    match decisions st !! key with
    | Some d =>
        if allResponded responses && bool_decide (status d = pending)
        then
          let d' :=
            {| decision_id := decision_id d; title := title d;
               description := description d; context := context d;
               category := category d; priority := priority d;
               status := deliberating; responses := Storage.responses d;
               consensus := consensus d;
               decision_createdAt := decision_createdAt d;
               updatedAt := statusNow |} in
          logActivity (setDecisions st (<[key := d']> (decisions st))) logStamp
            deliberation_started (Some (decision_id d')) (Some (title d'))
            None None
        else st
    | None => st
    end in
  (st, response).

Definition getAIResponses (st : MemStorage) (key : string) : list AIResponse :=
  default [] (aiResponses st !! key).

Definition setConsensus (st : MemStorage) (key : string) (data : ConsensusInput)
    (stamp : Stamp) (statusNow : string) (logStamp1 logStamp2 : Stamp)
  : MemStorage * option Consensus :=
  match decisions st !! key with
  | None => (st, None)
  | Some d =>
      let c :=
        {| consensus_id := uuid stamp; consensus_decisionId := key;
           outcome := in_outcome data; unanimity := in_unanimity data;
           voteSummary := in_voteSummary data;
           synthesizedReasoning := in_synthesizedReasoning data;
           actionItems := in_actionItems data;
           consensus_createdAt := now stamp |} in
      let st := setConsensuses st (<[key := c]> (consensuses st)) in
      let d' :=
        {| decision_id := decision_id d; title := title d;
           description := description d; context := context d;
           category := category d; priority := priority d;
           status := consensus_reached; responses := responses d;
           consensus := consensus d;
           decision_createdAt := decision_createdAt d;
           updatedAt := statusNow |} in
      let st := setDecisions st (<[key := d']> (decisions st)) in
      let st :=
        logActivity st logStamp1 deliberation_completed (Some key)
          (Some (title d')) (Some (Outcome_text (outcome c)))
          (Some (CompletedMeta (unanimity c) (voteSummary c))) in
      let outcomeType :=
        match outcome c with
        | approved => consensus_approved
        | rejected => consensus_rejected
        | needs_revision => consensus_needs_revision
        end in
      (logActivity st logStamp2 outcomeType (Some key) (Some (title d'))
         (Some (Outcome_text (outcome c))) (Some (OutcomeMeta (unanimity c))),
       Some c)
  end.

(** The calls a client of the storage can make, and the states they
    lead to from a fresh store. *)
Inductive Call : Type :=
| CreateDecision (ins : InsertDecision) (stamp logStamp : Stamp)
| UpdateDecisionCall (key : string) (u : UpdateDecision) (nowStamp : string)
| DeleteDecision (key : string) (logStamp : Stamp)
| AddAIResponse (ins : InsertAIResponse) (stamp : Stamp) (statusNow : string)
    (logStamp : Stamp)
| SetConsensus (key : string) (data : ConsensusInput) (stamp : Stamp)
    (statusNow : string) (logStamp1 logStamp2 : Stamp).

Definition step (st : MemStorage) (c : Call) : MemStorage :=
  match c with
  | CreateDecision ins stamp logStamp => fst (createDecision st ins stamp logStamp)
  | UpdateDecisionCall key u nowStamp => fst (updateDecision st key u nowStamp)
  | DeleteDecision key logStamp => fst (deleteDecision st key logStamp)
  | AddAIResponse ins stamp statusNow logStamp =>
      fst (addAIResponse st ins stamp statusNow logStamp)
  | SetConsensus key data stamp statusNow l1 l2 =>
      fst (setConsensus st key data stamp statusNow l1 l2)
  end.

Definition run (calls : list Call) : MemStorage := fold_left step calls empty.

(** The list [addAIResponse] stores for the decision of [ins]. *)
Definition storedAfter (st : MemStorage) (ins : InsertAIResponse)
    (response : AIResponse) : list AIResponse :=
  let responses := default [] (aiResponses st !! ins_decisionId ins) in
  match findIndex (model response) responses with
  | Some existingIndex => <[existingIndex := response]> responses
  | None => (responses ++ [response])%list
  end.

(** No list of the store names a voter twice. *)
Definition distinctVoters (st : MemStorage) : Prop :=
  forall key rs, aiResponses st !! key = Some rs -> NoDup (map model rs).

End Storage.

(** ** Reading the storage, and what its states have in common *)
Module StorageViews.
Import Schema Storage.

Definition getConsensus (st : MemStorage) (key : string) : option Consensus :=
  consensuses st !! key.

(** The status of every stored decision agrees with the votes and the
    consensus stored beside it, and a consensus is stored only for a
    decision that exists. *)
Definition coherent (st : MemStorage) : Prop :=
  (forall key d, decisions st !! key = Some d ->
     decision_id d = key
     /\ status d <> deadlock
     /\ (status d = pending -> allResponded (getAIResponses st key) = false)
     /\ (status d = deliberating ->
         allResponded (getAIResponses st key) = true)
     /\ (status d = consensus_reached -> is_Some (consensuses st !! key)))
  /\ (forall key, is_Some (consensuses st !! key) ->
      is_Some (decisions st !! key)).

End StorageViews.

(** ** The engine's switch: [startAutonomousEngine], [stopAutonomousEngine] *)
Module EngineControl.
Import Schema Autonomous.

(** The module-level variables of the engine; [intervalId] holds the
    handle [setInterval] returned. *)
Record Engine : Type := {
  lastDecisions : list AutonomousDecision;
  isRunning : bool;
  intervalId : option nat;
}.

Definition initial : Engine :=
  {| lastDecisions := []; isRunning := false; intervalId := None |}.

(** What a call asks of the runtime: a first cycle launched at once, a
    timer installed, a timer removed. *)
Inductive Effect : Type :=
| CycleLaunched
| IntervalSet (intervalMs : Z) (handle : nat)
| IntervalCleared (handle : nat).

(** [startAutonomousEngine(intervalMs)]; [handle] is what [setInterval]
    returns when it is called. *)
Definition startAutonomousEngine (e : Engine) (intervalMs : Z) (handle : nat)
  : Engine * list Effect :=
  if isRunning e then (e, [])
  else
    ({| lastDecisions := lastDecisions e; isRunning := true;
        intervalId := Some handle |},
     [CycleLaunched; IntervalSet intervalMs handle]).

Definition stopAutonomousEngine (e : Engine) : Engine * list Effect :=
  let cleared :=
    match intervalId e with
    | Some handle => [IntervalCleared handle]
    | None => []
    end in
  ({| lastDecisions := lastDecisions e; isRunning := false;
      intervalId := None |}, cleared).

(** The end of a cycle that returns a decision: [unshift] and the cap. *)
Definition recordDecision (e : Engine) (d : AutonomousDecision) : Engine :=
  {| lastDecisions := pushDecision d (lastDecisions e);
     isRunning := isRunning e; intervalId := intervalId e |}.

Definition getAutonomousDecisions (e : Engine) : list AutonomousDecision :=
  lastDecisions e.

Record EngineStatus : Type := {
  running : bool;
  lastCycle : option string;
  decisionsCount : nat;
}.

(** [lastDecisions[0]?.timestamp || null]: an empty timestamp is falsy. *)
Definition getEngineStatus (e : Engine) : EngineStatus :=
  {| running := isRunning e;
     lastCycle :=
       match head (lastDecisions e) with
       | Some d =>
           if String.eqb (decision_timestamp d) "" then None
           else Some (decision_timestamp d)
       | None => None
       end;
     decisionsCount := List.length (lastDecisions e) |}.

(** What happens to the engine over time. *)
Inductive Event : Type :=
| Start (intervalMs : Z) (handle : nat)
| Stop
| CycleReturned (d : AutonomousDecision).

Definition handle (st : Engine * list Effect) (ev : Event)
  : Engine * list Effect :=
  let '(e, done) := st in
  match ev with
  | Start intervalMs h =>
      let '(e', effects) := startAutonomousEngine e intervalMs h in
      (e', (done ++ effects)%list)
  | Stop =>
      let '(e', effects) := stopAutonomousEngine e in
      (e', (done ++ effects)%list)
  | CycleReturned d => (recordDecision e d, done)
  end.

Definition play (events : list Event) : Engine * list Effect :=
  fold_left handle events (initial, []).

(** Timers installed and not yet removed, counted over the effects. *)
Fixpoint liveTimers (effects : list Effect) : Z :=
  match effects with
  | [] => 0
  | IntervalSet _ _ :: rest => 1 + liveTimers rest
  | IntervalCleared _ :: rest => liveTimers rest - 1
  | CycleLaunched :: rest => liveTimers rest
  end.

End EngineControl.

(** ** Route handlers of [routes.ts] that drive the storage *)
Module Routes.
Import Schema Storage.

#[global] Instance Outcome_eq_dec : EqDecision Outcome.
Proof. solve_decision. Defined.
#[global] Instance Category_eq_dec : EqDecision Category.
Proof. solve_decision. Defined.
#[global] Instance Priority_eq_dec : EqDecision Priority.
Proof. solve_decision. Defined.

Definition Category_text (c : Category) : string :=
  match c with
  | architecture => "architecture"
  | feature => "feature"
  | refactor => "refactor"
  | security => "security"
  | performance => "performance"
  | dependency => "dependency"
  | other => "other"
  end.

Definition Priority_text (p : Priority) : string :=
  match p with
  | low => "low"
  | medium => "medium"
  | high => "high"
  | critical => "critical"
  end.

(** *** GET /api/stats *)
Record Stats : Type := {
  totalDecisions : nat;
  byStatus_pending : nat;
  byStatus_deliberating : nat;
  byStatus_consensus_reached : nat;
  byStatus_deadlock : nat;
  byCategory : gmap string nat;
  byPriority : gmap string nat;
  outcomes_approved : nat;
  outcomes_rejected : nat;
  outcomes_needs_revision : nat;
  unanimousDecisions : nat;
}.

(** [m[key] = (m[key] || 0) + 1] *)
Definition bump (key : string) (m : gmap string nat) : gmap string nat :=
  <[key := (default 0%nat (m !! key) + 1)%nat]> m.

Definition withStatus (s : DecisionStatus) (ds : list Decision) : nat :=
  List.length (filter (fun d => status d = s) ds).

(** One turn of the loop over the decisions. *)
Definition statsStep (stats : Stats) (d : Decision) : Stats :=
  let counted (o : Outcome) (n : nat) : nat :=
    match consensus d with
    | Some c => if bool_decide (outcome c = o) then S n else n
    | None => n
    end in
  {| totalDecisions := totalDecisions stats;
     byStatus_pending := byStatus_pending stats;
     byStatus_deliberating := byStatus_deliberating stats;
     byStatus_consensus_reached := byStatus_consensus_reached stats;
     byStatus_deadlock := byStatus_deadlock stats;
     byCategory := bump (Category_text (category d)) (byCategory stats);
     byPriority := bump (Priority_text (priority d)) (byPriority stats);
     outcomes_approved := counted approved (outcomes_approved stats);
     outcomes_rejected := counted rejected (outcomes_rejected stats);
     outcomes_needs_revision :=
       counted needs_revision (outcomes_needs_revision stats);
     unanimousDecisions :=
       match consensus d with
       | Some c =>
           if unanimity c then S (unanimousDecisions stats)
           else unanimousDecisions stats
       | None => unanimousDecisions stats
       end |}.

(** The object the handler builds from [getAllDecisions()]. *)
Definition stats (ds : list Decision) : Stats :=
  fold_left statsStep ds
    {| totalDecisions := List.length ds;
       byStatus_pending := withStatus pending ds;
       byStatus_deliberating := withStatus deliberating ds;
       byStatus_consensus_reached := withStatus consensus_reached ds;
       byStatus_deadlock := withStatus deadlock ds;
       byCategory := ∅; byPriority := ∅;
       outcomes_approved := 0; outcomes_rejected := 0;
       outcomes_needs_revision := 0; unanimousDecisions := 0 |}.

(** [AI_MODELS.filter(m => !responses.some(r => r.model === m))] *)
Definition missingModels (responses : list AIResponse) : list AIModel :=
  List.filter
    (fun m => negb (existsb (fun r => bool_decide (model r = m)) responses))
    AI_MODELS.

Definition votesCast (v : Vote) (responses : list AIResponse) : nat :=
  List.length (filter (fun r => vote r = v) responses).

(** *** POST /api/decisions/:id/consensus *)
Inductive ConsensusReply : Type :=
| ConsensusNotFound
| CannotReachConsensus (responded missing : list AIModel)
| ConsensusCreated (c : option Consensus).

(** *** POST /api/decisions/:id/deliberate and POST /api/deliberate *)
Inductive DeliberateReply : Type :=
| DecisionNotFound
| AlreadyDeliberated (c : option Consensus)
| ValidationFailed (details : string)
| DeliberationFailed (message : string)
| Deliberated (decision : option Decision)
    (responses : list Deliberation.AIDeliberationResult)
    (c : option Consensus).

(** The object handed to [insertAIResponseSchema.parse]. *)
Definition toInsert (key : string) (r : Deliberation.AIDeliberationResult)
  : InsertAIResponse :=
  {| ins_decisionId := key;
     ins_model := Deliberation.model r;
     ins_vote := Deliberation.vote r;
     ins_reasoning := Deliberation.reasoning r;
     ins_confidence := Js.Fin (inject_Z (Deliberation.confidence r));
     ins_risks := Some (Deliberation.risks r);
     ins_recommendations := Some (Deliberation.recommendations r) |}.

(** [calculateConsensus]'s result as [setConsensus] takes it. *)
Definition toConsensusInput (data : Deliberation.ConsensusData)
  : ConsensusInput :=
  {| in_outcome := Deliberation.outcome data;
     in_unanimity := Deliberation.unanimity data;
     in_voteSummary := Deliberation.voteSummary data;
     in_synthesizedReasoning := Deliberation.synthesizedReasoning data;
     in_actionItems := Some (Deliberation.actionItems data) |}.

(** [deliberate(decision)] of the deliberation service: the three
    [getModelResponse] promises under [Promise.all]. *)
Definition deliberate (parseInt : string -> option Z)
    (completions : AIModel -> Deliberation.Completion) (race : list AIModel)
  : Js.Thrown + list Deliberation.AIDeliberationResult :=
  Autonomous.Promise_all [grok; chatgpt; claude] race
    (fun m => Deliberation.getModelResponse parseInt m (completions m)).

(** The store is shared by all requests.  A handler that awaits
    [deliberate] waits for the network, and the server serves other
    requests in the meantime: [meanwhile] lists the storage calls they
    make, and [resumed st meanwhile] is the store the handler finds when
    it goes on.  The storage methods wait for nothing outside the
    process, and a handler is taken to run from one of them to the next
    without another request coming in between. *)
Definition resumed (st : MemStorage) (meanwhile : list Call) : MemStorage :=
  fold_left step meanwhile st.

Section Handlers.

(** The runtime's [parseInt], as in the deliberation service. *)
Variable parseInt : string -> option Z.

(** Number::toString of the runtime, for [`${r.confidence}`]. *)
Variable NumberToString : Js.number -> string.

(** The verdict of [insertAIResponseSchema.parse] on a voter's result:
    [None] when it passes, the message of the [ZodError] otherwise.  The
    schema looks at the run-time values of the fields. *)
Variable schemaError : Deliberation.AIDeliberationResult -> option string.

(** The identifiers and clock readings the storage draws, in order. *)
Variable fresh : nat -> Stamp.

Definition postConsensus (st : MemStorage) (key : string)
  : MemStorage * ConsensusReply :=
  match getDecision st key with
  | None => (st, ConsensusNotFound)
  | Some _ =>
      let responses := getAIResponses st key in
      if negb (allResponded responses)
      then (st, CannotReachConsensus (map model responses)
                  (missingModels responses))
      else
        let voteSummary :=
          Tally.mk (votesCast approve responses) (votesCast reject responses)
                   (votesCast abstain responses) in
        let outcome :=
          if (2 <=? Tally.approve voteSummary)%nat then approved
          else if (2 <=? Tally.reject voteSummary)%nat then rejected
          else needs_revision in
        let unanimity :=
          (Tally.approve voteSummary =? 3)%nat
          || (Tally.reject voteSummary =? 3)%nat in
        let reasonings :=
          map (fun r =>
                 AI_MODEL_name (model r) ++ " (" ++ Vote_text (vote r) ++ ", "
                 ++ NumberToString (confidence r) ++ "% confidence): "
                 ++ reasoning r)
              responses in
        let allActionItems :=
          flat_map (fun r => default [] (recommendations r)) responses in
        let uniqueActionItems := Deliberation.uniqueInOrder [] allActionItems in
        let '(st', c) :=
          setConsensus st key
            {| in_outcome := outcome; in_unanimity := unanimity;
               in_voteSummary := voteSummary;
               in_synthesizedReasoning :=
                 Deliberation.join (Deliberation.LF ++ Deliberation.LF)
                   reasonings;
               in_actionItems :=
                 if (0 <? List.length uniqueActionItems)%nat
                 then Some uniqueActionItems else None |}
            (fresh 0) (now (fresh 1)) (fresh 2) (fresh 3) in
        (st', ConsensusCreated c)
  end.

(** The loop both deliberation handlers run over the voters' results:
    validate, then store; a validation error ends it where it stands.
    [k] counts the stamps drawn so far. *)
Fixpoint saveResponses (st : MemStorage) (key : string)
    (results : list Deliberation.AIDeliberationResult) (k : nat)
  : MemStorage * option string :=
  match results with
  | [] => (st, None)
  | r :: rest =>
      match schemaError r with
      | Some details => (st, Some details)
      | None =>
          let st' :=
            fst (addAIResponse st (toInsert key r) (fresh k)
                   (now (fresh (k + 1))) (fresh (k + 2))) in
          saveResponses st' key rest (k + 3)
      end
  end.

(** What both handlers do once [deliberate] has returned: the loop, then
    [calculateConsensus], [setConsensus] and [getDecision].  A
    [ZodError] is reported by [onZodError]. *)
Definition concludeDeliberation (st : MemStorage) (key : string)
    (results : list Deliberation.AIDeliberationResult) (k : nat)
    (onZodError : string -> DeliberateReply)
  : MemStorage * DeliberateReply :=
  match saveResponses st key results k with
  | (st', Some details) => (st', onZodError details)
  | (st', None) =>
      let consensusData := Deliberation.calculateConsensus results in
      let k' := (k + 3 * List.length results)%nat in
      let '(st'', c) :=
        setConsensus st' key (toConsensusInput consensusData)
          (fresh k') (now (fresh (k' + 1))) (fresh (k' + 2)) (fresh (k' + 3)) in
      (st'', Deliberated (getDecision st'' key) results c)
  end.

(** POST /api/decisions/:id/deliberate.  The decision is looked up and
    its status tested before the voters are asked; the responses and the
    consensus are written after they have answered, to the store as the
    other requests left it. *)
Definition postDeliberate (st : MemStorage) (key : string)
    (completions : AIModel -> Deliberation.Completion) (race : list AIModel)
    (meanwhile : list Call)
  : MemStorage * DeliberateReply :=
  match getDecision st key with
  | None => (st, DecisionNotFound)
  | Some decision =>
      if bool_decide (status decision = consensus_reached)
      then (st, AlreadyDeliberated (consensus decision))
      else
        let st1 := resumed st meanwhile in
        match deliberate parseInt completions race with
        | inl thrown => (st1, DeliberationFailed (Js.messageOf thrown))
        | inr aiResponses =>
            concludeDeliberation st1 key aiResponses 0 DeliberationFailed
        end
  end.

(** POST /api/deliberate, once the body has passed
    [insertDecisionSchema]. *)
Definition postCreateAndDeliberate (st : MemStorage) (ins : InsertDecision)
    (completions : AIModel -> Deliberation.Completion) (race : list AIModel)
    (meanwhile : list Call)
  : MemStorage * DeliberateReply :=
  let '(st0, decision) := createDecision st ins (fresh 0) (fresh 1) in
  let st1 := resumed st0 meanwhile in
  match deliberate parseInt completions race with
  | inl thrown => (st1, DeliberationFailed (Js.messageOf thrown))
  | inr aiResponses =>
      concludeDeliberation st1 (decision_id decision) aiResponses 2
        ValidationFailed
  end.

End Handlers.

End Routes.

(** ** Sample inputs *)
Module Samples.
Import Schema.

(** A voter's result carrying the vote [v]. *)
Definition ballot (m : AIModel) (v : Vote) : Deliberation.AIDeliberationResult :=
  {| Deliberation.model := m; Deliberation.vote := v;
     Deliberation.reasoning := "ok"; Deliberation.confidence := 80;
     Deliberation.risks := []; Deliberation.recommendations := [] |}.

(** The content [{"confidence":c}] and the object [JSON.parse] makes of
    it, [c] being the text of a JSON number. *)
Definition quote : string := String (ascii_of_nat 34) EmptyString.



(** The recommendation of voter [m] for [a] with confidence [c]. *)
Definition recommend (m : AIModel) (a : Autonomous.ActionType) (c : Js.JsValue)
  : Autonomous.AIActionRecommendation :=
  {| Autonomous.model := m; Autonomous.action := a;
     Autonomous.reasoning := "ok"; Autonomous.confidence := c;
     Autonomous.amount := None |}.

(** The reply [{"action":a,"reasoning":"ok","confidence":c}]. *)
Definition reply (a : Autonomous.ActionType) (c : Js.JsValue)
  : Autonomous.ChatReply :=
  Autonomous.ParsedObject
    {| Autonomous.parsed_action := Some a;
       Autonomous.parsed_reasoning := Some "ok";
       Autonomous.parsed_confidence := c;
       Autonomous.parsed_amount := None |}.

Definition percent (q : Q) : Js.JsValue := Js.JsNumber (Js.Fin q).

(** A response of [m] with vote [v] for decision "d1". *)
Definition submission (m : AIModel) (v : Vote) : InsertAIResponse :=
  {| ins_decisionId := "d1"; ins_model := m; ins_vote := v;
     ins_reasoning := "ok"; ins_confidence := Js.Fin 80;
     ins_risks := None; ins_recommendations := None |}.

Definition stamp (n : string) : Storage.Stamp :=
  {| Storage.uuid := "id-" ++ n; Storage.now := "2025-01-02T00:00:0" ++ n |}.

(** A runtime and a trading API to run the engine against: no string
    reads as a number, numbers print as "n", products are exact and
    every trade goes through. *)
Definition noNumber (s : string) : Js.number := Js.NaN.
Definition printN (n : Js.number) : string := "n".
Definition exactProduct (a b : Js.number) : Js.number :=
  match a, b with
  | Js.Fin x, Js.Fin y => Js.Fin (Qred (x * y))
  | _, _ => Js.NaN
  end.
Definition tradeOk (c : Autonomous.TradeCall)
  : Js.Thrown + Autonomous.TradeResult :=
  inr {| Autonomous.success := true; Autonomous.signature := Some "5h";
         Autonomous.error := None |}.

(** A [parseInt] to run the deliberation service against, for texts in
    ASCII, which those of the runs are: it skips the ASCII white space
    and line terminators, then reads a sign, the prefix of a hexadecimal
    number and the longest run of digits.  A text that starts with white
    space outside ASCII is not read as the runtime reads it. *)
Definition isWhiteSpace (c : ascii) : bool :=
  match nat_of_ascii c with
  | 9%nat | 10%nat | 11%nat | 12%nat | 13%nat | 32%nat => true
  | _ => false
  end.

Fixpoint trimStart (s : string) : string :=
  match s with
  | String c rest => if isWhiteSpace c then trimStart rest else s
  | EmptyString => s
  end.

(** The value of a character as a digit: 0-9, then a-z and A-Z for 10-35. *)
Definition digitValue (c : ascii) : option Z :=
  let n := Z.of_nat (nat_of_ascii c) in
  if (48 <=? n)%Z && (n <=? 57)%Z then Some (n - 48)%Z
  else if (97 <=? n)%Z && (n <=? 122)%Z then Some (n - 87)%Z
  else if (65 <=? n)%Z && (n <=? 90)%Z then Some (n - 55)%Z
  else None.

(** The longest prefix of digits below [radix], accumulated from [acc];
    [None] while no digit has been read. *)
Fixpoint parseDigits (radix : Z) (s : string) (acc : option Z) : option Z :=
  match s with
  | EmptyString => acc
  | String c rest =>
      match digitValue c with
      | Some d =>
          if (d <? radix)%Z
          then parseDigits radix rest
                 (Some (match acc with Some a => a * radix + d | None => d end)%Z)
          else acc
      | None => acc
      end
  end.

(** The reading of [text]: [None] is NaN. *)
Definition parseIntAscii (text : string) : option Z :=
  let s := trimStart text in
  let '(sign, s) :=
    match s with
    | String "-" rest => ((-1)%Z, rest)
    | String "+" rest => (1%Z, rest)
    | _ => (1%Z, s)
    end in
  let '(radix, s) :=
    match s with
    | String "0" (String "x" rest) | String "0" (String "X" rest) => (16%Z, rest)
    | _ => (10%Z, s)
    end in
  match parseDigits radix s None with
  | Some n => Some (sign * n)%Z
  | None => None
  end.

Definition token : Autonomous.TokenInfo :=
  {| Autonomous.mint := "Mint1"; Autonomous.name := "Dev3";
     Autonomous.symbol := "DEV3"; Autonomous.createdAt := "2025-01-01" |}.
Definition wallet : Autonomous.WalletBalance :=
  {| Autonomous.sol := Js.Fin 2; Autonomous.lamports := Js.Fin 2000000000 |}.
Definition clock : Autonomous.Clock :=
  {| Autonomous.contextTime := "2025-01-02T00:00:00.000Z";
     Autonomous.decisionMillis := 1735776001000;
     Autonomous.decisionTime := "2025-01-02T00:00:01.000Z" |}.

End Samples.

(** ** More sample inputs *)
Module MoreSamples.
Import Schema.

(** The decision the cycle at time [n] returned. *)
Definition decisionAt (n : string) : Autonomous.AutonomousDecision :=
  {| Autonomous.id := "auto-" ++ n;
     Autonomous.decision_action := Autonomous.hold;
     Autonomous.decision_reasoning := "ok";
     Autonomous.votes := Tally.mk 0 0 3;
     Autonomous.executed := false;
     Autonomous.result := Some "Action not executed - HOLD consensus";
     Autonomous.decision_timestamp := "2025-01-02T00:00:0" ++ n |}.

Definition context : Autonomous.AutonomousContext :=
  {| Autonomous.balance := Samples.wallet;
     Autonomous.token := Some Samples.token;
     Autonomous.market := None;
     Autonomous.recentDecisions := [];
     Autonomous.timestamp := "2025-01-02T00:00:00.000Z" |}.

(** The [n]-th stamp the storage draws. *)
Definition freshStamp (n : nat) : Storage.Stamp := Samples.stamp (pretty n).

Definition accepts (r : Deliberation.AIDeliberationResult) : option string :=
  None.

Definition darkMode : Storage.InsertDecision :=
  {| Storage.ins_title := "Add dark mode";
     Storage.ins_description := "A dark theme for the dashboard";
     Storage.ins_context := None;
     Storage.ins_category := feature;
     Storage.ins_priority := medium |}.

(** A response of [m] with vote [v] for the decision [key]. *)
Definition submissionFor (key : string) (m : AIModel) (v : Vote)
  : InsertAIResponse :=
  {| ins_decisionId := key; ins_model := m; ins_vote := v;
     ins_reasoning := "ok"; ins_confidence := Js.Fin 80;
     ins_risks := None; ins_recommendations := Some ["ship it"] |}.

(** A decision created as "id-1" and voted on by the three voters. *)
Definition votedOn : list Storage.Call :=
  [Storage.CreateDecision darkMode (Samples.stamp "1") (Samples.stamp "2");
   Storage.AddAIResponse (submissionFor "id-1" grok approve)
     (Samples.stamp "3") "t3" (Samples.stamp "4");
   Storage.AddAIResponse (submissionFor "id-1" chatgpt approve)
     (Samples.stamp "5") "t5" (Samples.stamp "6");
   Storage.AddAIResponse (submissionFor "id-1" claude reject)
     (Samples.stamp "7") "t7" (Samples.stamp "8")].

(** The completion
    [{"vote":v,"reasoning":"ok","confidence":85,"recommendations":["ship it"]}]. *)
Definition quoted (s : string) : string := Samples.quote ++ s ++ Samples.quote.

Definition answers (v : string) : Deliberation.Completion :=
  Deliberation.CompletionContent
    ("{" ++ quoted "vote" ++ ":" ++ quoted v ++ ","
     ++ quoted "reasoning" ++ ":" ++ quoted "ok" ++ ","
     ++ quoted "confidence" ++ ":85,"
     ++ quoted "recommendations" ++ ":[" ++ quoted "ship it" ++ "]}")
    (Some {| Deliberation.parsed_vote := Some v;
             Deliberation.parsed_reasoning := Some "ok";
             Deliberation.parsed_confidence := "85";
             Deliberation.parsed_risks := None;
             Deliberation.parsed_recommendations := Some ["ship it"] |}).

End MoreSamples.

(** * Properties of the deliberation service *)
Section DeliberationFacts.
Import Schema Deliberation.

Variable parseInt : string -> option Z.

(** The number of votes equal to [v] among three results. *)
Local Abbreviation ballots r1 r2 r3 v :=
  (count_occ Vote_eq_dec [vote r1; vote r2; vote r3] v).

Lemma votesFor_cons (v : Vote) (r : AIDeliberationResult) rs :
  votesFor v (r :: rs) =
  ((if decide (vote r = v) then 1 else 0) + votesFor v rs)%nat.
Proof.
  unfold votesFor. rewrite filter_cons.
  destruct (decide (vote r = v)); reflexivity.
Qed.

Lemma votesFor_count_occ (v : Vote) rs :
  votesFor v rs = count_occ Vote_eq_dec (map vote rs) v.
Proof.
  induction rs as [|r rs IH]; [reflexivity|].
  rewrite votesFor_cons, IH. cbn [map count_occ].
  destruct (decide (vote r = v)) as [e|n], (Vote_eq_dec (vote r) v);
    try contradiction; reflexivity.
Qed.

Lemma outcome_unfold rs :
  outcome (calculateConsensus rs) =
  if (2 <=? votesFor approve rs)%nat then approved
  else if (2 <=? votesFor reject rs)%nat then rejected
  else needs_revision.
Proof. reflexivity. Qed.

Lemma unanimity_unfold rs :
  unanimity (calculateConsensus rs) =
  (votesFor approve rs =? 3)%nat || (votesFor reject rs =? 3)%nat.
Proof. reflexivity. Qed.

Lemma voteSummary_unfold rs :
  voteSummary (calculateConsensus rs) =
  Tally.mk (votesFor approve rs) (votesFor reject rs) (votesFor abstain rs).
Proof. reflexivity. Qed.

(** The three counts of a vote summary add up to the number of votes. *)
Lemma voteSummary_total rs :
  Tally.total (voteSummary (calculateConsensus rs)) = List.length rs.
Proof.
  rewrite voteSummary_unfold. unfold Tally.total. cbn [Tally.approve Tally.reject Tally.abstain].
  induction rs as [|r rs IH]; [reflexivity|].
  rewrite !votesFor_cons. cbn [List.length].
  destruct (decide (vote r = approve)), (decide (vote r = reject)),
    (decide (vote r = abstain)); try congruence; try lia.
  destruct (vote r); congruence.
Qed.

Ltac by_votes r1 r2 r3 :=
  destruct (vote r1), (vote r2), (vote r3); cbn.

(** C1. For three votes, [calculateConsensus] answers [approved] exactly
    when at least two of them approve; otherwise [rejected] exactly when
    at least two reject; otherwise [needs_revision]. *)
Theorem calculateConsensus_outcome_rule (r1 r2 r3 : AIDeliberationResult) :
  let result := outcome (calculateConsensus [r1; r2; r3]) in
  (result = approved <-> 2 <= ballots r1 r2 r3 approve)
  /\ (result = rejected <->
      ballots r1 r2 r3 approve < 2 /\ 2 <= ballots r1 r2 r3 reject)
  /\ (result = needs_revision <->
      ballots r1 r2 r3 approve < 2 /\ ballots r1 r2 r3 reject < 2).
Proof.
  cbv zeta. rewrite outcome_unfold, !votesFor_count_occ. cbn [map].
  by_votes r1 r2 r3; repeat split; intros; try discriminate; try lia.
Qed.

(** C2. For three votes, the unanimity flag is set exactly when all three
    approve or all three reject, that is when the approve count or the
    reject count is 3; a vote shared by exactly two voters never makes
    the result unanimous. *)
Theorem calculateConsensus_unanimity_rule (r1 r2 r3 : AIDeliberationResult) :
  let flag := unanimity (calculateConsensus [r1; r2; r3]) in
  (flag = true <->
     (vote r1 = approve /\ vote r2 = approve /\ vote r3 = approve)
     \/ (vote r1 = reject /\ vote r2 = reject /\ vote r3 = reject))
  /\ (flag = true <->
     ballots r1 r2 r3 approve = 3 \/ ballots r1 r2 r3 reject = 3)
  /\ (forall v, ballots r1 r2 r3 v = 2 -> flag = false).
Proof.
  cbv zeta. rewrite unanimity_unfold, !votesFor_count_occ. cbn [map].
  by_votes r1 r2 r3; repeat split; intros; try discriminate; try lia;
    try reflexivity; try tauto;
    try (match goal with H : _ \/ _ |- _ => destruct H as [H|H] end;
         try lia; destruct H as (? & ? & ?); discriminate);
    try (match goal with v : Vote |- _ => destruct v end; cbn in *; lia).
Qed.

(** C3, as stated, fails: three abstentions give [needs_revision] too,
    and that split is neither one-one-one nor two abstentions with one
    other vote. *)
Lemma needs_revision_three_abstentions :
  let r1 := Samples.ballot grok abstain in
  let r2 := Samples.ballot chatgpt abstain in
  let r3 := Samples.ballot claude abstain in
  outcome (calculateConsensus [r1; r2; r3]) = needs_revision
  /\ ~ ((ballots r1 r2 r3 approve = 1 /\ ballots r1 r2 r3 reject = 1
         /\ ballots r1 r2 r3 abstain = 1)
        \/ (ballots r1 r2 r3 abstain = 2
            /\ ballots r1 r2 r3 approve + ballots r1 r2 r3 reject = 1)).
Proof.
  cbv zeta. split; [reflexivity|]. cbn. lia.
Qed.

(** C3, amended. For three votes, [needs_revision] is the outcome exactly
    when the split is one approve, one reject and one abstain, or when at
    least two of the three voters abstain (two abstentions with a single
    approve or reject, or three abstentions). *)
Theorem needs_revision_splits (r1 r2 r3 : AIDeliberationResult) :
  outcome (calculateConsensus [r1; r2; r3]) = needs_revision <->
  (ballots r1 r2 r3 approve = 1 /\ ballots r1 r2 r3 reject = 1
   /\ ballots r1 r2 r3 abstain = 1)
  \/ 2 <= ballots r1 r2 r3 abstain.
Proof.
  rewrite outcome_unfold, !votesFor_count_occ. cbn [map].
  by_votes r1 r2 r3; split; intros; try discriminate; try lia; try reflexivity.
Qed.

Lemma clamp_range (n : Z) : (0 <= Math_min 100 (Math_max 0 n) <= 100)%Z.
Proof. unfold Math_min, Math_max. lia. Qed.



End DeliberationFacts.

(** * Properties of the autonomous engine *)
Section EngineFacts.
Import Schema Autonomous.

Variable StringToNumber : string -> Js.number.
Variable NumberToString : Js.number -> string.
Variable Number_mul : Js.number -> Js.number -> Js.number.
Variable tradingApi : TradeCall -> Js.Thrown + TradeResult.

Local Abbreviation counted := (Autonomous.counted StringToNumber).
Local Abbreviation qualifying := (qualifyingVotes StringToNumber).
Local Abbreviation tally := (tallyActions StringToNumber).
Local Abbreviation consensusOf :=
  (determineConsensusAction StringToNumber NumberToString).
Local Abbreviation cycle :=
  (runAutonomousCycle StringToNumber NumberToString Number_mul tradingApi).

(** On a numeric confidence the test of the first loop is the strict
    comparison with 30. *)
Lemma counted_number (r : AIActionRecommendation) (q : Q) :
  confidence r = Js.JsNumber (Js.Fin q) ->
  counted r = true <-> (30 < q)%Q.
Proof.
  intros E. unfold Autonomous.counted, Js.gt, Js.ToNumber, Js.number_gt.
  rewrite E. rewrite (Qgt_alt q 30).
  destruct (Qcompare q 30); split; intros; congruence.
Qed.

Lemma qualifying_cons (a : ActionType) (r : AIActionRecommendation) rs :
  qualifying a (r :: rs) =
  ((if counted r then if decide (action r = a) then 1 else 0 else 0)
   + qualifying a rs)%nat.
Proof.
  unfold qualifyingVotes. rewrite filter_cons.
  destruct (counted r) eqn:C, (decide (action r = a)) as [e|n];
    destruct (decide _) as [[? ?]|N]; try reflexivity;
    try congruence; try discriminate.
  all: exfalso; apply N; split; [reflexivity|assumption].
Qed.

Lemma tally_from (recs : list AIActionRecommendation) :
  forall c1 c2 c3 c4 c5 : nat,
  fold_left
    (fun counts rec =>
       if counted rec then increment (action rec) counts else counts)
    recs
    [(buyback, c1); (burn, c2); (hold, c3); (sell_partial, c4);
     (claim_rewards, c5)]
  = [(buyback, (c1 + qualifying buyback recs)%nat);
     (burn, (c2 + qualifying burn recs)%nat);
     (hold, (c3 + qualifying hold recs)%nat);
     (sell_partial, (c4 + qualifying sell_partial recs)%nat);
     (claim_rewards, (c5 + qualifying claim_rewards recs)%nat)].
Proof.
  induction recs as [|r rs IH]; intros c1 c2 c3 c4 c5.
  - cbn. rewrite !Nat.add_0_r. reflexivity.
  - cbn [fold_left]. rewrite !qualifying_cons.
    destruct (counted r).
    + destruct (action r);
        match goal with
        | |- context [increment ?a ?l] =>
            let v := eval cbv in (increment a l) in
            change (increment a l) with v
        end;
        repeat match goal with
               | |- context [decide (?x = ?y)] =>
                   destruct (decide (x = y)); try congruence
               end;
        rewrite IH; repeat first [lia | f_equal].
    + rewrite IH. reflexivity.
Qed.

(** The tally holds, for each action in enumeration order, the number of
    recommendations for it whose confidence passes the test. *)
Lemma tallyActions_counts (recs : list AIActionRecommendation) :
  tally recs = map (fun a => (a, qualifying a recs)) enumeration.
Proof.
  unfold tallyActions, initialCounts. rewrite tally_from. reflexivity.
Qed.

Ltac split_comparisons :=
  repeat (match goal with
          | |- context [(?x <? ?y)%nat] =>
              lazymatch x with
              | context [if _ then _ else _] => fail
              | _ => destruct (Nat.ltb_spec x y)
              end
          end; cbn [fst snd]).

(** The second loop returns the largest count and the first action of the
    enumeration that reaches it; with no vote at all it stays on [hold]. *)
Lemma pluralityLeader_spec (c : ActionType -> nat) :
  let leader := pluralityLeader (map (fun a => (a, c a)) enumeration) in
  (forall b, c b <= snd leader)
  /\ (0 < snd leader ->
      c (fst leader) = snd leader
      /\ forall b, rank b < rank (fst leader) -> c b < snd leader)
  /\ (snd leader = 0%nat -> fst leader = hold).
Proof.
  cbv zeta. unfold pluralityLeader, leaderStep. cbn [map enumeration fold_left fst snd].
  split_comparisons; (split; [intros []; lia|]);
    (split; [intros ?; split; [lia|intros []; cbn; lia]|]);
    intros ?; try reflexivity; lia.
Qed.

Lemma consensusOf_action (recs : list AIActionRecommendation) :
  fst (fst (consensusOf recs)) =
  if (snd (pluralityLeader (tally recs)) <? 2)%nat then hold
  else fst (pluralityLeader (tally recs)).
Proof.
  unfold determineConsensusAction.
  destruct (pluralityLeader (tally recs)) as [leader maxVotes]. reflexivity.
Qed.

Lemma consensusOf_votes (recs : list AIActionRecommendation) :
  snd (consensusOf recs) =
  Tally.mk
    (List.length
       (filter (fun r => action r = fst (fst (consensusOf recs))
                         /\ Js.gt StringToNumber (confidence r) 50 = true) recs))
    (List.length
       (filter (fun r => action r <> fst (fst (consensusOf recs))
                         /\ Js.gt StringToNumber (confidence r) 50 = true) recs))
    (List.length
       (filter (fun r => Js.le StringToNumber (confidence r) 50 = true) recs)).
Proof.
  unfold determineConsensusAction.
  destruct (pluralityLeader (tally recs)) as [leader maxVotes]. reflexivity.
Qed.

(** Fewer than two qualifying votes for the leader force [hold]. *)
Lemma floor_by_leader (recs : list AIActionRecommendation) :
  snd (pluralityLeader (tally recs)) < 2 ->
  fst (fst (consensusOf recs)) = hold.
Proof.
  intros H. rewrite consensusOf_action.
  destruct (Nat.ltb_spec (snd (pluralityLeader (tally recs))) 2);
    [reflexivity|lia].
Qed.

Lemma floor_by_counts (recs : list AIActionRecommendation) :
  (forall a, qualifying a recs < 2) ->
  fst (fst (consensusOf recs)) = hold.
Proof.
  intros few. apply floor_by_leader. rewrite tallyActions_counts.
  destruct (pluralityLeader_spec (fun a => qualifying a recs))
    as (_ & reached & _).
  destruct (Nat.eq_dec
              (snd (pluralityLeader
                      (map (fun a => (a, qualifying a recs)) enumeration))) 0)
    as [z|nz]; [lia|].
  destruct reached as [E _]; [lia|].
  rewrite <- E. apply few.
Qed.

(** C4. The tally of [determineConsensusAction] counts, for each action,
    exactly the recommendations whose confidence is greater than 30 (on a
    number: strictly greater), and when the plurality leader has fewer
    than two of them, which is the case as soon as no action has two, the
    chosen action is [hold]. *)
Theorem quorum_floor (recs : list AIActionRecommendation) :
  tally recs = map (fun a => (a, qualifying a recs)) enumeration
  /\ (forall r q, confidence r = Js.JsNumber (Js.Fin q) ->
      (counted r = true <-> (30 < q)%Q))
  /\ (snd (pluralityLeader (tally recs)) < 2 ->
      fst (fst (consensusOf recs)) = hold)
  /\ ((forall a, qualifying a recs < 2) ->
      fst (fst (consensusOf recs)) = hold).
Proof.
  split; [apply tallyActions_counts|].
  split; [intros r q; apply counted_number|].
  split; [apply floor_by_leader|apply floor_by_counts].
Qed.

(** With three different actions the recorded action is [hold]: the
    leader of the second loop has a single vote, below the floor of C4. *)
Lemma three_way_tie_records_hold (r1 r2 r3 : AIActionRecommendation) :
  action r1 <> action r2 -> action r1 <> action r3 ->
  action r2 <> action r3 ->
  fst (fst (consensusOf [r1; r2; r3])) = hold.
Proof.
  intros N12 N13 N23.
  apply floor_by_counts. intros a. rewrite !qualifying_cons.
  destruct (counted r1), (counted r2), (counted r3);
    destruct (decide (action r1 = a)), (decide (action r2 = a)),
      (decide (action r3 = a)); cbn; try lia; congruence.
Qed.

(** Two different actions share the recommendations between them. *)
Lemma qualifying_two (a b : ActionType) (recs : list AIActionRecommendation) :
  a <> b -> qualifying a recs + qualifying b recs <= List.length recs.
Proof.
  intros ne. induction recs as [|r recs IH]; [cbn; lia|].
  rewrite !qualifying_cons. cbn [List.length].
  destruct (counted r), (decide (action r = a)), (decide (action r = b));
    try congruence; lia.
Qed.

(** C5, as stated, fails: burn, sell_partial and buyback, each named once
    with a confidence of 80, leave buyback as the first action of the
    enumeration that is named, and the action [determineConsensusAction]
    returns is [hold], which none of the three voters named. *)
Lemma three_way_split_returns_hold :
  let r1 := Samples.recommend grok burn (Samples.percent 80) in
  let r2 := Samples.recommend chatgpt sell_partial (Samples.percent 80) in
  let r3 := Samples.recommend claude buyback (Samples.percent 80) in
  let chosen :=
    fst (fst (determineConsensusAction Samples.noNumber Samples.printN
                [r1; r2; r3])) in
  map (Autonomous.counted Samples.noNumber) [r1; r2; r3] = [true; true; true]
  /\ firstNamed [action r1; action r2; action r3] = Some buyback
  /\ chosen = hold
  /\ Some chosen <> firstNamed [action r1; action r2; action r3].
Proof.
  cbv zeta. split; [reflexivity|]. split; [reflexivity|].
  split; [reflexivity|discriminate].
Qed.

(** C5, amended. The leader the second loop settles on has the largest
    number of qualifying votes, and among the actions that reach that
    number it is the first in the order buyback, burn, hold,
    sell_partial, claim_rewards; but it is the action returned only when
    it has at least two qualifying votes, and [hold] is returned
    otherwise. With three recommendations the action returned is
    therefore the one with at least two qualifying votes if there is
    one, and [hold] if there is none: no tie is ever settled by the
    order. For three recommendations that all pass the confidence test
    and name three different actions, the leader has one vote and is the
    first action of the order named by any of them, and the action
    returned is [hold]. *)
Theorem plurality_tie_break (recs : list AIActionRecommendation) :
  let leader := pluralityLeader (tally recs) in
  let chosen := fst (fst (consensusOf recs)) in
  (forall b, qualifying b recs <= snd leader)
  /\ (0 < snd leader ->
      qualifying (fst leader) recs = snd leader
      /\ forall b, rank b < rank (fst leader) -> qualifying b recs < snd leader)
  /\ (2 <= snd leader -> chosen = fst leader)
  /\ (snd leader < 2 -> chosen = hold)
  /\ (List.length recs = 3%nat ->
      forall a,
        chosen = a <->
        2 <= qualifying a recs
        \/ (a = hold /\ forall b, qualifying b recs < 2))
  /\ (forall r1 r2 r3,
      recs = [r1; r2; r3] ->
      counted r1 = true -> counted r2 = true -> counted r3 = true ->
      action r1 <> action r2 -> action r1 <> action r3 ->
      action r2 <> action r3 ->
      snd leader = 1%nat
      /\ firstNamed [action r1; action r2; action r3] = Some (fst leader)
      /\ chosen = hold).
Proof.
  cbv zeta. rewrite consensusOf_action, tallyActions_counts.
  destruct (pluralityLeader_spec (fun a => qualifying a recs))
    as (most & reached & _).
  set (leader := pluralityLeader
                   (map (fun a => (a, qualifying a recs)) enumeration)) in *.
  split; [exact most|]. split; [exact reached|].
  split; [intros two; destruct (Nat.ltb_spec (snd leader) 2);
          [lia|reflexivity]|].
  split; [intros few; destruct (Nat.ltb_spec (snd leader) 2);
          [reflexivity|lia]|].
  split.
  - intros three a. destruct (Nat.ltb_spec (snd leader) 2) as [few|two].
    + split.
      * intros <-. right. split; [reflexivity|].
        intros b. specialize (most b). lia.
      * intros [two|[-> _]]; [|reflexivity].
        specialize (most a). lia.
    + destruct reached as [E _]; [lia|]. split.
      * intros <-. left. lia.
      * intros [two'|[_ few]]; [|specialize (few (fst leader)); lia].
        destruct (decide (fst leader = a)) as [same|ne]; [exact same|].
        pose proof (qualifying_two (fst leader) a recs ne). lia.
  - intros r1 r2 r3 E C1 C2 C3 N12 N13 N23. subst leader. subst recs.
    cbn [map enumeration]. rewrite !qualifying_cons, C1, C2, C3.
    destruct (action r1), (action r2), (action r3); try congruence;
      split; try reflexivity; split; reflexivity.
Qed.

Lemma firstRejection_Some {R : Type} (f : AIModel -> Js.Thrown + R)
    (l : list AIModel) (e : Js.Thrown) :
  firstRejection (map f l) = Some e -> exists m, In m l /\ f m = inl e.
Proof.
  induction l as [|m l IH]; cbn; [discriminate|].
  destruct (f m) as [e'|r] eqn:E.
  - intros [= <-]. exists m. auto.
  - intros H. destruct (IH H) as (m' & ? & ?). exists m'. auto.
Qed.

Lemma firstRejection_None {R : Type} (f : AIModel -> Js.Thrown + R)
    (l : list AIModel) (m : AIModel) (e : Js.Thrown) :
  In m l -> f m = inl e -> firstRejection (map f l) <> None.
Proof.
  induction l as [|m' l IH]; cbn; [tauto|].
  intros [->|I] E.
  - rewrite E. discriminate.
  - destruct (f m'); [discriminate|auto].
Qed.

Lemma fulfilled_all {R : Type} (f : AIModel -> Js.Thrown + R)
    (l : list AIModel) :
  firstRejection (map f l) = None ->
  List.length (fulfilled (map f l)) = List.length l.
Proof.
  induction l as [|m l IH]; cbn; [reflexivity|].
  destruct (f m); [discriminate|]. cbn. auto.
Qed.

Lemma firstRejection_app_None {R : Type} (xs ys : list (Js.Thrown + R)) :
  firstRejection (xs ++ ys) = None -> firstRejection ys = None.
Proof.
  induction xs as [|[e|r] xs IH]; cbn; [auto|discriminate|auto].
Qed.

(** Three voters, three recommendations. *)
Lemma Promise_all_three {R : Type} (race : list AIModel)
    (f : AIModel -> Js.Thrown + R) (values : list R) :
  Promise_all [grok; chatgpt; claude] race f = inr values ->
  values = fulfilled (map f [grok; chatgpt; claude])
  /\ List.length values = 3%nat.
Proof.
  unfold Promise_all.
  destruct (firstRejection (map f (race ++ [grok; chatgpt; claude])))
    eqn:E; [discriminate|].
  intros [= <-]. split; [reflexivity|].
  rewrite map_app in E. apply firstRejection_app_None in E.
  apply (fulfilled_all f [grok; chatgpt; claude] E).
Qed.



Lemma pushDecision_take (d : AutonomousDecision) l :
  pushDecision d l = take 100 (d :: l).
Proof.
  unfold pushDecision.
  destruct (Nat.ltb_spec 100 (List.length (d :: l))); [reflexivity|].
  symmetry. apply take_ge. assumption.
Qed.

(** C6. A decision [runAutonomousCycle] returns has its executed flag set
    exactly when its action is not [hold] and the approve count of its
    display tally is at least 2, that count being the number of voters
    whose action is the chosen one with a confidence above 50; with the
    flag unset no trading call was made, and a trading call is only ever
    made behind that gate. *)
Theorem execution_gate (lastDecisions : list AutonomousDecision)
    (tok : option TokenInfo) (bal : WalletBalance) (mkt : option MarketData)
    (clock : Clock) (replies : AIModel -> ChatReply) (race : list AIModel) :
  let out := cycle lastDecisions tok bal mkt clock replies race in
  let settled :=
    Promise_all [grok; chatgpt; claude] race
      (fun m => getAIRecommendation m (replies m)) in
  (forall d, returned out = inr d ->
     (executed d = true <->
      decision_action d <> hold /\ 2 <= Tally.approve (votes d))
     /\ (executed d = false -> trades out = [])
     /\ (forall recs, settled = inr recs ->
         Tally.approve (votes d) =
         List.length
           (filter (fun r => action r = decision_action d
                             /\ Js.gt StringToNumber (confidence r) 50 = true)
              recs)))
  /\ (trades out <> [] ->
      exists recs, settled = inr recs
        /\ fst (fst (consensusOf recs)) <> hold
        /\ 2 <= Tally.approve (snd (consensusOf recs))).
Proof.
  cbv zeta. unfold runAutonomousCycle.
  destruct (Promise_all _ race _) as [thrown|recs] eqn:P.
  - cbn. split; [|congruence].
    intros d [= <-]. cbn. split; [|split; [reflexivity|discriminate]].
    split; [discriminate|]. intros [? ?]. congruence.
  - pose proof (consensusOf_votes recs) as V.
    destruct (consensusOf recs) as [[a text] v] eqn:D. cbn [fst snd] in V.
    destruct (bool_decide_reflect (a = hold)) as [isHold|notHold]; cbn [negb andb].
    + cbn. split; [|congruence].
      intros d [= <-]. cbn. split; [|split; [reflexivity|]].
      * split; [discriminate|]. intros [? ?]. congruence.
      * intros recs' [= <-]. rewrite V at 1. reflexivity.
    + destruct (Nat.leb_spec 2 (Tally.approve v)) as [enough|few].
      * destruct (executeAction _ _ _ a _) as [[thrown|text'] calls]; cbn.
        -- split; [discriminate|]. intros _. exists recs.
           rewrite D. cbn. auto.
        -- split.
           ++ intros d [= <-]. cbn. split; [|split; [discriminate|]].
              ** split; auto.
              ** intros recs' [= <-]. rewrite V at 1. reflexivity.
           ++ intros _. exists recs. rewrite D. cbn. auto.
      * cbn. split; [|congruence].
        intros d [= <-]. cbn. split; [|split; [reflexivity|]].
        -- split; [discriminate|]. intros [? ?]. lia.
        -- intros recs' [= <-]. rewrite V at 1. reflexivity.
Qed.


(** The three categories of the display tally cover a recommendation
    whose confidence reads as a number, and no other. *)
Lemma display_category (v : Js.JsValue) :
  Js.ToNumber StringToNumber v <> Js.NaN <->
  Js.gt StringToNumber v 50 = negb (Js.le StringToNumber v 50).
Proof.
  unfold Js.gt, Js.le, Js.number_gt, Js.number_le.
  destruct (Js.ToNumber StringToNumber v) as [|q| |].
  - cbn. split; [congruence|discriminate].
  - destruct (Qcompare q 50); cbn; split; congruence.
  - cbn. split; congruence.
  - cbn. split; congruence.
Qed.

(** With confidences that read as numbers the display tally adds up to
    the number of recommendations. *)
Lemma display_tally_total (recs : list AIActionRecommendation) :
  (forall r, In r recs -> Js.ToNumber StringToNumber (confidence r) <> Js.NaN) ->
  Tally.total (snd (consensusOf recs)) = List.length recs.
Proof.
  rewrite consensusOf_votes. generalize (fst (fst (consensusOf recs))) as a.
  intros a. unfold Tally.total. cbn [Tally.approve Tally.reject Tally.abstain].
  induction recs as [|r rs IH]; intros numeric; [reflexivity|].
  rewrite !filter_cons. cbn [List.length].
  assert (N : Js.ToNumber StringToNumber (confidence r) <> Js.NaN)
    by (apply numeric; left; reflexivity).
  apply display_category in N.
  specialize (IH (fun r' I => numeric r' (or_intror I))).
  destruct (Js.le StringToNumber (confidence r) 50) eqn:L; cbn in N;
    repeat (destruct (decide _) as [?|?]); cbn [List.length];
    try lia; try tauto; try congruence;
    exfalso; destruct (decide (action r = a)); intuition congruence.
Qed.

(** C10 at a failing input: grok answers with the confidence "high", a
    string that does not read as a number, the two other voters with 80,
    all three for burn.  The decision is recorded with two approvals, no
    rejection and no abstention. *)
Theorem non_numeric_confidence_leaves_tally_short :
  StringToNumber "high" = Js.NaN ->
  let replies m :=
    match m with
    | grok => Samples.reply burn (Js.JsString "high")
    | _ => Samples.reply burn (Samples.percent 80)
    end in
  let out :=
    cycle [] None Samples.wallet None Samples.clock replies
      [grok; chatgpt; claude] in
  exists d, returned out = inr d
    /\ decision_action d = burn
    /\ votes d = Tally.mk 2 0 0
    /\ Tally.total (votes d) = 2%nat.
Proof.
  intros high. cbv zeta. eexists. split.
  - unfold runAutonomousCycle, determineConsensusAction, tallyActions,
      Autonomous.counted, Js.gt, Js.le. cbn. rewrite !high. cbn. reflexivity.
  - cbn. auto.
Qed.

Lemma fulfilled_In {R : Type} (f : AIModel -> Js.Thrown + R)
    (l : list AIModel) (r : R) :
  In r (fulfilled (map f l)) -> exists m, In m l /\ f m = inr r.
Proof.
  induction l as [|m l IH]; cbn; [tauto|].
  destruct (f m) as [e|r'] eqn:E.
  - intros I. destruct (IH I) as (m' & ? & ?). eauto.
  - intros [->|I]; [eauto|]. destruct (IH I) as (m' & ? & ?). eauto.
Qed.

(** As long as every voter's confidence reads as a number, each decision
    of a cycle has a tally of three votes. *)
Lemma numeric_cycle_tally_total (lastDecisions : list AutonomousDecision)
    (tok : option TokenInfo) (bal : WalletBalance) (mkt : option MarketData)
    (clock : Clock) (replies : AIModel -> ChatReply) (race : list AIModel)
    (d : AutonomousDecision) :
  (forall m rec, getAIRecommendation m (replies m) = inr rec ->
     Js.ToNumber StringToNumber (confidence rec) <> Js.NaN) ->
  returned (cycle lastDecisions tok bal mkt clock replies race) = inr d ->
  Tally.total (votes d) = 3%nat.
Proof.
  intros numeric. unfold runAutonomousCycle.
  destruct (Promise_all _ race _) as [thrown|recs] eqn:P.
  - intros [= <-]. reflexivity.
  - destruct (Promise_all_three _ _ _ P) as [values three].
    assert (T : Tally.total (snd (consensusOf recs)) = 3%nat).
    { rewrite <- three. apply display_tally_total. intros r I.
      rewrite values in I. apply fulfilled_In in I as (m & _ & E).
      apply (numeric m r E). }
    destruct (consensusOf recs) as [[a text] v]. cbn [snd] in T.
    destruct (negb _ && _).
    + destruct (executeAction _ _ _ a _) as [[thrown|text'] calls];
        [discriminate|]. intros [= <-]. exact T.
    + intros [= <-]. exact T.
Qed.

(** The autonomous path keeps a truthy confidence as it came: 150 stays
    150, and a string stays a string. *)
Lemma getAIRecommendation_keeps_confidence (m : AIModel) :
  getAIRecommendation m (Samples.reply burn (Samples.percent 150)) =
    inr (Samples.recommend m burn (Samples.percent 150))
  /\ getAIRecommendation m (Samples.reply burn (Js.JsString "high")) =
    inr (Samples.recommend m burn (Js.JsString "high")).
Proof. split; reflexivity. Qed.

End EngineFacts.

(** * Properties of the storage *)
Section StorageFacts.
Import Schema Storage.

Lemma addAIResponse_response st ins stamp statusNow logStamp :
  snd (addAIResponse st ins stamp statusNow logStamp) =
  {| id := uuid stamp; decisionId := ins_decisionId ins;
     model := ins_model ins; vote := ins_vote ins;
     reasoning := ins_reasoning ins; confidence := ins_confidence ins;
     risks := ins_risks ins; recommendations := ins_recommendations ins;
     createdAt := now stamp |}.
Proof. reflexivity. Qed.

Lemma addAIResponse_responses st ins stamp statusNow logStamp :
  aiResponses (fst (addAIResponse st ins stamp statusNow logStamp)) =
  <[ins_decisionId ins :=
      storedAfter st ins (snd (addAIResponse st ins stamp statusNow logStamp))]>
    (aiResponses st).
Proof.
  unfold addAIResponse, storedAfter. cbn [fst snd model].
  destruct (decisions _ !! _) as [d|]; [|reflexivity].
  destruct (allResponded _ && _); reflexivity.
Qed.

Lemma findIndex_None (m : AIModel) (rs : list AIResponse) :
  findIndex m rs = None -> ~ In m (map model rs).
Proof.
  induction rs as [|r rs IH]; cbn; [tauto|].
  destruct (decide (model r = m)); [discriminate|].
  destruct (findIndex m rs); [discriminate|].
  intros _ [?|?]; [congruence|]. apply IH; auto.
Qed.

Lemma findIndex_Some (m : AIModel) (rs : list AIResponse) (i : nat) :
  findIndex m rs = Some i -> exists r, rs !! i = Some r /\ model r = m.
Proof.
  revert i. induction rs as [|r rs IH]; cbn; [discriminate|].
  intros i. destruct (decide (model r = m)) as [e|n].
  - intros [= <-]. exists r. auto.
  - destruct (findIndex m rs) as [j|]; [|discriminate].
    intros [= <-]. apply IH. reflexivity.
Qed.

Lemma In_model_findIndex (m : AIModel) (rs : list AIResponse) :
  In m (map model rs) -> exists i, findIndex m rs = Some i.
Proof.
  intros I. destruct (findIndex m rs) as [i|] eqn:E; [eauto|].
  apply findIndex_None in E. contradiction.
Qed.

(** Overwriting the entry of a voter with a response of the same voter
    leaves the sequence of voters as it was. *)
Lemma replace_keeps_voters (rs : list AIResponse) (i : nat) (new : AIResponse) :
  findIndex (model new) rs = Some i ->
  map model (<[i := new]> rs) = map model rs.
Proof.
  intros F. destruct (findIndex_Some _ _ _ F) as (r & L & E).
  change (map model (<[i := new]> rs)) with (model <$> <[i := new]> rs).
  rewrite list_fmap_insert. apply list_insert_id.
  rewrite list_lookup_fmap, L. cbn. congruence.
Qed.

Lemma storedAfter_NoDup st ins (response : AIResponse) :
  NoDup (map model (default [] (aiResponses st !! ins_decisionId ins))) ->
  NoDup (map model (storedAfter st ins response)).
Proof.
  unfold storedAfter. intros N.
  destruct (findIndex _ _) as [i|] eqn:F.
  - rewrite (replace_keeps_voters _ _ _ F). exact N.
  - apply findIndex_None in F.
    rewrite map_app. cbn [map]. apply NoDup_app.
    split; [exact N|]. split; [|apply NoDup_singleton].
    intros x Hx Hin. apply list_elem_of_singleton in Hin. subst x.
    apply list_elem_of_In in Hx. contradiction.
Qed.

Lemma filter_absent (m : AIModel) (rs : list AIResponse) :
  ~ In m (map model rs) -> filter (fun r => model r = m) rs = [].
Proof.
  induction rs as [|r rs IH]; cbn [map In]; [reflexivity|].
  intros N. rewrite filter_cons.
  destruct (decide (model r = m)); [tauto|]. apply IH. tauto.
Qed.

(** With distinct voters, overwriting the response of voter [m] leaves
    the new response as the only one of [m] and the others untouched. *)
Lemma replace_in_place (m : AIModel) (new : AIResponse) (rs : list AIResponse) :
  model new = m -> NoDup (map model rs) ->
  forall i r, rs !! i = Some r -> model r = m ->
  filter (fun x => model x = m) (<[i := new]> rs) = [new]
  /\ filter (fun x => model x <> m) (<[i := new]> rs) =
     filter (fun x => model x <> m) rs.
Proof.
  intros Enew. induction rs as [|r0 rs IH]; intros N i r L Er.
  - discriminate.
  - cbn [map] in N. apply NoDup_cons in N as [fresh N].
    destruct i as [|i]; cbn in L.
    + injection L as ->.
      change (<[0%nat := new]> (r :: rs)) with (new :: rs).
      rewrite !filter_cons.
      destruct (decide (model new = m)); [|contradiction].
      destruct (decide (model new <> m)); [contradiction|].
      destruct (decide (model r <> m)); [contradiction|].
      split; [|reflexivity]. f_equal. apply filter_absent.
      rewrite <- Er. intros I. apply fresh, list_elem_of_In, I.
    + assert (model r0 <> m).
      { intros E0. apply fresh. rewrite E0, <- Er.
        apply list_elem_of_In, in_map, list_elem_of_In.
        apply list_elem_of_lookup. eauto. }
      change (<[S i := new]> (r0 :: rs)) with (r0 :: <[i := new]> rs).
      rewrite !filter_cons.
      destruct (decide (model r0 = m)); [contradiction|].
      destruct (decide (model r0 <> m)); [|contradiction].
      destruct (IH N i r L Er) as [-> ->]. auto.
Qed.

Lemma distinctVoters_empty : distinctVoters empty.
Proof. intros key rs. cbn. rewrite lookup_empty. discriminate. Qed.

Lemma distinctVoters_step (st : MemStorage) (c : Call) :
  distinctVoters st -> distinctVoters (step st c).
Proof.
  intros inv key rs. destruct c; cbn [step].
  - cbn. rewrite lookup_insert. case_decide.
    + intros [= <-]. constructor.
    + apply inv.
  - unfold updateDecision. destruct (decisions st !! key0); cbn; apply inv.
  - unfold deleteDecision. cbn [fst aiResponses].
    assert (E : forall st1 : MemStorage,
               aiResponses st1 = aiResponses st ->
               delete key0 (aiResponses st1) !! key = Some rs ->
               NoDup (map model rs)).
    { intros st1 ->. rewrite lookup_delete. case_decide; [discriminate|].
      apply inv. }
    apply E. destruct (decisions st !! key0); reflexivity.
  - rewrite addAIResponse_responses, lookup_insert. case_decide.
    + intros [= <-]. apply storedAfter_NoDup.
      destruct (aiResponses st !! ins_decisionId ins) as [l|] eqn:L; cbn.
      * apply (inv _ _ L).
      * constructor.
    + apply inv.
  - unfold setConsensus. destruct (decisions st !! key0); cbn; apply inv.
Qed.

Lemma distinctVoters_from (calls : list Call) (st : MemStorage) :
  distinctVoters st -> distinctVoters (fold_left step calls st).
Proof.
  revert st. induction calls as [|c calls IH]; cbn; [auto|].
  intros st inv. apply IH, distinctVoters_step, inv.
Qed.

Lemma distinctVoters_run (calls : list Call) : distinctVoters (run calls).
Proof. apply distinctVoters_from, distinctVoters_empty. Qed.

(** Distinct voters are at most three. *)
Lemma at_most_three (ms : list AIModel) : NoDup ms -> List.length ms <= 3.
Proof.
  intros N. change 3%nat with (List.length AI_MODELS).
  apply NoDup_ListNoDup in N.
  apply (List.NoDup_incl_length N). intros []; cbn; auto.
Qed.

(** C8. In every state the storage can reach, adding a response of a
    voter who already has one on the decision overwrites that response in
    place: the list keeps its length, holds the new response as the only
    one of that voter, and keeps the other voters' responses; a first
    response of a voter is appended. Hence no list of responses ever
    names a voter twice or holds more than three responses. *)
Theorem vote_replacement (calls : list Call) (ins : InsertAIResponse)
    (stamp : Stamp) (statusNow : string) (logStamp : Stamp) :
  let st := run calls in
  let key := ins_decisionId ins in
  let before := getAIResponses st key in
  let added := addAIResponse st ins stamp statusNow logStamp in
  let after := getAIResponses (fst added) key in
  (In (ins_model ins) (map model before) ->
     List.length after = List.length before
     /\ filter (fun r => model r = ins_model ins) after = [snd added]
     /\ filter (fun r => model r <> ins_model ins) after =
        filter (fun r => model r <> ins_model ins) before)
  /\ (~ In (ins_model ins) (map model before) ->
      after = (before ++ [snd added])%list)
  /\ (forall k,
      NoDup (map model (getAIResponses (fst added) k))
      /\ List.length (getAIResponses (fst added) k) <= 3).
Proof.
  cbv zeta.
  pose proof (distinctVoters_run calls) as inv.
  pose proof (distinctVoters_step _
                (AddAIResponse ins stamp statusNow logStamp) inv) as inv'.
  cbn [step] in inv'.
  set (st := run calls) in *.
  set (added := addAIResponse st ins stamp statusNow logStamp) in *.
  assert (after_eq :
            getAIResponses (fst added) (ins_decisionId ins) =
            storedAfter st ins (snd added)).
  { unfold getAIResponses, added. rewrite addAIResponse_responses.
    rewrite lookup_insert_eq. reflexivity. }
  assert (distinct :
            NoDup (map model (getAIResponses st (ins_decisionId ins)))).
  { unfold getAIResponses.
    destruct (aiResponses st !! ins_decisionId ins) as [l|] eqn:L; cbn.
    - apply (inv _ _ L).
    - constructor. }
  assert (voter : model (snd added) = ins_model ins) by reflexivity.
  rewrite after_eq. unfold storedAfter.
  change (default [] (aiResponses st !! ins_decisionId ins))
    with (getAIResponses st (ins_decisionId ins)) in *.
  rewrite voter.
  split; [|split].
  - intros I. destruct (In_model_findIndex _ _ I) as [i F]. rewrite F.
    destruct (findIndex_Some _ _ _ F) as (r & L & E).
    split; [apply length_insert|].
    apply (replace_in_place (ins_model ins) (snd added) _ voter distinct i r L E).
  - intros N. destruct (findIndex _ _) as [i|] eqn:F; [|reflexivity].
    destruct (findIndex_Some _ _ _ F) as (r & L & E).
    exfalso. apply N. rewrite <- E.
    apply in_map, list_elem_of_In, list_elem_of_lookup. eauto.
  - intros k.
    assert (N : NoDup (map model (getAIResponses (fst added) k))).
    { unfold getAIResponses.
      destruct (aiResponses (fst added) !! k) as [l|] eqn:L; cbn.
      - apply (inv' _ _ L).
      - constructor. }
    split; [exact N|].
    rewrite <- (length_map model). apply at_most_three, N.
Qed.

End StorageFacts.

(** * The theorems at work on sample cycles *)
Section Runs.
Import Schema Autonomous.

Local Abbreviation sampleConsensus :=
  (determineConsensusAction Samples.noNumber Samples.printN).
Local Abbreviation sampleCycle :=
  (runAutonomousCycle Samples.noNumber Samples.printN Samples.exactProduct
     Samples.tradeOk).

(** burn and buyback have one qualifying vote each (the second vote for
    burn has confidence 25): buyback leads, and the action is [hold]. *)
Lemma quorum_floor_witness :
  let recs :=
    [Samples.recommend grok burn (Samples.percent 80);
     Samples.recommend chatgpt burn (Samples.percent 25);
     Samples.recommend claude buyback (Samples.percent 31)] in
  pluralityLeader (tallyActions Samples.noNumber recs) = (buyback, 1%nat)
  /\ fst (fst (sampleConsensus recs)) = hold.
Proof.
  cbv zeta. split; [reflexivity|].
  apply (proj1 (proj2 (proj2 (quorum_floor Samples.noNumber Samples.printN _)))).
  vm_compute. lia.
Defined.

(** burn, sell_partial and buyback with one vote each: buyback leads. *)
Lemma plurality_tie_break_witness :
  let r1 := Samples.recommend grok burn (Samples.percent 80) in
  let r2 := Samples.recommend chatgpt sell_partial (Samples.percent 40) in
  let r3 := Samples.recommend claude buyback (Samples.percent 31) in
  let leader := pluralityLeader (tallyActions Samples.noNumber [r1; r2; r3]) in
  let chosen :=
    fst (fst (determineConsensusAction Samples.noNumber Samples.printN
                [r1; r2; r3])) in
  firstNamed [burn; sell_partial; buyback] = Some buyback
  /\ snd leader = 1%nat
  /\ firstNamed [action r1; action r2; action r3] = Some (fst leader)
  /\ chosen = hold.
Proof.
  cbv zeta. split; [reflexivity|].
  apply (proj2 (proj2 (proj2 (proj2 (proj2
           (plurality_tie_break Samples.noNumber Samples.printN _)))))
           _ _ _ eq_refl);
    try reflexivity; discriminate.
Defined.

(** Three votes for buyback at confidence 80 with a token in the wallet:
    the decision is executed through one call to the trading API. *)
Lemma execution_gate_witness :
  let out :=
    sampleCycle [] (Some Samples.token) Samples.wallet None Samples.clock
      (fun _ => Samples.reply buyback (Samples.percent 80))
      [grok; chatgpt; claude] in
  trades out = [BuyToken "Mint1" (Js.Fin (1 # 10))]
  /\ exists d, returned out = inr d
       /\ executed d = true
       /\ decision_action d <> hold
       /\ 2 <= Tally.approve (votes d).
Proof.
  cbv zeta. split; [reflexivity|].
  eexists. split; [reflexivity|]. split; [reflexivity|].
  refine (proj1 (proj1 (proj1
            (execution_gate Samples.noNumber Samples.printN
               Samples.exactProduct Samples.tradeOk [] (Some Samples.token)
               Samples.wallet None Samples.clock
               (fun _ => Samples.reply buyback (Samples.percent 80))
               [grok; chatgpt; claude]) _ eq_refl)) eq_refl).
Defined.


Lemma non_numeric_confidence_witness :
  let replies m :=
    match m with
    | grok => Samples.reply burn (Js.JsString "high")
    | _ => Samples.reply burn (Samples.percent 80)
    end in
  let out :=
    sampleCycle [] None Samples.wallet None Samples.clock replies
      [grok; chatgpt; claude] in
  Samples.noNumber "high" = Js.NaN
  /\ exists d, returned out = inr d
       /\ decision_action d = burn
       /\ votes d = Tally.mk 2 0 0
       /\ Tally.total (votes d) = 2%nat.
Proof.
  cbv zeta. split; [reflexivity|].
  apply (non_numeric_confidence_leaves_tally_short Samples.noNumber
           Samples.printN Samples.exactProduct Samples.tradeOk).
  reflexivity.
Defined.

End Runs.

Section StorageRuns.
Import Schema Storage.

(** grok votes approve and then reject on the same decision: one
    response is stored, the second one. *)
Lemma vote_replacement_witness :
  let calls :=
    [AddAIResponse (Samples.submission grok approve) (Samples.stamp "1")
       "t1" (Samples.stamp "2")] in
  let added :=
    addAIResponse (run calls) (Samples.submission grok reject)
      (Samples.stamp "3") "t3" (Samples.stamp "4") in
  let after := getAIResponses (fst added) "d1" in
  vote (snd added) = reject
  /\ List.length after = 1%nat
  /\ filter (fun r => model r = grok) after = [snd added].
Proof.
  cbv zeta. split; [reflexivity|].
  destruct (proj1 (vote_replacement
                     [AddAIResponse (Samples.submission grok approve)
                        (Samples.stamp "1") "t1" (Samples.stamp "2")]
                     (Samples.submission grok reject)
                     (Samples.stamp "3") "t3" (Samples.stamp "4")))
    as (len & only & _).
  - vm_compute. auto.
  - split; [|exact only]. etransitivity; [exact len|reflexivity].
Defined.

End StorageRuns.

(** * More on the deliberation service *)
Section DeliberationMore.
Import Schema Deliberation.

Variable parseInt : string -> option Z.

Local Abbreviation parseAIResponse := (Deliberation.parseAIResponse parseInt).
Local Abbreviation getModelResponse :=
  (Deliberation.getModelResponse parseInt).

Lemma votesFor_Permutation (v : Vote) (rs rs' : list AIDeliberationResult) :
  rs ≡ₚ rs' -> votesFor v rs = votesFor v rs'.
Proof.
  intros P. unfold votesFor.
  apply Permutation_length. rewrite P. reflexivity.
Qed.

(** X1. Whatever the number of responses, the approve, reject and abstain
    counts of the vote summary add up to that number: every response is
    counted once. *)
Theorem voteSummary_counts_each_response (rs : list AIDeliberationResult) :
  Tally.total (voteSummary (calculateConsensus rs)) = List.length rs.
Proof.
  change (voteSummary (calculateConsensus rs))
    with (Tally.mk (votesFor approve rs) (votesFor reject rs)
            (votesFor abstain rs)).
  unfold Tally.total. cbn [Tally.approve Tally.reject Tally.abstain].
  induction rs as [|r rs IH]; [reflexivity|].
  rewrite !votesFor_cons. cbn [List.length].
  destruct (decide (vote r = approve)), (decide (vote r = reject)),
    (decide (vote r = abstain)); try congruence; try lia.
  destruct (vote r); congruence.
Qed.

(** X2. The outcome, the unanimity flag and the vote summary do not
    depend on the order in which the responses are listed. *)
Theorem consensus_ignores_order (rs rs' : list AIDeliberationResult) :
  rs ≡ₚ rs' ->
  outcome (calculateConsensus rs) = outcome (calculateConsensus rs')
  /\ unanimity (calculateConsensus rs) = unanimity (calculateConsensus rs')
  /\ voteSummary (calculateConsensus rs) = voteSummary (calculateConsensus rs').
Proof.
  intros P.
  rewrite !outcome_unfold, !unanimity_unfold, !voteSummary_unfold.
  rewrite !(votesFor_Permutation _ rs rs' P). auto.
Qed.

Lemma uniqueInOrder_spec (xs : list string) :
  forall seen,
  NoDup (uniqueInOrder seen xs)
  /\ (forall x, In x (uniqueInOrder seen xs) <-> In x xs /\ ~ In x seen)
  /\ sublist (uniqueInOrder seen xs) xs.
Proof.
  induction xs as [|x xs IH]; intros seen; cbn [uniqueInOrder].
  - split; [constructor|]. split; [cbn; tauto|constructor].
  - destruct (bool_decide_reflect (x ∈ seen)) as [I|N].
    + destruct (IH seen) as (nd & mem & sub).
      split; [exact nd|]. split; [|apply sublist_cons, sub].
      intros y. rewrite mem. cbn [In]. apply list_elem_of_In in I.
      split; [tauto|]. intros [[<-|?] ?]; tauto.
    + destruct (IH (x :: seen)) as (nd & mem & sub).
      split; [|split; [|apply sublist_skip, sub]].
      * apply NoDup_cons. split; [|exact nd].
        intros I. apply list_elem_of_In, mem in I. cbn [In] in I. tauto.
      * intros y. cbn [In]. rewrite mem. cbn [In].
        rewrite list_elem_of_In in N.
        destruct (decide (x = y)) as [<-|ne]; [tauto|]. tauto.
Qed.

(** X3. The action items of a consensus hold every recommendation of
    every response and nothing else, each of them once, in an order in
    which they occur in the responses. *)
Theorem actionItems_union (rs : list AIDeliberationResult) :
  let items := actionItems (calculateConsensus rs) in
  NoDup items
  /\ (forall x, In x items <-> exists r, In r rs /\ In x (recommendations r))
  /\ sublist items (flat_map recommendations rs).
Proof.
  cbv zeta.
  change (actionItems (calculateConsensus rs))
    with (uniqueInOrder [] (flat_map recommendations rs)).
  destruct (uniqueInOrder_spec (flat_map recommendations rs) [])
    as (nd & mem & sub).
  split; [exact nd|]. split; [|exact sub].
  intros x. rewrite mem, in_flat_map. cbn [In]. tauto.
Qed.

(** X4. A consensus flagged unanimous always has a decided outcome:
    [needs_revision] never comes with the unanimity flag. *)
Theorem unanimous_is_decided (rs : list AIDeliberationResult) :
  unanimity (calculateConsensus rs) = true ->
  outcome (calculateConsensus rs) <> needs_revision.
Proof.
  rewrite outcome_unfold, unanimity_unfold.
  destruct (Nat.eqb_spec (votesFor approve rs) 3) as [a|na];
    destruct (Nat.eqb_spec (votesFor reject rs) 3) as [r|nr];
    cbn [orb]; try discriminate; intros _;
    destruct (Nat.leb_spec 2 (votesFor approve rs));
    destruct (Nat.leb_spec 2 (votesFor reject rs));
    try discriminate; lia.
Qed.

(** X5. [getModelResponse] fails exactly when the completion failed or
    came back empty, and then with an error that names the voter;
    otherwise it returns a result for that voter with a confidence in
    [0,100]. *)
Theorem getModelResponse_result (m : AIModel) (c : Completion) :
  match getModelResponse m c with
  | inl e =>
      (exists detail,
          e = Js.ErrorObject (AI_MODEL_name m ++ " failed: " ++ detail))
      /\ (forall content parsed, c = CompletionContent content parsed ->
          content = "")
  | inr r =>
      model r = m /\ (0 <= confidence r <= 100)%Z
      /\ exists content parsed,
          c = CompletionContent content parsed /\ content <> ""
          /\ vote r = pr_vote (parseAIResponse content parsed)
  end.
Proof.
  destruct c as [e|content parsed]; cbn [Deliberation.getModelResponse].
  - split; [eauto|]. discriminate.
  - destruct (String.eqb_spec content "") as [->|ne].
    + split; [eauto|]. intros ? ? [= <- _]. reflexivity.
    + cbn. split; [reflexivity|].
      split; [|eauto 6].
      destruct parsed as [p|]; cbn; [apply clamp_range|lia].
Qed.

End DeliberationMore.

(** * The three voters of a deliberation *)
Section DeliberateFacts.
Import Schema Deliberation.

Variable parseInt : string -> option Z.

Local Abbreviation getModelResponse :=
  (Deliberation.getModelResponse parseInt).
Local Abbreviation deliberate := (Routes.deliberate parseInt).

Lemma getModelResponse_ok (m : AIModel) (c : Completion)
    (r : AIDeliberationResult) :
  getModelResponse m c = inr r ->
  model r = m /\ (0 <= confidence r <= 100)%Z.
Proof.
  destruct c as [e|content parsed]; cbn [Deliberation.getModelResponse]; [discriminate|].
  destruct (String.eqb content ""); [discriminate|].
  intros [= <-]. cbn. split; [reflexivity|].
  destruct parsed as [p|]; cbn; [apply clamp_range|lia].
Qed.

(** X6. [deliberate] is all or nothing. When it returns, it returns one
    result per voter, in the order grok, chatgpt, claude, each with a
    confidence in [0,100], so that the vote summary computed from them
    counts 3 votes; when it fails, it fails with the error of a voter
    whose call failed, and it fails as soon as one of them does. *)
Theorem deliberate_all_or_nothing (completions : AIModel -> Completion)
    (race : list AIModel) :
  match deliberate completions race with
  | inr rs =>
      map model rs = [grok; chatgpt; claude]
      /\ Forall (fun r => (0 <= confidence r <= 100)%Z) rs
      /\ Tally.total (voteSummary (calculateConsensus rs)) = 3%nat
      /\ rs = Autonomous.fulfilled
                (map (fun m => getModelResponse m (completions m))
                   [grok; chatgpt; claude])
      /\ forall m, exists r, getModelResponse m (completions m) = inr r
  | inl e =>
      exists m, getModelResponse m (completions m) = inl e
  end.
Proof.
  unfold Routes.deliberate.
  destruct (Autonomous.Promise_all _ _ _) as [e|rs] eqn:P.
  - unfold Autonomous.Promise_all in P.
    destruct (Autonomous.firstRejection _) as [e'|] eqn:F; [|discriminate].
    injection P as ->.
    destruct (firstRejection_Some _ _ _ F) as (m & _ & E). eauto.
  - destruct (Promise_all_three _ _ _ P) as [values _].
    unfold Autonomous.Promise_all in P.
    destruct (Autonomous.firstRejection _) eqn:F; [discriminate|].
    rewrite map_app in F. apply firstRejection_app_None in F.
    cbn [map Autonomous.fulfilled Autonomous.firstRejection] in values, F.
    destruct (getModelResponse grok (completions grok)) as [?|r1] eqn:E1;
      [discriminate|].
    destruct (getModelResponse chatgpt (completions chatgpt)) as [?|r2] eqn:E2;
      [discriminate|].
    destruct (getModelResponse claude (completions claude)) as [?|r3] eqn:E3;
      [discriminate|].
    destruct (getModelResponse_ok _ _ _ E1) as [M1 C1].
    destruct (getModelResponse_ok _ _ _ E2) as [M2 C2].
    destruct (getModelResponse_ok _ _ _ E3) as [M3 C3].
    subst rs. cbn [map]. rewrite M1, M2, M3.
    split; [reflexivity|].
    split; [repeat (constructor; [assumption|]); constructor|].
    split; [apply voteSummary_total|].
    split; [cbn [map]; rewrite E1, E2, E3; reflexivity|].
    intros []; eauto.
Qed.

End DeliberateFacts.

(** * More on the autonomous engine *)
Section EngineMore.
Import Schema Autonomous.

Variable StringToNumber : string -> Js.number.
Variable NumberToString : Js.number -> string.
Variable Number_mul : Js.number -> Js.number -> Js.number.
Variable tradingApi : TradeCall -> Js.Thrown + TradeResult.

Local Abbreviation cycle :=
  (runAutonomousCycle StringToNumber NumberToString Number_mul tradingApi).
Local Abbreviation execute :=
  (executeAction NumberToString Number_mul tradingApi).

Lemma take_cons_take {A : Type} (n : nat) (x : A) (l : list A) :
  take (S n) (x :: take (S n) l) = take (S n) (x :: l).
Proof.
  cbn [take]. f_equal. rewrite take_take. f_equal. lia.
Qed.

Lemma pushes_take (ds : list AutonomousDecision) :
  forall l,
  fold_left (fun h d => pushDecision d h) ds (take 100 l)
  = take 100 (rev ds ++ l).
Proof.
  induction ds as [|d ds IH]; intros l; cbn [fold_left rev].
  - reflexivity.
  - rewrite pushDecision_take, take_cons_take.
    rewrite <- pushDecision_take, pushDecision_take.
    rewrite (IH (d :: l)), <- app_assoc. reflexivity.
Qed.

(** X7. The history is the list of the decisions pushed so far, newest
    first, cut to the 100 most recent: pushing [ds] one after the other
    onto a history of at most 100 entries leaves the first 100 entries
    of [ds] reversed followed by the old history. *)
Theorem history_keeps_newest_100 (ds l : list AutonomousDecision) :
  List.length l <= 100 ->
  let h := fold_left (fun h d => pushDecision d h) ds l in
  h = take 100 (rev ds ++ l)
  /\ List.length h = Nat.min 100 (List.length ds + List.length l).
Proof.
  intros short. cbv zeta.
  assert (E : fold_left (fun h d => pushDecision d h) ds l
              = take 100 (rev ds ++ l)).
  { rewrite <- (pushes_take ds l), (take_ge l 100 short). reflexivity. }
  rewrite E. split; [reflexivity|].
  rewrite length_take, length_app, length_rev. reflexivity.
Qed.

Lemma executeAction_calls (a : ActionType) (context : AutonomousContext) :
  let calls := snd (execute a context) in
  List.length calls <= 1
  /\ (token context = None -> calls = [])
  /\ (a = hold -> calls = []).
Proof.
  cbv zeta. unfold executeAction.
  destruct (token context) as [tok|]; [|cbn; auto].
  destruct a; cbn [snd]; try (cbn; split; [lia|split; [discriminate|discriminate]]).
  - destruct (Js.number_lt _ _); cbn;
      (split; [lia|split; discriminate]).
  - cbn. split; [lia|]. split; [discriminate|reflexivity].
Qed.

(** X8. A cycle makes at most one call to the trading API, and none when
    no token has been created. *)
Theorem cycle_trades_at_most_once (lastDecisions : list AutonomousDecision)
    (tok : option TokenInfo) (bal : WalletBalance) (mkt : option MarketData)
    (clock : Clock) (replies : AIModel -> ChatReply) (race : list AIModel) :
  let out := cycle lastDecisions tok bal mkt clock replies race in
  List.length (trades out) <= 1
  /\ (tok = None -> trades out = []).
Proof.
  cbv zeta. unfold runAutonomousCycle.
  destruct (Promise_all _ race _) as [thrown|recs]; [cbn; auto|].
  destruct (determineConsensusAction _ _ recs) as [[a text] v].
  destruct (negb _ && _); [|cbn; auto].
  match goal with
  | |- context [executeAction _ _ _ a ?ctx] =>
      pose proof (executeAction_calls a ctx) as (once & none & _);
      destruct (executeAction _ _ _ a ctx) as [[thrown|text'] calls]
  end; cbn [snd trades] in *; auto.
Qed.

(** X9. [executeAction] buys only for a buyback, for the token of the
    wallet, with a balance that is not below 0.01 SOL, and the amount it
    passes is the smaller of a tenth of the balance and 0.1 SOL: never
    more than 0.1 when it is a number. *)
Theorem buyback_amount_capped (a : ActionType) (context : AutonomousContext)
    (mintAddress : string) (amount : Js.number) :
  In (BuyToken mintAddress amount) (snd (execute a context)) ->
  a = buyback
  /\ (exists tok, token context = Some tok /\ mint tok = mintAddress)
  /\ Js.number_lt (sol (balance context)) (1 # 100) = false
  /\ amount =
     Js.Math_min (Number_mul (sol (balance context)) (Js.Fin (1 # 10)))
       (Js.Fin (1 # 10))
  /\ (amount = Js.NaN \/ Js.number_le amount (1 # 10) = true).
Proof.
  unfold executeAction.
  destruct (token context) as [tok|]; [|cbn; tauto].
  destruct a; cbn [snd In]; try (intros [[=]|[]]); try tauto.
  destruct (Js.number_lt (sol (balance context)) (1 # 100)) eqn:L;
    cbn [snd In]; [tauto|].
  intros [[= <- <-]|[]].
  split; [reflexivity|]. split; [eauto|]. split; [reflexivity|].
  split; [reflexivity|].
  destruct (Number_mul _ _) as [|q| |]; cbn; auto.
  right. destruct (Qcompare q (1 # 10)) eqn:C; cbn; try rewrite C; reflexivity.
Qed.

Lemma firstRejection_all_fulfilled {R : Type} (f : AIModel -> Js.Thrown + R)
    (l : list AIModel) :
  (forall m, exists r, f m = inr r) -> firstRejection (map f l) = None.
Proof.
  intros ok. induction l as [|m l IH]; cbn; [reflexivity|].
  destruct (ok m) as [r ->]. exact IH.
Qed.

(** X10. When every voter returns a recommendation, the order in which
    the three answers arrive changes nothing: the cycle returns the same
    decision, leaves the same history and makes the same trading
    calls. *)
Theorem cycle_ignores_arrival_order (lastDecisions : list AutonomousDecision)
    (tok : option TokenInfo) (bal : WalletBalance) (mkt : option MarketData)
    (clock : Clock) (replies : AIModel -> ChatReply)
    (race race' : list AIModel) :
  (forall m, exists rec, getAIRecommendation m (replies m) = inr rec) ->
  cycle lastDecisions tok bal mkt clock replies race
  = cycle lastDecisions tok bal mkt clock replies race'.
Proof.
  intros ok. unfold runAutonomousCycle, Promise_all.
  rewrite !(firstRejection_all_fulfilled _ _ ok). reflexivity.
Qed.

(** X11. A recommendation whose confidence is missing, null, 0, false or
    the empty string is given the confidence 50: it counts toward the
    action tally (50 > 30) and is an abstention in the display tally
    (50 <= 50, not > 50). *)
Theorem falsy_confidence_counts_as_50 (m : AIModel) (p : ParsedRecommendation) :
  Js.ToBoolean (parsed_confidence p) = false ->
  exists rec,
    getAIRecommendation m (ParsedObject p) = inr rec
    /\ confidence rec = Js.JsNumber (Js.Fin 50)
    /\ counted StringToNumber rec = true
    /\ Js.gt StringToNumber (confidence rec) 50 = false
    /\ Js.le StringToNumber (confidence rec) 50 = true.
Proof.
  intros falsy. eexists. split; [reflexivity|].
  unfold counted. cbn [confidence]. rewrite falsy.
  repeat split; reflexivity.
Qed.

End EngineMore.

(** * The engine's switch and its history *)
Section EngineControlFacts.
Import Schema Autonomous EngineControl.

Lemma liveTimers_app (xs ys : list Effect) :
  liveTimers (xs ++ ys) = (liveTimers xs + liveTimers ys)%Z.
Proof.
  induction xs as [|[| |] xs IH]; cbn [app liveTimers]; lia.
Qed.

(** The decisions the cycles returned, oldest first. *)
Local Abbreviation returnedBy events :=
  (omap (fun ev => match ev with CycleReturned d => Some d | _ => None end)
     events).

Lemma handle_invariant (st : Engine * list Effect) (ev : Event) :
  (isRunning (fst st) = true <-> is_Some (intervalId (fst st))) ->
  liveTimers (snd st) = (if isRunning (fst st) then 1 else 0)%Z ->
  (isRunning (fst (handle st ev)) = true
   <-> is_Some (intervalId (fst (handle st ev))))
  /\ liveTimers (snd (handle st ev))
     = (if isRunning (fst (handle st ev)) then 1 else 0)%Z.
Proof.
  destruct st as [[l run id] fx]. cbn [fst snd isRunning intervalId].
  intros sync live. destruct ev as [ms h| |d]; cbn [handle].
  - unfold startAutonomousEngine. cbn [isRunning].
    destruct run; cbn [fst snd isRunning intervalId].
    + rewrite app_nil_r. auto.
    + rewrite liveTimers_app, live. cbn. split; [|lia].
      split; [eauto|reflexivity].
  - unfold stopAutonomousEngine. cbn [fst snd isRunning intervalId].
    rewrite liveTimers_app, live. split.
    + split; [discriminate|]. intros [? [=]].
    + destruct run, id as [h|]; cbn; try lia.
      * destruct (proj1 sync eq_refl) as [? [=]].
      * assert (false = true) by (apply sync; eauto). discriminate.
  - cbn. auto.
Qed.

Lemma play_invariant (events : list Event) :
  forall st,
  (isRunning (fst st) = true <-> is_Some (intervalId (fst st))) ->
  liveTimers (snd st) = (if isRunning (fst st) then 1 else 0)%Z ->
  let final := fold_left handle events st in
  (isRunning (fst final) = true <-> is_Some (intervalId (fst final)))
  /\ liveTimers (snd final) = (if isRunning (fst final) then 1 else 0)%Z.
Proof.
  induction events as [|ev events IH]; intros st sync live; cbn [fold_left].
  - auto.
  - destruct (handle_invariant st ev sync live) as [sync' live'].
    apply (IH _ sync' live').
Qed.

(** X12. Whatever sequence of starts, stops and finished cycles the
    engine goes through, it is running exactly when it holds a timer
    handle, and the timers installed and not removed number one while it
    runs and none while it is stopped: a second start installs no second
    timer. *)
Theorem engine_switch_invariant (events : list Event) :
  let final := play events in
  (isRunning (fst final) = true <-> is_Some (intervalId (fst final)))
  /\ liveTimers (snd final) = (if isRunning (fst final) then 1 else 0)%Z
  /\ running (getEngineStatus (fst final)) = isRunning (fst final).
Proof.
  cbv zeta. unfold play.
  destruct (play_invariant events (initial, [])) as [sync live].
  - cbn. split; [discriminate|]. intros [? [=]].
  - reflexivity.
  - auto.
Qed.

Lemma play_history (events : list Event) :
  forall st l,
  lastDecisions (fst st) = take 100 l ->
  lastDecisions (fst (fold_left handle events st))
  = take 100 (rev (returnedBy events) ++ l).
Proof.
  induction events as [|ev events IH]; intros [e fx] l H; cbn [fold_left].
  - exact H.
  - destruct ev as [ms h| |d]; cbn [handle omap list_omap].
    + unfold startAutonomousEngine.
      destruct (isRunning e); apply IH; exact H.
    + apply IH. exact H.
    + cbn [rev]. rewrite <- app_assoc. cbn [app]. apply IH.
      cbn [fst] in *. unfold recordDecision. cbn [lastDecisions].
      rewrite H, pushDecision_take. apply take_cons_take.
Qed.

(** X13. However starts and stops interleave with the cycles, the
    engine's history holds the decisions the cycles returned, newest
    first, cut to the 100 most recent, and the status reports that many
    decisions and the timestamp of the newest one. *)
Theorem engine_history (events : list Event) :
  let e := fst (play events) in
  let returned := returnedBy events in
  getAutonomousDecisions e = take 100 (rev returned)
  /\ decisionsCount (getEngineStatus e) = Nat.min 100 (List.length returned)
  /\ (forall d, last returned = Some d -> decision_timestamp d <> "" ->
      lastCycle (getEngineStatus e) = Some (decision_timestamp d)).
Proof.
  cbv zeta. unfold getAutonomousDecisions, play.
  pose proof (play_history events (initial, []) [] eq_refl) as H.
  rewrite app_nil_r in H.
  split; [exact H|]. unfold getEngineStatus. cbn [decisionsCount lastCycle].
  rewrite H. split.
  - rewrite length_take, length_rev. reflexivity.
  - intros d L ne. apply last_Some in L as [older ->].
    rewrite rev_app_distr. cbn.
    destruct (String.eqb_spec (decision_timestamp d) ""); [contradiction|].
    reflexivity.
Qed.

End EngineControlFacts.

(** * More on the storage *)
Section StorageMore.
Import Schema Storage StorageViews.

Lemma allResponded_spec (rs : list AIResponse) :
  allResponded rs = true <-> forall m, In m (map model rs).
Proof.
  unfold allResponded. rewrite forallb_forall. split.
  - intros H m. assert (I : In m AI_MODELS) by (destruct m; cbn; auto).
    apply H, existsb_exists in I as (r & I & E).
    apply bool_decide_eq_true in E. subst m. apply in_map, I.
  - intros H m _. apply existsb_exists.
    specialize (H m). apply in_map_iff in H as (r & E & I).
    exists r. split; [exact I|]. apply bool_decide_eq_true, E.
Qed.

Lemma storedAfter_voters st ins (response : AIResponse) (m : AIModel) :
  In m (map model (storedAfter st ins response)) <->
  m = model response
  \/ In m (map model (default [] (aiResponses st !! ins_decisionId ins))).
Proof.
  unfold storedAfter.
  destruct (findIndex _ _) as [i|] eqn:F.
  - rewrite (replace_keeps_voters _ _ _ F).
    destruct (findIndex_Some _ _ _ F) as (r & L & E).
    split; [auto|]. intros [->|I]; [|exact I].
    rewrite <- E. apply in_map, list_elem_of_In, list_elem_of_lookup. eauto.
  - rewrite map_app, in_app_iff. cbn [map In]. split.
    + intros [I|[<-|[]]]; auto.
    + intros [->|I]; auto.
Qed.

Lemma addAIResponse_consensuses st ins stamp statusNow logStamp :
  consensuses (fst (addAIResponse st ins stamp statusNow logStamp))
  = consensuses st.
Proof.
  unfold addAIResponse. cbn [fst].
  destruct (decisions _ !! _) as [d|]; [|reflexivity].
  destruct (allResponded _ && _); reflexivity.
Qed.

Lemma addAIResponse_logs st ins stamp statusNow logStamp :
  exists added,
    activityLogs (fst (addAIResponse st ins stamp statusNow logStamp))
    = (activityLogs st ++ added)%list
    /\ List.length added <= 1.
Proof.
  unfold addAIResponse. cbn [fst].
  destruct (decisions _ !! _) as [d|];
    [|exists []; rewrite app_nil_r; cbn; auto].
  destruct (allResponded _ && _).
  - eexists [_]. cbn. auto.
  - exists []. rewrite app_nil_r. cbn. auto.
Qed.

(** What [addAIResponse] does to the stored decisions: at most a move
    from [pending] to [deliberating] of the decision voted on. *)
Lemma addAIResponse_decisions st ins stamp statusNow logStamp (key : string) :
  decisions (fst (addAIResponse st ins stamp statusNow logStamp)) !! key
  = match decisions st !! key with
    | Some d =>
        if bool_decide (key = ins_decisionId ins)
           && allResponded
                (storedAfter st ins
                   (snd (addAIResponse st ins stamp statusNow logStamp)))
           && bool_decide (status d = pending)
        then
          Some {| decision_id := decision_id d; title := title d;
                  description := description d; context := context d;
                  category := category d; priority := priority d;
                  status := deliberating; responses := responses d;
                  consensus := consensus d;
                  decision_createdAt := decision_createdAt d;
                  updatedAt := statusNow |}
        else Some d
    | None => None
    end.
Proof.
  unfold addAIResponse, storedAfter. cbn [fst snd model setResponses decisions].
  destruct (decide (key = ins_decisionId ins)) as [->|ne].
  - rewrite bool_decide_eq_true_2 by reflexivity. cbn [andb].
    destruct (decisions st !! ins_decisionId ins) as [d|] eqn:D;
      [|cbn; rewrite ?D; reflexivity].
    destruct (allResponded _ && bool_decide (status d = pending)).
    + cbn. rewrite lookup_insert_eq. reflexivity.
    + cbn. exact D.
  - rewrite bool_decide_eq_false_2 by exact ne. cbn [andb].
    destruct (decisions st !! ins_decisionId ins) as [d|] eqn:D.
    + destruct (allResponded _ && bool_decide (status d = pending)).
      * cbn. rewrite lookup_insert_ne by congruence.
        destruct (decisions st !! key); reflexivity.
      * cbn. destruct (decisions st !! key); reflexivity.
    + cbn. destruct (decisions st !! key); reflexivity.
Qed.

Lemma getAIResponses_after_add st ins stamp statusNow logStamp (key : string) :
  getAIResponses (fst (addAIResponse st ins stamp statusNow logStamp)) key
  = if decide (key = ins_decisionId ins)
    then storedAfter st ins
           (snd (addAIResponse st ins stamp statusNow logStamp))
    else getAIResponses st key.
Proof.
  unfold getAIResponses. rewrite addAIResponse_responses.
  destruct (decide (key = ins_decisionId ins)) as [->|ne].
  - rewrite lookup_insert_eq. reflexivity.
  - rewrite lookup_insert_ne by congruence. reflexivity.
Qed.

Lemma coherent_empty : coherent empty.
Proof.
  split.
  - intros key d. cbn. rewrite lookup_empty. discriminate.
  - intros key. cbn. rewrite lookup_empty. intros [? [=]].
Qed.

Lemma coherent_create st ins stamp logStamp :
  coherent st -> coherent (fst (createDecision st ins stamp logStamp)).
Proof.
  intros [inv owned]. split.
  - intros key d. cbn. unfold getAIResponses. cbn.
    destruct (decide (key = uuid stamp)) as [->|ne].
    + rewrite !lookup_insert_eq. intros [= <-]. cbn.
      repeat split; try discriminate; auto.
    + rewrite !lookup_insert_ne by congruence. apply inv.
  - intros key. cbn. intros C. apply owned in C.
    destruct (decide (key = uuid stamp)) as [->|ne].
    + rewrite lookup_insert_eq. eauto.
    + rewrite lookup_insert_ne by congruence. exact C.
Qed.

Lemma coherent_update st key0 u nowStamp :
  coherent st -> coherent (fst (updateDecision st key0 u nowStamp)).
Proof.
  intros [inv owned]. unfold updateDecision.
  destruct (decisions st !! key0) as [d0|] eqn:D0; [|split; assumption].
  split.
  - intros key d. cbn. unfold getAIResponses. cbn.
    destruct (decide (key = key0)) as [->|ne].
    + rewrite lookup_insert_eq. intros [= <-]. cbn.
      apply (inv _ _ D0).
    + rewrite lookup_insert_ne by congruence. apply inv.
  - intros key. cbn. intros C. apply owned in C.
    destruct (decide (key = key0)) as [->|ne].
    + rewrite lookup_insert_eq. eauto.
    + rewrite lookup_insert_ne by congruence. exact C.
Qed.

Lemma deleteDecision_maps st key0 logStamp :
  let st' := fst (deleteDecision st key0 logStamp) in
  decisions st' = delete key0 (decisions st)
  /\ aiResponses st' = delete key0 (aiResponses st)
  /\ consensuses st' = delete key0 (consensuses st).
Proof.
  cbv zeta. unfold deleteDecision. cbn [fst decisions aiResponses consensuses].
  destruct (decisions st !! key0); cbn; auto.
Qed.

Lemma coherent_delete st key0 logStamp :
  coherent st -> coherent (fst (deleteDecision st key0 logStamp)).
Proof.
  intros [inv owned].
  destruct (deleteDecision_maps st key0 logStamp) as (D & R & C).
  split.
  - intros key d. unfold getAIResponses. rewrite D, R, C.
    destruct (decide (key = key0)) as [->|ne].
    + rewrite lookup_delete_eq. discriminate.
    + rewrite !lookup_delete_ne by congruence. apply inv.
  - intros key. rewrite D, C.
    destruct (decide (key = key0)) as [->|ne].
    + rewrite lookup_delete_eq. intros [? [=]].
    + rewrite !lookup_delete_ne by congruence. apply owned.
Qed.

Lemma coherent_add st ins stamp statusNow logStamp :
  coherent st ->
  coherent (fst (addAIResponse st ins stamp statusNow logStamp)).
Proof.
  intros [inv owned]. split.
  - intros key d'. rewrite addAIResponse_decisions,
      getAIResponses_after_add, addAIResponse_consensuses.
    destruct (decisions st !! key) as [d|] eqn:D; [|discriminate].
    destruct (inv _ _ D) as (I & nd & P & Q & C).
    destruct (decide (key = ins_decisionId ins)) as [->|ne].
    + rewrite bool_decide_eq_true_2 by reflexivity. cbn [andb].
      destruct (allResponded (storedAfter st ins _)) eqn:A; cbn [andb].
      * destruct (bool_decide_reflect (status d = pending)) as [p|np].
        -- intros [= <-]. cbn. repeat split; try discriminate; auto.
        -- intros [= <-]. repeat split; auto. contradiction.
      * intros [= <-]. repeat split; auto.
        intros del. specialize (Q del).
        rewrite allResponded_spec in Q.
        assert (allResponded
                  (storedAfter st ins
                     (snd (addAIResponse st ins stamp statusNow logStamp)))
                = true); [|congruence].
        apply allResponded_spec. intros m. apply storedAfter_voters.
        right. apply Q.
    + rewrite bool_decide_eq_false_2 by exact ne. cbn [andb].
      intros [= <-]. repeat split; auto.
  - intros key. rewrite addAIResponse_consensuses, addAIResponse_decisions.
    intros C. apply owned in C as [d ->].
    destruct (_ && _); eauto.
Qed.

Lemma setConsensus_maps st key0 data stamp statusNow l1 l2 (d0 : Decision) :
  decisions st !! key0 = Some d0 ->
  let st' := fst (setConsensus st key0 data stamp statusNow l1 l2) in
  exists c d',
    snd (setConsensus st key0 data stamp statusNow l1 l2) = Some c
    /\ consensuses st' = <[key0 := c]> (consensuses st)
    /\ decisions st' = <[key0 := d']> (decisions st)
    /\ aiResponses st' = aiResponses st
    /\ decision_id d' = decision_id d0 /\ status d' = consensus_reached
    /\ outcome c = in_outcome data /\ unanimity c = in_unanimity data
    /\ voteSummary c = in_voteSummary data
    /\ actionItems c = in_actionItems data
    /\ consensus_decisionId c = key0.
Proof.
  intros D0. cbv zeta. unfold setConsensus. rewrite D0.
  eexists. eexists. cbn. repeat split; reflexivity.
Qed.

Lemma coherent_setConsensus st key0 data stamp statusNow l1 l2 :
  coherent st ->
  coherent (fst (setConsensus st key0 data stamp statusNow l1 l2)).
Proof.
  intros [inv owned].
  destruct (decisions st !! key0) as [d0|] eqn:D0.
  - destruct (setConsensus_maps st key0 data stamp statusNow l1 l2 d0 D0)
      as (c & d' & _ & C & D & R & I & S & _).
    split.
    + intros key d. unfold getAIResponses. rewrite D, R, C.
      destruct (decide (key = key0)) as [->|ne].
      * rewrite !lookup_insert_eq. intros [= <-].
        destruct (inv _ _ D0) as (I0 & _).
        rewrite S. repeat split; try discriminate; try congruence. eauto.
      * rewrite !lookup_insert_ne by congruence. apply inv.
    + intros key. rewrite D, C.
      destruct (decide (key = key0)) as [->|ne].
      * rewrite !lookup_insert_eq. eauto.
      * rewrite !lookup_insert_ne by congruence. apply owned.
  - unfold setConsensus. rewrite D0. split; assumption.
Qed.

Lemma coherent_step (st : MemStorage) (c : Call) :
  coherent st -> coherent (step st c).
Proof.
  destruct c; cbn [step].
  - apply coherent_create.
  - apply coherent_update.
  - apply coherent_delete.
  - apply coherent_add.
  - apply coherent_setConsensus.
Qed.

Lemma coherent_run (calls : list Call) : coherent (run calls).
Proof.
  unfold run. generalize coherent_empty. generalize empty.
  induction calls as [|c calls IH]; intros st inv; cbn [fold_left]; [exact inv|].
  apply IH, coherent_step, inv.
Qed.

(** With distinct voters, a list in which all three have responded has
    exactly three responses. *)
Lemma all_three_responses (rs : list AIResponse) :
  NoDup (map model rs) -> allResponded rs = true -> List.length rs = 3%nat.
Proof.
  intros N A. rewrite <- (length_map model).
  apply Nat.le_antisymm; [apply at_most_three, N|].
  change 3%nat with (List.length AI_MODELS).
  apply List.NoDup_incl_length.
  - repeat constructor; cbn; intuition discriminate.
  - intros m _. apply allResponded_spec, A.
Qed.

(** X14. In every state the storage can reach, the status of a decision
    tells where it stands: never [deadlock]; [pending] only while some
    voter has not responded; [deliberating] only when each of the three
    voters has exactly one response stored; [consensus_reached] only
    with a consensus attached. *)
Theorem decision_status_lifecycle (calls : list Call) (key : string)
    (d : Decision) :
  getDecision (run calls) key = Some d ->
  decision_id d = key
  /\ (status d = pending \/ status d = deliberating
      \/ status d = consensus_reached)
  /\ (status d = pending -> allResponded (responses d) = false)
  /\ (status d = deliberating ->
      allResponded (responses d) = true
      /\ List.length (responses d) = 3%nat
      /\ NoDup (map model (responses d)))
  /\ (status d = consensus_reached -> is_Some (consensus d)).
Proof.
  unfold getDecision.
  destruct (decisions (run calls) !! key) as [d0|] eqn:D; [|discriminate].
  intros [= <-]. cbn.
  destruct (coherent_run calls) as [inv _].
  destruct (inv _ _ D) as (I & nd & P & Q & C).
  assert (N : NoDup (map model (getAIResponses (run calls) key))).
  { unfold getAIResponses.
    destruct (aiResponses (run calls) !! key) as [l|] eqn:L; cbn.
    - apply (distinctVoters_run calls _ _ L).
    - constructor. }
  split; [exact I|]. split; [destruct (status d0); auto; contradiction|].
  split; [exact P|]. split; [|exact C].
  intros del. split; [apply Q, del|].
  split; [|exact N]. apply all_three_responses; [exact N|apply Q, del].
Qed.

(** X15. Deleting a decision deletes its responses and its consensus
    with it and reports whether the decision existed; every other
    decision keeps its data. *)
Theorem deleteDecision_cascades (st : MemStorage) (key : string)
    (logStamp : Stamp) :
  let st' := fst (deleteDecision st key logStamp) in
  getDecision st' key = None
  /\ getAIResponses st' key = []
  /\ getConsensus st' key = None
  /\ snd (deleteDecision st key logStamp)
     = bool_decide (is_Some (getDecision st key))
  /\ (forall k, k <> key ->
      getDecision st' k = getDecision st k
      /\ getAIResponses st' k = getAIResponses st k
      /\ getConsensus st' k = getConsensus st k).
Proof.
  cbv zeta.
  destruct (deleteDecision_maps st key logStamp) as (D & R & C).
  unfold getDecision, getAIResponses, getConsensus, withDerived.
  rewrite D, R, C, !lookup_delete_eq.
  split; [reflexivity|]. split; [reflexivity|]. split; [reflexivity|].
  split.
  - unfold deleteDecision. cbn [snd].
    destruct (decisions st !! key); reflexivity.
  - intros k ne. rewrite !lookup_delete_ne by congruence. auto.
Qed.

Lemma step_appends (st : MemStorage) (c : Call) :
  exists added,
    activityLogs (step st c) = (activityLogs st ++ added)%list
    /\ List.length added <= 2.
Proof.
  destruct c; cbn [step].
  - eexists [_]. cbn. auto.
  - unfold updateDecision. destruct (decisions st !! key);
      exists []; rewrite app_nil_r; cbn; auto.
  - unfold deleteDecision. cbn [fst activityLogs].
    destruct (decisions st !! key).
    + eexists [_]. cbn. auto.
    + exists []. rewrite app_nil_r. auto.
  - destruct (addAIResponse_logs st ins stamp statusNow logStamp)
      as (added & E & L).
    exists added. split; [exact E|lia].
  - unfold setConsensus. destruct (decisions st !! key).
    + eexists [_; _]. cbn. rewrite <- app_assoc. auto.
    + exists []. rewrite app_nil_r. cbn. auto.
Qed.

Lemma steps_append (more : list Call) :
  forall st, exists added,
    activityLogs (fold_left step more st) = (activityLogs st ++ added)%list
    /\ List.length added <= 2 * List.length more.
Proof.
  induction more as [|c more IH]; intros st; cbn [fold_left].
  - exists []. rewrite app_nil_r. cbn. auto.
  - destruct (step_appends st c) as (a1 & E1 & L1).
    destruct (IH (step st c)) as (a2 & E2 & L2).
    exists (a1 ++ a2)%list. rewrite E2, E1, <- app_assoc.
    split; [reflexivity|]. rewrite length_app. cbn [List.length]. lia.
Qed.

(** X16. The activity log only grows: whatever calls follow, the log as
    it stood is still there, entry for entry, at the front of the new
    one, and a call adds at most two entries. *)
Theorem activity_log_append_only (calls more : list Call) :
  exists added,
    activityLogs (run (calls ++ more))
    = (activityLogs (run calls) ++ added)%list
    /\ List.length added <= 2 * List.length more.
Proof.
  unfold run. rewrite fold_left_app. apply steps_append.
Qed.

(** X17. [setConsensus] for a decision that does not exist stores nothing
    and returns nothing. For an existing decision it stores the consensus
    it returns, readable back with [getConsensus], moves the decision to
    [consensus_reached], leaves the responses alone and appends two log
    entries: [deliberation_completed] and the entry of the outcome. *)
Theorem setConsensus_stores (st : MemStorage) (key : string)
    (data : ConsensusInput) (stamp : Stamp) (statusNow : string)
    (l1 l2 : Stamp) :
  let st' := fst (setConsensus st key data stamp statusNow l1 l2) in
  let returned := snd (setConsensus st key data stamp statusNow l1 l2) in
  match getDecision st key with
  | None => st' = st /\ returned = None
  | Some _ =>
      (exists c, returned = Some c
         /\ getConsensus st' key = Some c
         /\ outcome c = in_outcome data
         /\ unanimity c = in_unanimity data
         /\ voteSummary c = in_voteSummary data
         /\ consensus_decisionId c = key)
      /\ (status <$> getDecision st' key) = Some consensus_reached
      /\ (forall k, getAIResponses st' k = getAIResponses st k)
      /\ (exists e1 e2,
          activityLogs st' = (activityLogs st ++ [e1; e2])%list
          /\ log_type e1 = deliberation_completed
          /\ log_type e2 =
             match in_outcome data with
             | approved => consensus_approved
             | rejected => consensus_rejected
             | needs_revision => consensus_needs_revision
             end
          /\ log_decisionId e1 = Some key /\ log_decisionId e2 = Some key)
  end.
Proof.
  cbv zeta. unfold getDecision.
  destruct (decisions st !! key) as [d0|] eqn:D0.
  - destruct (setConsensus_maps st key data stamp statusNow l1 l2 d0 D0)
      as (c & d' & Ret & C & D & R & I & S & O & U & V & _ & K).
    split; [|split; [|split]].
    + exists c. unfold getConsensus. rewrite C, lookup_insert_eq. auto 7.
    + rewrite D, lookup_insert_eq. cbn. congruence.
    + intros k. unfold getAIResponses. rewrite R. reflexivity.
    + unfold setConsensus. rewrite D0. cbn [fst logActivity activityLogs].
      eexists. eexists. rewrite <- app_assoc. cbn [app].
      split; [reflexivity|]. cbn. auto.
  - unfold setConsensus. rewrite D0. auto.
Qed.

(** X18. In a state the storage can reach, a decision created under a new
    identifier reads back exactly as [createDecision] returned it:
    [pending], without responses, without consensus, with the submitted
    fields; the other decisions read as before. *)
Theorem createDecision_reads_back (calls : list Call) (ins : InsertDecision)
    (stamp logStamp : Stamp) :
  decisions (run calls) !! uuid stamp = None ->
  let created := createDecision (run calls) ins stamp logStamp in
  getDecision (fst created) (uuid stamp) = Some (snd created)
  /\ status (snd created) = pending
  /\ responses (snd created) = []
  /\ consensus (snd created) = None
  /\ title (snd created) = ins_title ins
  /\ description (snd created) = ins_description ins
  /\ category (snd created) = ins_category ins
  /\ priority (snd created) = ins_priority ins
  /\ (forall k, k <> uuid stamp ->
      getDecision (fst created) k = getDecision (run calls) k).
Proof.
  intros new. cbv zeta.
  destruct (coherent_run calls) as [_ owned].
  assert (noConsensus : consensuses (run calls) !! uuid stamp = None).
  { destruct (consensuses (run calls) !! uuid stamp) eqn:C; [|reflexivity].
    destruct (owned (uuid stamp)) as [d D]; [eauto|]. congruence. }
  unfold getDecision, createDecision, withDerived. cbn.
  rewrite !lookup_insert_eq. cbn. rewrite noConsensus.
  repeat (split; [reflexivity|]).
  intros k ne. rewrite !lookup_insert_ne by congruence. reflexivity.
Qed.

(** X19. [updateDecision] on a missing decision changes nothing. On an
    existing one it replaces each submitted field (title, description,
    context, category, priority), keeps each field that was not
    submitted, and sets the update time: the identifier, the status, the
    creation time, the responses and the consensus of every decision stay
    as they were, every other decision reads as before, and the
    responses, the consensuses and the activity log are untouched. *)
Theorem updateDecision_keeps_votes_and_status (st : MemStorage)
    (key : string) (u : UpdateDecision) (nowStamp : string) :
  let st' := fst (updateDecision st key u nowStamp) in
  let returned := snd (updateDecision st key u nowStamp) in
  let kept (d : Decision) :=
    (decision_id d, status d, decision_createdAt d, responses d, consensus d) in
  (forall k, kept <$> getDecision st' k = kept <$> getDecision st k)
  /\ returned = (if decide (is_Some (getDecision st key))
                 then getDecision st' key else None)
  /\ match getDecision st key with
     | None => st' = st
     | Some d =>
         exists d', getDecision st' key = Some d'
           /\ title d' = default (title d) (upd_title u)
           /\ description d' = default (description d) (upd_description u)
           /\ context d' =
              match upd_context u with
              | Some c => Some c
              | None => context d
              end
           /\ category d' = default (category d) (upd_category u)
           /\ priority d' = default (priority d) (upd_priority u)
           /\ updatedAt d' = nowStamp
     end
  /\ (forall k, k <> key -> getDecision st' k = getDecision st k)
  /\ aiResponses st' = aiResponses st
  /\ consensuses st' = consensuses st
  /\ activityLogs st' = activityLogs st.
Proof.
  cbv zeta. unfold getDecision, updateDecision.
  destruct (decisions st !! key) as [d0|] eqn:D0; cbn [fst snd].
  - split; [|split; [|split; [|split]]].
    + intros k. cbn. destruct (decide (k = key)) as [->|ne].
      * rewrite lookup_insert_eq, D0. reflexivity.
      * rewrite lookup_insert_ne by congruence. reflexivity.
    + cbn. rewrite lookup_insert_eq.
      destruct (decide _) as [?|n]; [reflexivity|].
      exfalso. apply n. eauto.
    + cbn. rewrite lookup_insert_eq. eexists. split; [reflexivity|].
      cbn. auto 10.
    + intros k ne. cbn. rewrite lookup_insert_ne by congruence. reflexivity.
    + cbn. auto.
  - split; [reflexivity|]. split; [|split; [reflexivity|auto]].
    rewrite D0. destruct (decide _) as [[? [=]]|?]; reflexivity.
Qed.

End StorageMore.

(** * The route handlers *)
Section RoutesFacts.
Import Schema Storage StorageViews Routes.

Variable NumberToString : Js.number -> string.
Variable parseInt : string -> option Z.
Variable schemaError : Deliberation.AIDeliberationResult -> option string.
Variable fresh : nat -> Stamp.

Local Abbreviation postConsensus := (Routes.postConsensus NumberToString fresh).
Local Abbreviation getModelResponse :=
  (Deliberation.getModelResponse parseInt).
Local Abbreviation deliberate := (Routes.deliberate parseInt).
Local Abbreviation postDeliberate :=
  (Routes.postDeliberate parseInt schemaError fresh).
Local Abbreviation postCreateAndDeliberate :=
  (Routes.postCreateAndDeliberate parseInt schemaError fresh).
Local Abbreviation saveResponses := (Routes.saveResponses schemaError fresh).
Local Abbreviation concludeDeliberation :=
  (Routes.concludeDeliberation schemaError fresh).

Lemma missingModels_spec (rs : list AIResponse) (m : AIModel) :
  In m (missingModels rs) <-> ~ In m (map model rs).
Proof.
  unfold missingModels. rewrite filter_In, negb_true_iff.
  assert (I : In m AI_MODELS) by (destruct m; cbn; auto).
  rewrite <- not_true_iff_false, existsb_exists. split.
  - intros [_ N] H. apply N. apply in_map_iff in H as (r & E & Hr).
    exists r. split; [exact Hr|]. apply bool_decide_eq_true, E.
  - intros N. split; [exact I|]. intros (r & Hr & E).
    apply bool_decide_eq_true in E. apply N. rewrite <- E. apply in_map, Hr.
Qed.

Lemma votesCast_total (rs : list AIResponse) :
  (votesCast approve rs + votesCast reject rs + votesCast abstain rs)%nat
  = List.length rs.
Proof.
  unfold votesCast. induction rs as [|r rs IH]; [reflexivity|].
  rewrite !filter_cons. cbn [List.length].
  destruct (decide (vote r = approve)), (decide (vote r = reject)),
    (decide (vote r = abstain)); cbn [List.length]; try congruence; try lia.
  destruct (vote r); congruence.
Qed.

(** X20. The consensus route answers 404 for an unknown decision and 400
    as long as a voter has not responded, listing the voters who did and,
    as missing, exactly the others; in both cases it stores nothing. It
    goes on to compute a consensus only when all three have responded. *)
Theorem postConsensus_needs_every_voter (st : MemStorage) (key : string) :
  match snd (postConsensus st key) with
  | ConsensusNotFound =>
      fst (postConsensus st key) = st /\ getDecision st key = None
  | CannotReachConsensus responded missing =>
      fst (postConsensus st key) = st
      /\ is_Some (getDecision st key)
      /\ responded = map model (getAIResponses st key)
      /\ (forall m, In m missing <-> ~ In m responded)
      /\ missing <> []
  | ConsensusCreated _ =>
      is_Some (getDecision st key)
      /\ forall m, In m (map model (getAIResponses st key))
  end.
Proof.
  unfold Routes.postConsensus.
  destruct (getDecision st key) as [d|] eqn:G; [|cbn; auto].
  destruct (allResponded (getAIResponses st key)) eqn:A; cbn [negb].
  - destruct (setConsensus _ _ _ _ _ _ _) as [st' c]. cbn [snd].
    split; [eauto|]. apply allResponded_spec, A.
  - cbn [fst snd]. split; [reflexivity|]. split; [eauto|].
    split; [reflexivity|]. split; [apply missingModels_spec|].
    intros E.
    assert (allResponded (getAIResponses st key) = true); [|congruence].
    apply allResponded_spec. intros m.
    destruct (in_dec AIModel_eq_dec m (map model (getAIResponses st key)))
      as [I|N]; [exact I|].
    apply missingModels_spec in N. rewrite E in N. destruct N.
Qed.

(** X21. In a state the storage can reach, a consensus the route creates
    rests on exactly three responses, one per voter: its vote summary
    counts them and adds up to 3, its outcome and unanimity follow the
    two-of-three rule on those counts, it reads back with [getConsensus],
    its decision is [consensus_reached], and its action items are absent
    when empty. *)
Theorem postConsensus_counts_three_votes (calls : list Call) (key : string)
    (c : option Consensus) :
  snd (postConsensus (run calls) key) = ConsensusCreated c ->
  let rs := getAIResponses (run calls) key in
  let st' := fst (postConsensus (run calls) key) in
  List.length rs = 3%nat
  /\ exists cons,
      c = Some cons
      /\ getConsensus st' key = Some cons
      /\ (status <$> getDecision st' key) = Some consensus_reached
      /\ voteSummary cons =
         Tally.mk (votesCast approve rs) (votesCast reject rs)
           (votesCast abstain rs)
      /\ Tally.total (voteSummary cons) = 3%nat
      /\ (outcome cons = approved <-> 2 <= votesCast approve rs)
      /\ (outcome cons = rejected <-> 2 <= votesCast reject rs)
      /\ (outcome cons = needs_revision <->
          votesCast approve rs < 2 /\ votesCast reject rs < 2)
      /\ (unanimity cons = true <->
          votesCast approve rs = 3%nat \/ votesCast reject rs = 3%nat)
      /\ actionItems cons <> Some [].
Proof.
  cbv zeta. unfold Routes.postConsensus, getDecision.
  destruct (decisions (run calls) !! key) as [d0|] eqn:D0; [|discriminate].
  destruct (allResponded (getAIResponses (run calls) key)) eqn:A;
    cbn [negb]; [|discriminate].
  assert (three : List.length (getAIResponses (run calls) key) = 3%nat).
  { apply all_three_responses; [|exact A]. unfold getAIResponses.
    destruct (aiResponses (run calls) !! key) as [l|] eqn:L; cbn.
    - apply (distinctVoters_run calls _ _ L).
    - constructor. }
  pose proof (votesCast_total (getAIResponses (run calls) key)) as total.
  rewrite three in total.
  match goal with
  | |- context [setConsensus ?st ?k ?data ?s ?n ?l1 ?l2] =>
      destruct (setConsensus_maps st k data s n l1 l2 d0 D0)
        as (cons & d' & Ret & C & D & R & I & S & O & U & V & Items & K);
      destruct (setConsensus st k data s n l1 l2) as [st' c'] eqn:E
  end.
  cbn [fst snd] in *. intros [= <-]. split; [exact three|].
  exists cons. split; [exact Ret|].
  split; [unfold getConsensus; rewrite C, lookup_insert_eq; reflexivity|].
  split; [rewrite D, lookup_insert_eq; cbn; congruence|].
  split; [exact V|]. split; [rewrite V; unfold Tally.total; cbn; lia|].
  rewrite O, U, Items. cbn [Tally.approve Tally.reject].
  set (a := votesCast approve (getAIResponses (run calls) key)) in *.
  set (r := votesCast reject (getAIResponses (run calls) key)) in *.
  set (ab := votesCast abstain (getAIResponses (run calls) key)) in *.
  repeat split.
  - destruct (Nat.leb_spec 2 a); [auto|].
    destruct (Nat.leb_spec 2 r); discriminate.
  - intros. destruct (Nat.leb_spec 2 a); [reflexivity|lia].
  - destruct (Nat.leb_spec 2 a); [discriminate|].
    destruct (Nat.leb_spec 2 r); [auto|discriminate].
  - intros. destruct (Nat.leb_spec 2 a); [lia|].
    destruct (Nat.leb_spec 2 r); [reflexivity|lia].
  - destruct (Nat.leb_spec 2 a); [discriminate|assumption].
  - destruct (Nat.leb_spec 2 a); [discriminate|].
    destruct (Nat.leb_spec 2 r); [discriminate|assumption].
  - intros [? ?]. destruct (Nat.leb_spec 2 a); [lia|].
    destruct (Nat.leb_spec 2 r); [lia|reflexivity].
  - intros H. apply orb_true_iff in H as [H|H];
      apply Nat.eqb_eq in H; auto.
  - intros [->| ->]; cbn; [reflexivity|]. apply orb_true_r.
  - destruct (Nat.ltb_spec 0 (List.length
        (Deliberation.uniqueInOrder []
           (flat_map (fun r0 => default [] (recommendations r0))
              (getAIResponses (run calls) key))))) as [pos|zero].
    + intros [= E']. rewrite E' in pos. cbn in pos. lia.
    + discriminate.
Qed.

Lemma deliberate_fails (completions : AIModel -> Deliberation.Completion)
    (race : list AIModel) (m : AIModel) (e : Js.Thrown) :
  getModelResponse m (completions m) = inl e ->
  exists m' e',
    getModelResponse m' (completions m') = inl e'
    /\ deliberate completions race = inl e'.
Proof.
  intros failure. unfold Routes.deliberate, Autonomous.Promise_all.
  destruct (Autonomous.firstRejection _) as [e'|] eqn:F.
  - destruct (firstRejection_Some _ _ _ F) as (m' & _ & E). eauto.
  - exfalso. revert F. apply (firstRejection_None _ _ m e); [|exact failure].
    apply in_or_app. right. destruct m; cbn; auto.
Qed.

(** X22. The deliberation route stores nothing when it turns a request
    down: for an unknown decision (404), for a decision that has already
    reached consensus (400, with the consensus it has), and when the call
    of any voter fails (500, with the message of a failed voter).  In the
    last case the handler has waited for the voters, and the store is as
    the requests served in the meantime left it: unchanged when there
    were none ([resumed st []] is [st]). *)
Theorem postDeliberate_rejections (st : MemStorage) (key : string)
    (completions : AIModel -> Deliberation.Completion) (race : list AIModel)
    (meanwhile : list Call) :
  (getDecision st key = None ->
   postDeliberate st key completions race meanwhile = (st, DecisionNotFound))
  /\ (forall d, getDecision st key = Some d ->
      status d = consensus_reached ->
      postDeliberate st key completions race meanwhile
      = (st, AlreadyDeliberated (getConsensus st key)))
  /\ (forall d m e, getDecision st key = Some d ->
      status d <> consensus_reached ->
      getModelResponse m (completions m) = inl e ->
      exists m' e',
        getModelResponse m' (completions m') = inl e'
        /\ postDeliberate st key completions race meanwhile
           = (resumed st meanwhile, DeliberationFailed (Js.messageOf e'))
        /\ postDeliberate st key completions race []
           = (st, DeliberationFailed (Js.messageOf e'))).
Proof.
  unfold Routes.postDeliberate. split; [intros ->; reflexivity|]. split.
  - intros d G reached. rewrite G.
    rewrite bool_decide_eq_true_2 by exact reached.
    unfold getDecision in G.
    destruct (decisions st !! key); [|discriminate].
    injection G as <-. reflexivity.
  - intros d m e G open failure. rewrite G.
    rewrite bool_decide_eq_false_2 by exact open.
    destruct (deliberate_fails completions race m e failure)
      as (m' & e' & E & ->).
    exists m', e'. auto.
Qed.

(** X23. POST /api/deliberate creates the decision before it asks the
    voters: when the call of a voter fails, the answer is an error and
    the handler has written nothing but the new decision, which stays
    behind, [pending] and without responses.  The store it leaves is the
    one [createDecision] made, followed by what the requests served
    during the wait did to it: with none of them, that store itself. *)
Theorem postCreateAndDeliberate_leaves_pending (st : MemStorage)
    (ins : InsertDecision) (completions : AIModel -> Deliberation.Completion)
    (race : list AIModel) (meanwhile : list Call) (m : AIModel)
    (e : Js.Thrown) :
  getModelResponse m (completions m) = inl e ->
  let created := fst (createDecision st ins (fresh 0) (fresh 1)) in
  let st' := fst (postCreateAndDeliberate st ins completions race meanwhile) in
  (exists message,
     snd (postCreateAndDeliberate st ins completions race meanwhile)
     = DeliberationFailed message)
  /\ st' = resumed created meanwhile
  /\ fst (postCreateAndDeliberate st ins completions race []) = created
  /\ exists d,
      getDecision created (uuid (fresh 0)) = Some d
      /\ status d = pending /\ responses d = []
      /\ title d = ins_title ins.
Proof.
  intros failure. cbv zeta. unfold Routes.postCreateAndDeliberate.
  destruct (deliberate_fails completions race m e failure)
    as (m' & e' & _ & ->).
  cbn [fst snd]. split; [eauto|]. split; [reflexivity|].
  split; [reflexivity|].
  unfold getDecision, withDerived. cbn. rewrite !lookup_insert_eq.
  eexists. split; [reflexivity|]. cbn. auto.
Qed.

Lemma Category_text_inj (c c' : Category) :
  Category_text c = Category_text c' -> c = c'.
Proof. destruct c, c'; cbn; intros E; try reflexivity; discriminate E. Qed.

Lemma Priority_text_inj (p p' : Priority) :
  Priority_text p = Priority_text p' -> p = p'.
Proof. destruct p, p'; cbn; intros E; try reflexivity; discriminate E. Qed.

Lemma bump_lookup (key k : string) (m : gmap string nat) :
  default 0%nat (bump key m !! k)
  = ((if decide (key = k) then 1 else 0) + default 0%nat (m !! k))%nat
  /\ (is_Some (bump key m !! k) <-> key = k \/ is_Some (m !! k)).
Proof.
  unfold bump. destruct (decide (key = k)) as [->|ne].
  - rewrite lookup_insert_eq. cbn. split; [lia|]. split; eauto.
  - rewrite lookup_insert_ne by exact ne. split; [reflexivity|].
    split; [auto|]. intros [?|?]; [contradiction|assumption].
Qed.

Lemma stats_fold (ds : list Decision) :
  forall s0 : Stats,
  let s := fold_left statsStep ds s0 in
  totalDecisions s = totalDecisions s0
  /\ byStatus_pending s = byStatus_pending s0
  /\ byStatus_deliberating s = byStatus_deliberating s0
  /\ byStatus_consensus_reached s = byStatus_consensus_reached s0
  /\ byStatus_deadlock s = byStatus_deadlock s0
  /\ (forall c,
      default 0%nat (byCategory s !! Category_text c)
      = (default 0%nat (byCategory s0 !! Category_text c)
         + List.length (filter (fun d => category d = c) ds))%nat)
  /\ (forall p,
      default 0%nat (byPriority s !! Priority_text p)
      = (default 0%nat (byPriority s0 !! Priority_text p)
         + List.length (filter (fun d => priority d = p) ds))%nat)
  /\ (outcomes_approved s + outcomes_rejected s + outcomes_needs_revision s
      = outcomes_approved s0 + outcomes_rejected s0
        + outcomes_needs_revision s0
        + List.length (filter (fun d => is_Some (consensus d)) ds))%nat
  /\ (unanimousDecisions s
      = unanimousDecisions s0
        + List.length
            (List.filter
               (fun d => match consensus d with
                         | Some c => unanimity c
                         | None => false
                         end) ds))%nat.
Proof.
  induction ds as [|d ds IH]; intros s0; cbn [fold_left].
  - cbn. repeat split; intros; lia.
  - destruct (IH (statsStep s0 d)) as (T & P & D & C & K & cat & pri & out & una).
    cbv zeta. rewrite T, P, D, C, K. cbn [statsStep totalDecisions
      byStatus_pending byStatus_deliberating byStatus_consensus_reached
      byStatus_deadlock].
    repeat (split; [reflexivity|]).
    split; [|split; [|split]].
    + intros c. rewrite cat. cbn [statsStep byCategory].
      rewrite (proj1 (bump_lookup _ _ _)), filter_cons.
      destruct (decide (Category_text (category d) = Category_text c))
        as [E|N], (decide (category d = c)) as [E'|N']; cbn [List.length];
        try lia.
      * apply Category_text_inj in E. contradiction.
      * subst c. contradiction.
    + intros p. rewrite pri. cbn [statsStep byPriority].
      rewrite (proj1 (bump_lookup _ _ _)), filter_cons.
      destruct (decide (Priority_text (priority d) = Priority_text p))
        as [E|N], (decide (priority d = p)) as [E'|N']; cbn [List.length];
        try lia.
      * apply Priority_text_inj in E. contradiction.
      * subst p. contradiction.
    + rewrite out, filter_cons. cbn [statsStep outcomes_approved
        outcomes_rejected outcomes_needs_revision].
      destruct (consensus d) as [c|].
      * destruct (decide (is_Some (Some c))) as [?|n];
          [|exfalso; apply n; eauto].
        cbn [List.length].
        destruct (outcome c);
          repeat match goal with
                 | |- context [bool_decide ?P] =>
                     first [rewrite (bool_decide_eq_true_2 P) by reflexivity
                           |rewrite (bool_decide_eq_false_2 P) by discriminate]
                 end; lia.
      * destruct (decide (is_Some None)) as [[? [=]]|?]. lia.
    + rewrite una. cbn [statsStep unanimousDecisions List.filter].
      destruct (consensus d) as [c|]; [|lia].
      destruct (unanimity c); cbn [List.length]; lia.
Qed.

(** X24. The statistics add up: the four status counts sum to the number
    of decisions; each category and each priority is counted as often as
    it occurs; the three outcome counts sum to the number of decisions
    that have a consensus, of which the unanimous ones are a part. *)
Theorem stats_add_up (ds : list Decision) :
  let s := stats ds in
  totalDecisions s = List.length ds
  /\ (byStatus_pending s + byStatus_deliberating s
      + byStatus_consensus_reached s + byStatus_deadlock s
      = List.length ds)%nat
  /\ (forall c,
      default 0%nat (byCategory s !! Category_text c)
      = List.length (filter (fun d => category d = c) ds))
  /\ (forall p,
      default 0%nat (byPriority s !! Priority_text p)
      = List.length (filter (fun d => priority d = p) ds))
  /\ (outcomes_approved s + outcomes_rejected s + outcomes_needs_revision s
      = List.length (filter (fun d => is_Some (consensus d)) ds))%nat
  /\ unanimousDecisions s
     <= List.length (filter (fun d => is_Some (consensus d)) ds).
Proof.
  cbv zeta. unfold stats.
  match goal with
  | |- context [fold_left statsStep ds ?s0] =>
      destruct (stats_fold ds s0) as (T & P & D & C & K & cat & pri & out & una)
  end.
  rewrite T, P, D, C, K. cbn [totalDecisions byStatus_pending
    byStatus_deliberating byStatus_consensus_reached byStatus_deadlock].
  split; [reflexivity|]. split.
  { unfold withStatus. clear. induction ds as [|d ds IH]; [reflexivity|].
    rewrite !filter_cons. cbn [List.length].
    destruct (decide (status d = pending)), (decide (status d = deliberating)),
      (decide (status d = consensus_reached)), (decide (status d = deadlock));
      cbn [List.length]; try congruence; try lia.
    destruct (status d); congruence. }
  split; [intros c; rewrite cat; cbn; rewrite lookup_empty; reflexivity|].
  split; [intros p; rewrite pri; cbn; rewrite lookup_empty; reflexivity|].
  split; [rewrite out; cbn; reflexivity|].
  rewrite una. cbn [unanimousDecisions]. cbn [Nat.add]. clear.
  induction ds as [|d ds IH]; [reflexivity|].
  rewrite filter_cons. cbn [List.filter].
  destruct (consensus d) as [c|].
  - destruct (decide (is_Some (Some c))) as [?|n];
      [|exfalso; apply n; eauto].
    destruct (unanimity c); cbn [List.length]; lia.
  - destruct (decide (is_Some None)) as [[? [=]]|?]. exact IH.
Qed.

Lemma replace_other (m' : AIModel) (new : AIResponse) (rs : list AIResponse) :
  forall i r, rs !! i = Some r -> model r = model new -> m' <> model new ->
  filter (fun x => model x = m') (<[i := new]> rs)
  = filter (fun x => model x = m') rs.
Proof.
  induction rs as [|r0 rs IH]; intros i r L E ne; [discriminate|].
  destruct i as [|i]; cbn in L.
  - injection L as ->.
    change (<[0%nat := new]> (r :: rs)) with (new :: rs).
    rewrite !filter_cons.
    destruct (decide (model new = m')); [congruence|].
    destruct (decide (model r = m')); [congruence|]. reflexivity.
  - change (<[S i := new]> (r0 :: rs)) with (r0 :: <[i := new]> rs).
    rewrite !filter_cons, (IH i r L E ne). reflexivity.
Qed.

(** After [addAIResponse] the list of the decision holds the new
    response as the only one of its voter, and the responses of the
    other voters as before. *)
Lemma storedAfter_filters st ins (response : AIResponse) :
  let old := default [] (aiResponses st !! ins_decisionId ins) in
  let new := storedAfter st ins response in
  NoDup (map model old) ->
  filter (fun x => model x = model response) new = [response]
  /\ forall m', m' <> model response ->
       filter (fun x => model x = m') new = filter (fun x => model x = m') old.
Proof.
  cbv zeta. intros N. unfold storedAfter.
  destruct (findIndex _ _) as [i|] eqn:F.
  - destruct (findIndex_Some _ _ _ F) as (r & L & E).
    split.
    + apply (replace_in_place (model response) response _ eq_refl N i r L E).
    + intros m' ne. apply (replace_other m' response _ i r L E ne).
  - apply findIndex_None in F. split.
    + rewrite filter_app, (filter_absent _ _ F), filter_cons.
      destruct (decide (model response = model response)); [|congruence].
      reflexivity.
    + intros m' ne. rewrite filter_app, filter_cons.
      destruct (decide (model response = m')); [congruence|].
      cbn. apply app_nil_r.
Qed.

Lemma saveResponses_stores (key : string)
    (results : list Deliberation.AIDeliberationResult) :
  forall (st : MemStorage) (k : nat),
  NoDup (map Deliberation.model results) ->
  (forall r, In r results -> schemaError r = None) ->
  NoDup (map model (getAIResponses st key)) ->
  let st' := fst (saveResponses st key results k) in
  snd (saveResponses st key results k) = None
  /\ NoDup (map model (getAIResponses st' key))
  /\ (forall r, In r results ->
      exists resp,
        filter (fun x => model x = Deliberation.model r)
          (getAIResponses st' key) = [resp]
        /\ vote resp = Deliberation.vote r
        /\ reasoning resp = Deliberation.reasoning r)
  /\ (forall key', is_Some (decisions st !! key') ->
      is_Some (decisions st' !! key'))
  /\ consensuses st' = consensuses st.
Proof.
  induction results as [|r rest IH]; intros st k distinct valid N;
    cbn [Routes.saveResponses].
  - cbn. repeat split; auto. intros r [].
  - rewrite (valid r (or_introl eq_refl)).
    cbn [map] in distinct. apply NoDup_cons in distinct as [fresh_r distinct].
    set (added := addAIResponse st (toInsert key r) (fresh k)
                    (now (fresh (k + 1))) (fresh (k + 2))).
    assert (after : getAIResponses (fst added) key
                    = storedAfter st (toInsert key r) (snd added)).
    { unfold added. rewrite getAIResponses_after_add. cbn [toInsert ins_decisionId].
      destruct (decide (key = key)); [reflexivity|congruence]. }
    destruct (storedAfter_filters st (toInsert key r) (snd added) N)
      as [mine others].
    assert (N1 : NoDup (map model (getAIResponses (fst added) key))).
    { rewrite after. apply storedAfter_NoDup, N. }
    destruct (IH (fst added) (k + 3)%nat distinct
                (fun r' I => valid r' (or_intror I)) N1)
      as (ok & N' & stored & kept & cons).
    cbv zeta. fold added. split; [exact ok|]. split; [exact N'|].
    split; [|split].
    + intros r' [<-|I]; [|apply stored, I].
      destruct (in_dec AIModel_eq_dec (Deliberation.model r)
                  (map Deliberation.model rest)) as [I|NI].
      { exfalso. apply fresh_r, list_elem_of_In, I. }
      exists (snd added). split; [|split; reflexivity].
      clear IH stored ok. revert NI N1 after mine.
      generalize (fst added). clear.
      intros st1 NI N1 after mine.
      assert (G : forall results st k,
                 ~ In (Deliberation.model r) (map Deliberation.model results) ->
                 filter (fun x => model x = Deliberation.model r)
                   (getAIResponses (fst (saveResponses st key results k)) key)
                 = filter (fun x => model x = Deliberation.model r)
                     (getAIResponses st key)).
      { clear. induction results as [|r' rest IH]; intros st k NI;
          cbn [Routes.saveResponses]; [reflexivity|].
        destruct (schemaError r'); [reflexivity|].
        rewrite IH by (cbn in NI; tauto).
        rewrite getAIResponses_after_add. cbn [toInsert ins_decisionId].
        destruct (decide (key = key)); [|congruence].
        unfold storedAfter. cbn [snd addAIResponse model toInsert ins_model
          ins_decisionId].
        destruct (findIndex _ _) as [i|] eqn:F.
        - destruct (findIndex_Some _ _ _ F) as (r0 & L & E).
          apply (replace_other _ _ _ i r0 L).
          + exact E.
          + cbn. intros E'. apply NI. cbn. auto.
        - rewrite filter_app, filter_cons. cbn [model].
          destruct (decide (Deliberation.model r' = Deliberation.model r))
            as [E'|_].
          + exfalso. apply NI. cbn. auto.
          + cbn. apply app_nil_r. }
      rewrite (G rest st1 (k + 3)%nat NI), after. exact mine.
    + intros key' S. apply kept. unfold added.
      rewrite addAIResponse_decisions. destruct S as [d ->].
      destruct (_ && _); eauto.
    + rewrite cons. apply addAIResponse_consensuses.
Qed.

Lemma deliberate_returns (completions : AIModel -> Deliberation.Completion)
    (race : list AIModel) (rs : list Deliberation.AIDeliberationResult) :
  deliberate completions race = inr rs ->
  map Deliberation.model rs = [grok; chatgpt; claude].
Proof.
  unfold Routes.deliberate. intros P.
  destruct (Promise_all_three _ _ _ P) as [values _].
  unfold Autonomous.Promise_all in P.
  destruct (Autonomous.firstRejection _) eqn:F; [discriminate|].
  rewrite map_app in F. apply firstRejection_app_None in F.
  cbn [map Autonomous.fulfilled Autonomous.firstRejection] in values, F.
  destruct (getModelResponse grok _) as [?|r1] eqn:E1;
    [discriminate|].
  destruct (getModelResponse chatgpt _) as [?|r2] eqn:E2;
    [discriminate|].
  destruct (getModelResponse claude _) as [?|r3] eqn:E3;
    [discriminate|].
  subst rs. cbn [map].
  rewrite (proj1 (getModelResponse_ok _ _ _ _ E1)),
    (proj1 (getModelResponse_ok _ _ _ _ E2)),
    (proj1 (getModelResponse_ok _ _ _ _ E3)). reflexivity.
Qed.

Lemma saveResponses_no_decision (key key' : string)
    (results : list Deliberation.AIDeliberationResult) :
  forall (st : MemStorage) (k : nat),
  decisions st !! key' = None ->
  decisions (fst (saveResponses st key results k)) !! key' = None.
Proof.
  induction results as [|r rest IH]; intros st k D;
    cbn [Routes.saveResponses]; [exact D|].
  destruct (schemaError r); [exact D|].
  apply IH. rewrite addAIResponse_decisions, D. reflexivity.
Qed.

Lemma resumed_run (calls meanwhile : list Call) :
  resumed (run calls) meanwhile = run (calls ++ meanwhile).
Proof. unfold resumed, run. rewrite fold_left_app. reflexivity. Qed.

(** What the two deliberation handlers write once the voters have
    answered, on the store they find then: the three responses in any
    case, the consensus and the status only if the decision is still
    there. *)
Lemma concludeDeliberation_stores (st : MemStorage) (key : string)
    (rs : list Deliberation.AIDeliberationResult) (k : nat)
    (onZodError : string -> DeliberateReply) :
  NoDup (map model (getAIResponses st key)) ->
  map Deliberation.model rs = [grok; chatgpt; claude] ->
  (forall r, In r rs -> schemaError r = None) ->
  let st' := fst (concludeDeliberation st key rs k onZodError) in
  let reply := snd (concludeDeliberation st key rs k onZodError) in
  let data := Deliberation.calculateConsensus rs in
  List.length (getAIResponses st' key) = 3%nat
  /\ (forall r, In r rs ->
      exists resp,
        filter (fun x => model x = Deliberation.model r)
          (getAIResponses st' key) = [resp]
        /\ vote resp = Deliberation.vote r)
  /\ match decisions st !! key with
     | Some _ =>
         exists cons,
           reply = Deliberated (getDecision st' key) rs (Some cons)
           /\ getConsensus st' key = Some cons
           /\ (status <$> getDecision st' key) = Some consensus_reached
           /\ outcome cons = Deliberation.outcome data
           /\ unanimity cons = Deliberation.unanimity data
           /\ voteSummary cons = Deliberation.voteSummary data
           /\ Tally.total (voteSummary cons) = 3%nat
     | None =>
         reply = Deliberated None rs None
         /\ getDecision st' key = None
         /\ getConsensus st' key = getConsensus st key
     end.
Proof.
  intros N voters valid. cbv zeta. unfold Routes.concludeDeliberation.
  assert (distinct : NoDup (map Deliberation.model rs)).
  { rewrite voters. repeat constructor; rewrite ?list_elem_of_In; cbn;
      intuition discriminate. }
  destruct (saveResponses_stores key rs st k distinct valid N)
    as (ok & N' & stored & kept & cons).
  pose proof (saveResponses_no_decision key key rs st k) as gone.
  destruct (saveResponses st key rs k) as [st1 err] eqn:S.
  cbn [fst snd] in *. subst err.
  assert (three : List.length (getAIResponses st1 key) = 3%nat).
  { apply all_three_responses; [exact N'|].
    apply allResponded_spec. intros m.
    assert (Hm : In m (map Deliberation.model rs))
      by (rewrite voters; destruct m; cbn; auto).
    apply in_map_iff in Hm as (r & <- & Hr).
    destruct (stored r Hr) as (resp & F & _).
    assert (Hin : resp ∈ filter (fun x => model x = Deliberation.model r)
                           (getAIResponses st1 key))
      by (rewrite F; apply list_elem_of_singleton; reflexivity).
    apply list_elem_of_filter in Hin as [<- Hin].
    apply in_map, list_elem_of_In, Hin. }
  destruct (decisions st !! key) as [d0|] eqn:D0.
  - destruct (kept key (ex_intro _ d0 D0)) as [d1 D1].
    match goal with
    | |- context [setConsensus st1 key ?data ?s ?n ?l1 ?l2] =>
        destruct (setConsensus_maps st1 key data s n l1 l2 d1 D1)
          as (c & d' & Ret & C & D & R & I & St & O & U & V & _ & K);
        destruct (setConsensus st1 key data s n l1 l2) as [st2 c'] eqn:E
    end.
    cbn [fst snd] in *. subst c'.
    assert (same : getAIResponses st2 key = getAIResponses st1 key).
    { unfold getAIResponses. rewrite R. reflexivity. }
    rewrite same. split; [exact three|].
    split;
      [intros r Hr; destruct (stored r Hr) as (resp & F & Vt & _); eauto|].
    exists c. split; [reflexivity|].
    split; [unfold getConsensus; rewrite C, lookup_insert_eq; reflexivity|].
    split; [unfold getDecision; rewrite D, lookup_insert_eq; cbn; congruence|].
    split; [exact O|]. split; [exact U|]. split; [exact V|].
    rewrite V. cbn [toConsensusInput in_voteSummary].
    rewrite voteSummary_total, <- (length_map Deliberation.model), voters.
    reflexivity.
  - specialize (gone eq_refl). unfold setConsensus. rewrite gone.
    cbn [fst snd]. split; [exact three|].
    split;
      [intros r Hr; destruct (stored r Hr) as (resp & F & Vt & _); eauto|].
    unfold getDecision, getConsensus. rewrite gone, cons. auto.
Qed.

(** X25. In a state the storage can reach, a deliberation on an open
    decision in which the three voters answer and their results pass the
    schema, and which finds the decision still there when the answers
    are in, whatever else the requests served during the wait did, ends
    with the decision at [consensus_reached], exactly three responses
    stored, one per voter and each carrying that voter's vote, and the
    consensus [calculateConsensus] computes from the three results
    stored and returned; its vote summary adds up to 3. *)
Theorem postDeliberate_end_to_end (calls meanwhile : list Call)
    (key : string) (completions : AIModel -> Deliberation.Completion)
    (race : list AIModel) (d : Decision)
    (rs : list Deliberation.AIDeliberationResult) :
  getDecision (run calls) key = Some d ->
  status d <> consensus_reached ->
  deliberate completions race = inr rs ->
  (forall r, In r rs -> schemaError r = None) ->
  is_Some (getDecision (resumed (run calls) meanwhile) key) ->
  let st' :=
    fst (postDeliberate (run calls) key completions race meanwhile) in
  let data := Deliberation.calculateConsensus rs in
  exists cons,
    snd (postDeliberate (run calls) key completions race meanwhile)
    = Deliberated (getDecision st' key) rs (Some cons)
    /\ getConsensus st' key = Some cons
    /\ (status <$> getDecision st' key) = Some consensus_reached
    /\ outcome cons = Deliberation.outcome data
    /\ unanimity cons = Deliberation.unanimity data
    /\ voteSummary cons = Deliberation.voteSummary data
    /\ Tally.total (voteSummary cons) = 3%nat
    /\ List.length (getAIResponses st' key) = 3%nat
    /\ (forall r, In r rs ->
        exists resp,
          filter (fun x => model x = Deliberation.model r)
            (getAIResponses st' key) = [resp]
          /\ vote resp = Deliberation.vote r).
Proof.
  intros G open returned valid still. cbv zeta.
  pose proof (deliberate_returns _ _ _ returned) as voters.
  unfold Routes.postDeliberate. rewrite G, returned.
  rewrite bool_decide_eq_false_2 by exact open. cbv zeta.
  assert (N : NoDup (map model
                       (getAIResponses (resumed (run calls) meanwhile) key))).
  { rewrite resumed_run. unfold getAIResponses.
    destruct (aiResponses (run (calls ++ meanwhile)) !! key) as [l|] eqn:L;
      cbn.
    - apply (distinctVoters_run _ _ _ L).
    - constructor. }
  destruct (concludeDeliberation_stores (resumed (run calls) meanwhile) key
              rs 0 DeliberationFailed N voters valid)
    as (three & stored & found).
  unfold getDecision in still.
  destruct (decisions (resumed (run calls) meanwhile) !! key) as [d1|];
    [|destruct still as [? [=]]].
  destruct found as (c & Ret & C & St & O & U & V & T).
  exists c. auto 10.
Qed.

(** X26. When the decision is deleted while the handler waits for the
    voters, the handler still answers as for a completed deliberation,
    with the voters' results but with no decision and no consensus: it
    stores the three responses under the identifier of the decision that
    is gone, and neither a decision nor, in a state the storage can
    reach, a consensus. *)
Theorem postDeliberate_after_delete (calls meanwhile : list Call)
    (key : string) (completions : AIModel -> Deliberation.Completion)
    (race : list AIModel) (d : Decision)
    (rs : list Deliberation.AIDeliberationResult) :
  getDecision (run calls) key = Some d ->
  status d <> consensus_reached ->
  deliberate completions race = inr rs ->
  (forall r, In r rs -> schemaError r = None) ->
  getDecision (resumed (run calls) meanwhile) key = None ->
  let st' :=
    fst (postDeliberate (run calls) key completions race meanwhile) in
  snd (postDeliberate (run calls) key completions race meanwhile)
  = Deliberated None rs None
  /\ getDecision st' key = None
  /\ getConsensus st' key = None
  /\ List.length (getAIResponses st' key) = 3%nat
  /\ (forall r, In r rs ->
      exists resp,
        filter (fun x => model x = Deliberation.model r)
          (getAIResponses st' key) = [resp]
        /\ vote resp = Deliberation.vote r).
Proof.
  intros G open returned valid gone. cbv zeta.
  pose proof (deliberate_returns _ _ _ returned) as voters.
  unfold Routes.postDeliberate. rewrite G, returned.
  rewrite bool_decide_eq_false_2 by exact open. cbv zeta.
  assert (N : NoDup (map model
                       (getAIResponses (resumed (run calls) meanwhile) key))).
  { rewrite resumed_run. unfold getAIResponses.
    destruct (aiResponses (run (calls ++ meanwhile)) !! key) as [l|] eqn:L;
      cbn.
    - apply (distinctVoters_run _ _ _ L).
    - constructor. }
  destruct (concludeDeliberation_stores (resumed (run calls) meanwhile) key
              rs 0 DeliberationFailed N voters valid)
    as (three & stored & found).
  assert (none : getConsensus (resumed (run calls) meanwhile) key = None).
  { destruct (getConsensus (resumed (run calls) meanwhile) key) as [c|] eqn:C;
      [|reflexivity].
    exfalso. unfold getConsensus in C.
    destruct (proj2 (coherent_run (calls ++ meanwhile)) key) as [d1 D1].
    - rewrite <- resumed_run, C. eauto.
    - rewrite <- resumed_run in D1. unfold getDecision in gone.
      rewrite D1 in gone. discriminate. }
  unfold getDecision in gone.
  destruct (decisions (resumed (run calls) meanwhile) !! key) as [d1|];
    [discriminate|].
  destruct found as (Ret & D & C).
  rewrite C, none. auto 10.
Qed.

End RoutesFacts.

(** * The further theorems at work on sample inputs *)
Section MoreRuns.
Import Schema.

Lemma consensus_ignores_order_witness :
  let rs :=
    [Samples.ballot grok approve; Samples.ballot chatgpt reject;
     Samples.ballot claude approve] in
  let rs' :=
    [Samples.ballot claude approve; Samples.ballot chatgpt reject;
     Samples.ballot grok approve] in
  Deliberation.outcome (Deliberation.calculateConsensus rs) = approved
  /\ Deliberation.outcome (Deliberation.calculateConsensus rs)
     = Deliberation.outcome (Deliberation.calculateConsensus rs')
  /\ Deliberation.unanimity (Deliberation.calculateConsensus rs)
     = Deliberation.unanimity (Deliberation.calculateConsensus rs')
  /\ Deliberation.voteSummary (Deliberation.calculateConsensus rs)
     = Deliberation.voteSummary (Deliberation.calculateConsensus rs').
Proof.
  cbv zeta. split; [reflexivity|].
  apply consensus_ignores_order.
  exact (Permutation_rev
           [Samples.ballot grok approve; Samples.ballot chatgpt reject;
            Samples.ballot claude approve]).
Defined.

Lemma unanimous_is_decided_witness :
  let rs :=
    [Samples.ballot grok reject; Samples.ballot chatgpt reject;
     Samples.ballot claude reject] in
  Deliberation.unanimity (Deliberation.calculateConsensus rs) = true
  /\ Deliberation.outcome (Deliberation.calculateConsensus rs)
     <> needs_revision.
Proof.
  cbv zeta. split; [reflexivity|].
  apply unanimous_is_decided. reflexivity.
Defined.

Lemma history_keeps_newest_100_witness :
  let ds := [MoreSamples.decisionAt "1"; MoreSamples.decisionAt "2"] in
  let h := fold_left (fun h d => Autonomous.pushDecision d h) ds [] in
  h = [MoreSamples.decisionAt "2"; MoreSamples.decisionAt "1"]
  /\ List.length h = 2%nat.
Proof.
  cbv zeta.
  destruct (history_keeps_newest_100
              [MoreSamples.decisionAt "1"; MoreSamples.decisionAt "2"] [])
    as [E L]; [cbn; lia|].
  split; [exact E|exact L].
Defined.

Lemma buyback_amount_capped_witness :
  let calls :=
    snd (Autonomous.executeAction Samples.printN Samples.exactProduct
           Samples.tradeOk Autonomous.buyback MoreSamples.context) in
  calls = [Autonomous.BuyToken "Mint1" (Js.Fin (1 # 10))]
  /\ Js.number_le (Js.Fin (1 # 10)) (1 # 10) = true.
Proof.
  cbv zeta. split; [reflexivity|].
  destruct (buyback_amount_capped Samples.noNumber Samples.printN
              Samples.exactProduct Samples.tradeOk Autonomous.buyback
              MoreSamples.context "Mint1" (Js.Fin (1 # 10)))
    as (_ & _ & _ & _ & [E|L]); [left; reflexivity|discriminate E|exact L].
Defined.

Lemma cycle_ignores_arrival_order_witness :
  let run race :=
    Autonomous.runAutonomousCycle Samples.noNumber Samples.printN
      Samples.exactProduct Samples.tradeOk [] (Some Samples.token)
      Samples.wallet None Samples.clock
      (fun _ => Samples.reply Autonomous.buyback (Samples.percent 80)) race in
  run [grok; chatgpt; claude] = run [claude; chatgpt; grok].
Proof.
  cbv zeta. apply cycle_ignores_arrival_order.
  intros m. eexists. reflexivity.
Defined.

Lemma falsy_confidence_counts_as_50_witness :
  let p :=
    {| Autonomous.parsed_action := Some Autonomous.burn;
       Autonomous.parsed_reasoning := Some "ok";
       Autonomous.parsed_confidence := Js.JsNumber (Js.Fin 0);
       Autonomous.parsed_amount := None |} in
  Js.ToBoolean (Autonomous.parsed_confidence p) = false
  /\ exists rec,
      Autonomous.getAIRecommendation grok (Autonomous.ParsedObject p) = inr rec
      /\ Autonomous.confidence rec = Js.JsNumber (Js.Fin 50)
      /\ Autonomous.counted Samples.noNumber rec = true
      /\ Js.gt Samples.noNumber (Autonomous.confidence rec) 50 = false
      /\ Js.le Samples.noNumber (Autonomous.confidence rec) 50 = true.
Proof.
  cbv zeta. split; [reflexivity|].
  apply (falsy_confidence_counts_as_50 Samples.noNumber). reflexivity.
Defined.

Lemma decision_status_lifecycle_witness :
  match Storage.getDecision (Storage.run MoreSamples.votedOn) "id-1" with
  | Some d =>
      Storage.status d = deliberating
      /\ Storage.decision_id d = "id-1"
      /\ (Storage.status d = deliberating ->
          Storage.allResponded (Storage.responses d) = true
          /\ List.length (Storage.responses d) = 3%nat
          /\ NoDup (map model (Storage.responses d)))
  | None => False
  end.
Proof.
  destruct (Storage.getDecision (Storage.run MoreSamples.votedOn) "id-1")
    as [d|] eqn:G; [|vm_compute in G; discriminate G].
  destruct (decision_status_lifecycle MoreSamples.votedOn "id-1" d G)
    as (I & _ & _ & D & _).
  split; [|split; [exact I|exact D]].
  vm_compute in G. injection G as <-. reflexivity.
Defined.

Lemma createDecision_reads_back_witness :
  let created :=
    Storage.createDecision (Storage.run []) MoreSamples.darkMode
      (Samples.stamp "1") (Samples.stamp "2") in
  Storage.decisions (Storage.run []) !! "id-1" = None
  /\ Storage.getDecision (fst created) "id-1" = Some (snd created)
  /\ Storage.status (snd created) = pending
  /\ Storage.title (snd created) = "Add dark mode".
Proof.
  cbv zeta. split; [reflexivity|].
  destruct (createDecision_reads_back [] MoreSamples.darkMode
              (Samples.stamp "1") (Samples.stamp "2") eq_refl)
    as (G & S & _ & _ & T & _).
  split; [exact G|]. split; [exact S|exact T].
Defined.

Lemma postConsensus_counts_three_votes_witness :
  let handled :=
    Routes.postConsensus Samples.printN MoreSamples.freshStamp
      (Storage.run MoreSamples.votedOn) "id-1" in
  match snd handled with
  | Routes.ConsensusCreated c =>
      List.length (Storage.getAIResponses (Storage.run MoreSamples.votedOn)
                     "id-1") = 3%nat
      /\ exists cons,
          c = Some cons
          /\ StorageViews.getConsensus (fst handled) "id-1" = Some cons
          /\ Tally.total (Storage.voteSummary cons) = 3%nat
  | _ => False
  end.
Proof.
  cbv zeta.
  destruct (snd (Routes.postConsensus Samples.printN MoreSamples.freshStamp
                   (Storage.run MoreSamples.votedOn) "id-1"))
    as [|responded missing|c] eqn:E;
    [vm_compute in E; discriminate E|vm_compute in E; discriminate E|].
  destruct (postConsensus_counts_three_votes Samples.printN
              MoreSamples.freshStamp MoreSamples.votedOn "id-1" c E)
    as (three & cons & Ec & G & _ & _ & T & _).
  split; [exact three|]. exists cons. auto.
Defined.

Lemma postCreateAndDeliberate_leaves_pending_witness :
  let completions m :=
    match m with
    | chatgpt => Deliberation.CompletionFailed (Js.ErrorObject "503")
    | _ => MoreSamples.answers "approve"
    end in
  let handled :=
    Routes.postCreateAndDeliberate Samples.parseIntAscii MoreSamples.accepts
      MoreSamples.freshStamp Storage.empty MoreSamples.darkMode completions
      [grok; chatgpt; claude] [] in
  snd handled = Routes.DeliberationFailed "ChatGPT failed: 503"
  /\ exists d,
      Storage.getDecision (fst handled) (Storage.uuid (MoreSamples.freshStamp 0))
      = Some d
      /\ Storage.status d = pending /\ Storage.responses d = []
      /\ Storage.title d = "Add dark mode".
Proof.
  cbv zeta. split; [reflexivity|].
  exact (proj2 (proj2 (proj2
    (postCreateAndDeliberate_leaves_pending Samples.parseIntAscii
       MoreSamples.accepts
       MoreSamples.freshStamp Storage.empty MoreSamples.darkMode
       (fun m =>
          match m with
          | chatgpt => Deliberation.CompletionFailed (Js.ErrorObject "503")
          | _ => MoreSamples.answers "approve"
          end)
       [grok; chatgpt; claude] [] chatgpt
       (Js.ErrorObject "ChatGPT failed: 503") eq_refl)))).
Defined.

(** While the handler waits, another client submits a rejection in
    grok's name; the handler then stores grok's own approval over it. *)
Lemma postDeliberate_end_to_end_witness :
  let calls :=
    [Storage.CreateDecision MoreSamples.darkMode (Samples.stamp "1")
       (Samples.stamp "2")] in
  let meanwhile :=
    [Storage.AddAIResponse (MoreSamples.submissionFor "id-1" grok reject)
       (Samples.stamp "3") "t3" (Samples.stamp "4")] in
  let completions m :=
    match m with
    | claude => MoreSamples.answers "reject"
    | _ => MoreSamples.answers "approve"
    end in
  let handled :=
    Routes.postDeliberate Samples.parseIntAscii MoreSamples.accepts
      MoreSamples.freshStamp (Storage.run calls) "id-1" completions
      [grok; chatgpt; claude] meanwhile in
  exists cons,
    StorageViews.getConsensus (fst handled) "id-1" = Some cons
    /\ (Storage.status <$> Storage.getDecision (fst handled) "id-1")
       = Some consensus_reached
    /\ Storage.outcome cons = approved
    /\ Tally.total (Storage.voteSummary cons) = 3%nat
    /\ List.length (Storage.getAIResponses (fst handled) "id-1") = 3%nat.
Proof.
  cbv zeta.
  set (calls := [Storage.CreateDecision MoreSamples.darkMode
                   (Samples.stamp "1") (Samples.stamp "2")]).
  set (meanwhile :=
         [Storage.AddAIResponse (MoreSamples.submissionFor "id-1" grok reject)
            (Samples.stamp "3") "t3" (Samples.stamp "4")]).
  set (completions := fun m =>
         match m with
         | claude => MoreSamples.answers "reject"
         | _ => MoreSamples.answers "approve"
         end).
  destruct (Storage.getDecision (Storage.run calls) "id-1") as [d|] eqn:G;
    [|vm_compute in G; discriminate G].
  destruct (Routes.deliberate Samples.parseIntAscii completions
              [grok; chatgpt; claude])
    as [e|rs] eqn:R; [vm_compute in R; discriminate R|].
  assert (open : Storage.status d <> consensus_reached).
  { pose proof G as G'. vm_compute in G'. injection G' as <-. discriminate. }
  assert (still : is_Some (Storage.getDecision
                             (Routes.resumed (Storage.run calls) meanwhile)
                             "id-1")).
  { vm_compute. eauto. }
  destruct (postDeliberate_end_to_end Samples.parseIntAscii
              MoreSamples.accepts MoreSamples.freshStamp calls meanwhile "id-1" completions
              [grok; chatgpt; claude] d rs G open R (fun _ _ => eq_refl)
              still)
    as (cons & _ & C & S & O & _ & _ & T & L & _).
  exists cons. split; [exact C|]. split; [exact S|].
  split; [|split; [exact T|exact L]].
  rewrite O. pose proof R as R'. vm_compute in R'. injection R' as <-.
  reflexivity.
Defined.

(** While the handler waits, another client deletes the decision. *)
Lemma postDeliberate_after_delete_witness :
  let calls :=
    [Storage.CreateDecision MoreSamples.darkMode (Samples.stamp "1")
       (Samples.stamp "2")] in
  let meanwhile := [Storage.DeleteDecision "id-1" (Samples.stamp "3")] in
  let completions m :=
    match m with
    | claude => MoreSamples.answers "reject"
    | _ => MoreSamples.answers "approve"
    end in
  let handled :=
    Routes.postDeliberate Samples.parseIntAscii MoreSamples.accepts
      MoreSamples.freshStamp (Storage.run calls) "id-1" completions
      [grok; chatgpt; claude] meanwhile in
  is_Some (Storage.getDecision (Storage.run calls) "id-1")
  /\ Storage.getDecision (fst handled) "id-1" = None
  /\ StorageViews.getConsensus (fst handled) "id-1" = None
  /\ map Schema.vote (Storage.getAIResponses (fst handled) "id-1")
     = [approve; approve; reject]
  /\ exists rs, snd handled = Routes.Deliberated None rs None.
Proof.
  cbv zeta.
  set (calls := [Storage.CreateDecision MoreSamples.darkMode
                   (Samples.stamp "1") (Samples.stamp "2")]).
  set (meanwhile := [Storage.DeleteDecision "id-1" (Samples.stamp "3")]).
  set (completions := fun m =>
         match m with
         | claude => MoreSamples.answers "reject"
         | _ => MoreSamples.answers "approve"
         end).
  destruct (Storage.getDecision (Storage.run calls) "id-1") as [d|] eqn:G;
    [|vm_compute in G; discriminate G].
  destruct (Routes.deliberate Samples.parseIntAscii completions
              [grok; chatgpt; claude])
    as [e|rs] eqn:R; [vm_compute in R; discriminate R|].
  assert (open : Storage.status d <> consensus_reached).
  { pose proof G as G'. vm_compute in G'. injection G' as <-. discriminate. }
  destruct (postDeliberate_after_delete Samples.parseIntAscii
              MoreSamples.accepts MoreSamples.freshStamp calls meanwhile "id-1" completions
              [grok; chatgpt; claude] d rs G open R (fun _ _ => eq_refl)
              eq_refl)
    as (Ret & D & C & _).
  split; [eauto|]. split; [exact D|]. split; [exact C|].
  split; [reflexivity|]. exists rs. exact Ret.
Defined.

End MoreRuns.
